(** * ISP Health Monitor: a shallow embedding of the probe-acquisition core

    The development follows the Python sources of the integration
    ([sensors.py], [ip_info.py], [isp_health.py], [coordinator.py]).

    Conventions of the embedding:
    - a Python [dict] with string keys is a [gmap string value];
    - a coroutine or method with side effects is a computation [M W A]
      over an abstract world [W] (processes, sockets, clocks, the call
      history), which either returns a value or raises an exception;
    - a Python [float] is a binary64 number.  Module [Binary64] embeds
      the latency, packet-loss and jitter sensors with the arithmetic of
      the interpreter: every operation rounded to the nearest double,
      [sum] adding from left to right, [round(x, 2)] correctly rounded,
      [**] through the [pow] of the platform.  What these sensors report
      is stated and proved there ([VDouble]);
    - next to it the same sensors, and the ratios of the other sensors,
      are embedded with every float read as the rational it stands for and
      the arithmetic exact ([VFloat]); [round(x, 2)] is then rounding to
      the nearest hundredth, ties to even.  This idealised embedding
      carries the properties that hold of a count, of a key or of a branch;
    - only subclasses of [Exception] are modelled as exceptions. *)

From Stdlib Require Import Ascii.
From stdpp Require Import base gmap strings list.
From Stdlib Require Import ZArith QArith Qround Qabs Lqa Lia.
From Stdlib Require Import SpecFloat.

Set Warnings "-register-all,-clear-no-such-hyp".

(** ** Python values, exceptions and effects *)

(** A float is held either as the rational it stands for ([VFloat]) or as
    the binary64 number it is ([VDouble]). *)
Inductive value :=
| VNone
| VBool (b : bool)
| VInt (z : Z)
| VFloat (q : Q)
| VDouble (x : spec_float)
| VStr (s : string)
| VList (l : list value)
| VDict (d : gmap string value).

Abbreviation dict := (gmap string value).

(** [d.get(k)]: the value stored under [k], [None] when the key is absent. *)
Definition dict_get (d : dict) (k : string) : value := default VNone (d !! k).

(** [d.get(k, dflt)]. *)
Definition dict_get_or (d : dict) (k : string) (dflt : value) : value :=
  default dflt (d !! k).

Inductive exn :=
| Exception (msg : string)
| TimeoutError
| ZeroDivisionError (msg : string)
| ValueError (msg : string)
| AttributeError (msg : string)
| KeyError (key : string)
| OverflowError (msg : string)
| TypeError (msg : string).

(** [str(e)] *)
Definition str_exn (e : exn) : string :=
  match e with
  | Exception msg | ZeroDivisionError msg | ValueError msg | AttributeError msg
  | OverflowError msg | TypeError msg => msg
  | TimeoutError => EmptyString
  | KeyError key => "'" +:+ key +:+ "'"
  end.

(** [isinstance(e, asyncio.TimeoutError)] *)
Definition is_timeout (e : exn) : bool :=
  match e with TimeoutError => true | _ => false end.

Inductive outcome (A : Type) :=
| Return (a : A)
| Raise (e : exn).
Arguments Return {A} a.
Arguments Raise {A} e.

(** A computation reads and changes the world and ends by returning or
    raising. *)
Definition M (W A : Type) : Type := W -> outcome A * W.

Definition ret {W A} (a : A) : M W A := fun w => (Return a, w).

Definition raise {W A} (e : exn) : M W A := fun w => (Raise e, w).

Definition bind {W A B} (c : M W A) (k : A -> M W B) : M W B :=
  fun w => match c w with
           | (Return a, w') => k a w'
           | (Raise e, w') => (Raise e, w')
           end.

(** [try: c  except Exception as e: h e] *)
Definition try_except {W A} (c : M W A) (h : exn -> M W A) : M W A :=
  fun w => match c w with
           | (Return a, w') => (Return a, w')
           | (Raise e, w') => h e w'
           end.

(** An operation that cannot raise (its body swallows every exception). *)
Definition total {W A} (f : W -> A * W) : M W A :=
  fun w => let (a, w') := f w in (Return a, w').

Notation "'let*' x ':=' c 'in' k" := (bind c (fun x => k))
  (at level 10, x pattern, c at level 100, k at level 200).

(** A result that is already known, used as a computation. *)
Definition lift {W A} (o : outcome A) : M W A := fun w => (o, w).

(** A dict display [{k1: v1, ...}] without repeated keys. *)
Definition mk_dict (items : list (string * value)) : dict := list_to_map items.

(** Truth value of a list: [if l:] *)
Definition truthy {A} (l : list A) : bool :=
  match l with [] => false | _ :: _ => true end.

(** [v == s] for a str [s]. *)
Definition eq_str (v : value) (s : string) : bool :=
  match v with VStr t => String.eqb t s | _ => false end.

(** Truth value of a value: [if v:] *)
Definition value_truthy (v : value) : bool :=
  match v with
  | VNone => false
  | VBool b => b
  | VInt z => negb (z =? 0)%Z
  | VFloat q => negb (Qeq_bool q 0)
  | VDouble x => match x with S754_zero _ => false | _ => true end
  | VStr s => negb (String.eqb s EmptyString)
  | VList l => truthy l
  | VDict d => truthy (map_to_list d)
  end.

(** [sub in s] for two strs. *)
Fixpoint str_contains (sub s : string) : bool :=
  String.prefix sub s
  || match s with
     | EmptyString => false
     | String _ rest => str_contains sub rest
     end.

(** [s.startswith(p)] *)
Definition startswith (s p : string) : bool := String.prefix p s.

(** ** Text *)

(** The characters that [str.split()] and [str.strip()] take for white
    space, among the characters below 256. *)
Definition is_space (c : ascii) : bool :=
  let n := nat_of_ascii c in
  ((9 <=? n)%nat && (n <=? 13)%nat) || ((28 <=? n)%nat && (n <=? 32)%nat)
  || (n =? 133)%nat || (n =? 160)%nat.

(** [s.split()]: the words of [s]; [word] holds the characters of the
    word being read. *)
Fixpoint split_words (s : string) (word : string) : list string :=
  match s with
  | EmptyString => if String.eqb word EmptyString then [] else [word]
  | String c rest =>
      if is_space c
      then (if String.eqb word EmptyString then split_words rest EmptyString
            else word :: split_words rest EmptyString)
      else split_words rest (word +:+ String c EmptyString)
  end.

Definition py_split (s : string) : list string := split_words s EmptyString.

(** [s.lstrip()] *)
Fixpoint lstrip (s : string) : string :=
  match s with
  | EmptyString => EmptyString
  | String c rest => if is_space c then lstrip rest else s
  end.

(** [s.strip()] *)
Definition strip (s : string) : string :=
  String.string_of_list_ascii
    (rev (String.list_ascii_of_string
            (lstrip (String.string_of_list_ascii (rev (String.list_ascii_of_string (lstrip s))))))).

(** [s.split(sep)] for a separator of one character. *)
Fixpoint split_char (sep : ascii) (s : string) : list string :=
  match s with
  | EmptyString => [EmptyString]
  | String c s' =>
      if Ascii.eqb c sep then EmptyString :: split_char sep s'
      else match split_char sep s' with
           | [] => [String c EmptyString]
           | piece :: pieces => String c piece :: pieces
           end
  end.

(** [s.split(sep)] for a separator of one or more characters: [skip]
    counts the characters of a separator still to pass over, [piece] holds
    the characters of the piece being read. *)
Fixpoint split_str_from (sep : string) (s : string) (skip : nat) (piece : string)
    : list string :=
  match s with
  | EmptyString => [piece]
  | String c rest =>
      match skip with
      | S skip' => split_str_from sep rest skip' piece
      | O =>
          if String.prefix sep s
          then piece :: split_str_from sep rest (String.length sep - 1) EmptyString
          else split_str_from sep rest 0 (piece +:+ String c EmptyString)
      end
  end.

Definition split_str (sep s : string) : list string := split_str_from sep s 0 EmptyString.

(** The line feed. *)
Definition LF : ascii := ascii_of_nat 10.

(** ** sensors.py: DNSConfigSensor *)

Module DNSConfigSensor.

Definition container_networks : list string :=
  [ "127.0.0.1"; "::1";  (* localhost *)
    "172.";              (* Docker default *)
    "192.168.";          (* Private networks *)
    "10.";               (* Private networks *)
    "169.254."           (* Link-local *) ].

Definition _is_container_dns (dns_ip : string) : bool :=
  existsb (fun network => startswith dns_ip network) container_networks.

(** A detection method: its [__name__] and its coroutine. *)
Definition method (W : Type) : Type := (string * M W (list string))%type.

(** The body of [for method in methods:], with the loop variables
    [dns_servers] and [source_used]; [break] ends the recursion. *)
Fixpoint detect_loop {W} (methods : list (method W))
    (dns_servers : list string) (source_used : string)
    : M W (list string * string) :=
  match methods with
  | [] => ret (dns_servers, source_used)
  | (name, call) :: rest =>
      fun w =>
        match call w with
        | (Return detected_dns, w1) =>
            if truthy detected_dns then
              let filtered_dns :=
                filter (fun dns => negb (_is_container_dns dns) = true) detected_dns in
              if truthy filtered_dns
              then (Return (dns_servers ++ filtered_dns, name), w1)
              else detect_loop rest dns_servers source_used w1
            else detect_loop rest dns_servers source_used w1
        | (Raise e, w1) => detect_loop rest dns_servers source_used w1
        end
  end.

Definition public_fallback : list string := ["8.8.8.8"; "1.1.1.1"].

(** [_get_system_dns_servers], for a given list of methods. *)
Definition get_system_dns_servers_with {W} (methods : list (method W))
    : M W (list string * string) :=
  let* (dns_servers, source_used) := detect_loop methods [] "unknown" in
  if negb (truthy dns_servers)
  then ret (public_fallback, "public_fallback")
  else ret (dns_servers, source_used).

Definition _get_common_dns_servers {W} : M W (list string) :=
  ret ["8.8.8.8"; "1.1.1.1"; "9.9.9.9"].

(** The five methods that talk to the outside world. *)
Record detectors (W : Type) := {
  _get_supervisor_dns : M W (list string);
  _get_docker_host_dns : M W (list string);
  _get_gateway_dns : M W (list string);
  _get_systemd_resolve_dns : M W (list string);
  _get_resolv_conf_dns : M W (list string);
}.
Arguments _get_supervisor_dns {W} _.
Arguments _get_docker_host_dns {W} _.
Arguments _get_gateway_dns {W} _.
Arguments _get_systemd_resolve_dns {W} _.
Arguments _get_resolv_conf_dns {W} _.

Definition methods {W} (self : detectors W) : list (method W) :=
  [ ("_get_supervisor_dns", _get_supervisor_dns self);
    ("_get_docker_host_dns", _get_docker_host_dns self);
    ("_get_gateway_dns", _get_gateway_dns self);
    ("_get_systemd_resolve_dns", _get_systemd_resolve_dns self);
    ("_get_resolv_conf_dns", _get_resolv_conf_dns self);
    ("_get_common_dns_servers", _get_common_dns_servers) ].

Definition _get_system_dns_servers {W} (self : detectors W)
    : M W (list string * string) :=
  get_system_dns_servers_with (methods self).

(** What the candidates of a method are worth to the chain. *)
Definition filtered (raw : list string) : list string :=
  filter (fun dns => negb (_is_container_dns dns) = true) raw.

(** The outcome of one method leaves the chain empty-handed. *)
Definition yields_nothing (o : outcome (list string)) : Prop :=
  match o with
  | Return raw => filtered raw = []
  | Raise _ => True
  end.

(** [all_rejected ms w w']: run in order from world [w], every method of
    [ms] raises or returns nothing the filter keeps; [w'] is the world
    they leave behind. *)
Inductive all_rejected {W} : list (method W) -> W -> W -> Prop :=
| rejected_nil w : all_rejected [] w w
| rejected_cons name call rest w o w1 w' :
    call w = (o, w1) ->
    yields_nothing o ->
    all_rejected rest w1 w' ->
    all_rejected ((name, call) :: rest) w w'.

(** [_test_dns_resolution]: one lookup of google.com; its body catches
    every exception and answers [False]. *)
Definition resolver (W : Type) : Type := W -> bool * W.

(** [get_data] of the DNS configuration sensor. *)
Definition get_data {W} (self : detectors W) (_test_dns_resolution : resolver W)
    : M W dict :=
  try_except
    (let* (dns_servers, source) := _get_system_dns_servers self in
     let* resolution_test := total _test_dns_resolution in
     let primary_dns :=
       if truthy dns_servers
       then match dns_servers with first :: _ => first | [] => "Unknown" end
       else "Unknown" in
     let secondary_dns :=
       if truthy dns_servers
       then match dns_servers with _ :: second :: _ => second | _ => "None" end
       else "None" in
     ret (mk_dict [ ("primary_dns", VStr primary_dns);
                    ("secondary_dns", VStr secondary_dns);
                    ("all_dns_servers", VList (map VStr dns_servers));
                    ("source", VStr source);
                    ("status", VStr (if resolution_test then "online" else "offline"));
                    ("error", if resolution_test then VNone
                              else VStr "DNS resolution failed") ]))
    (fun e =>
       ret (mk_dict [ ("primary_dns", VStr "Error");
                      ("secondary_dns", VStr "Error");
                      ("status", VStr "offline");
                      ("error", VStr (str_exn e)) ])).

End DNSConfigSensor.

(** ** sensors.py: the detection methods of DNSConfigSensor *)

Module DNSDetection.

(** What [_get_supervisor_dns] makes of the decoded answer of the
    Supervisor. *)
Definition supervisor_servers (payload : value) : list string :=
  let data := match payload with VDict p => dict_get p "data" | _ => VNone end in
  let servers :=
    match data with
    | VDict d =>
        if value_truthy (dict_get d "servers") then dict_get d "servers"
        else dict_get d "upstream_servers"
    | _ => VNone
    end in
  match servers with
  | VList l =>
      if truthy l
      then omap (fun s => match s with
                          | VStr s =>
                              if negb (DNSConfigSensor._is_container_dns s) then Some s
                              else None
                          | _ => None
                          end) l
      else []
  | _ => []
  end.

(** [SUPERVISOR_TOKEN] is the value of the environment variable;
    [get_json] is the request to the Supervisor with the decoding of its
    answer: the HTTP status and, for status 200, the decoded body.  The
    method swallows every exception. *)
Definition _get_supervisor_dns {W} (SUPERVISOR_TOKEN : option string)
    (get_json : M W (Z * value)) : M W (list string) :=
  fun w =>
    match SUPERVISOR_TOKEN with
    | None => (Return [], w)
    | Some supervisor_token =>
        if String.eqb supervisor_token EmptyString then (Return [], w)
        else
          match get_json w with
          | (Return (status, payload), w') =>
              (Return (if (status =? 200)%Z then supervisor_servers payload else []), w')
          | (Raise _, w') => (Return [], w')
          end
    end.

(** [for line in lines:] of [_get_gateway_dns]; the first gateway that is
    not excluded ends the method. *)
Fixpoint gateway_loop (lines : list string) : list string :=
  match lines with
  | [] => []
  | line :: rest =>
      if str_contains "default via" line then
        match py_split line with
        | _ :: _ :: gateway :: _ =>
            if negb (DNSConfigSensor._is_container_dns gateway) then [gateway]
            else gateway_loop rest
        | _ => gateway_loop rest
        end
      else gateway_loop rest
  end.

(** [ip_route] runs [ip route show default] and gives the return code and
    the decoded output.  After a return code other than 0 the name
    [lines] is not bound; the error this raises is swallowed with every
    other exception. *)
Definition _get_gateway_dns {W} (ip_route : M W (Z * string)) : M W (list string) :=
  fun w =>
    match ip_route w with
    | (Return (returncode, stdout), w') =>
        (Return (if (returncode =? 0)%Z then gateway_loop (split_char LF stdout) else []), w')
    | (Raise _, w') => (Return [], w')
    end.

(** [nslookup] runs [nslookup host.docker.internal]. *)
Definition _get_docker_host_dns {W} (nslookup : M W (Z * string))
    (ip_route : M W (Z * string)) : M W (list string) :=
  fun w =>
    match nslookup w with
    | (Return (returncode, _), w') =>
        if (returncode =? 0)%Z then _get_gateway_dns ip_route w' else (Return [], w')
    | (Raise _, w') => (Return [], w')
    end.

(** [for line in lines:] of [_get_systemd_resolve_dns]. *)
Fixpoint systemd_loop (lines : list string) (dns_servers : list string) : list string :=
  match lines with
  | [] => dns_servers
  | line :: rest =>
      if str_contains "DNS Servers:" line || str_contains "Current DNS Server:" line then
        match split_char ":" line with
        | _ :: second :: _ =>
            let dns_ip := strip second in
            if negb (String.eqb dns_ip EmptyString)
               && negb (DNSConfigSensor._is_container_dns dns_ip)
            then systemd_loop rest (dns_servers ++ [dns_ip])
            else systemd_loop rest dns_servers
        | _ => systemd_loop rest dns_servers
        end
      else systemd_loop rest dns_servers
  end.

(** [systemd_resolve] runs [systemd-resolve --status]. *)
Definition _get_systemd_resolve_dns {W} (systemd_resolve : M W (Z * string))
    : M W (list string) :=
  fun w =>
    match systemd_resolve w with
    | (Return (returncode, stdout), w') =>
        (Return (if (returncode =? 0)%Z then systemd_loop (split_char LF stdout) []
                 else []), w')
    | (Raise _, w') => (Return [], w')
    end.

(** [for line in f:] of [_get_resolv_conf_dns]; nothing when
    [line.split()[1]] raises. *)
Fixpoint resolv_loop (lines : list string) (dns_servers : list string)
    : option (list string) :=
  match lines with
  | [] => Some dns_servers
  | line :: rest =>
      if startswith line "nameserver" then
        match py_split line with
        | _ :: second :: _ =>
            let dns_ip := strip second in
            if negb (DNSConfigSensor._is_container_dns dns_ip)
            then resolv_loop rest (dns_servers ++ [dns_ip])
            else resolv_loop rest dns_servers
        | _ => None
        end
      else resolv_loop rest dns_servers
  end.

(** [read_lines] opens /etc/resolv.conf and gives its lines.  The method
    swallows every exception. *)
Definition _get_resolv_conf_dns {W} (read_lines : M W (list string)) : M W (list string) :=
  fun w =>
    match read_lines w with
    | (Return lines, w') => (Return (default [] (resolv_loop lines [])), w')
    | (Raise _, w') => (Return [], w')
    end.

End DNSDetection.

(** ** Numbers read as rationals: [sum], [min], [max], [/], [round(x, 2)] *)

(** [sum(l)] *)
Definition py_sum (l : list Q) : Q := fold_left Qplus l 0.

(** [min(l)] and [max(l)]; both raise on an empty list. *)
Definition py_min (l : list Q) : outcome Q :=
  match l with
  | [] => Raise (ValueError "min() arg is an empty sequence")
  | x :: l' => Return (fold_left (fun m y => if Qlt_le_dec y m then y else m) l' x)
  end.

Definition py_max (l : list Q) : outcome Q :=
  match l with
  | [] => Raise (ValueError "max() arg is an empty sequence")
  | x :: l' => Return (fold_left (fun m y => if Qlt_le_dec m y then y else m) l' x)
  end.

(** [a / b] *)
Definition py_div (a b : Q) : outcome Q :=
  if Qeq_bool b 0 then Raise (ZeroDivisionError "division by zero")
  else Return (a / b).

(** [len(l)] as a number *)
Definition len {A} (l : list A) : Q := inject_Z (Z.of_nat (length l)).

(** The integer nearest to [x], a tie going to the even neighbour. *)
Definition round_half_even (x : Q) : Z :=
  let f := Qfloor x in
  match ((x - inject_Z f) ?= (1 # 2))%Q with
  | Lt => f
  | Gt => (f + 1)%Z
  | Eq => if Z.even f then f else (f + 1)%Z
  end.

(** [round(x, 2)]; the result is kept as a number of hundredths. *)
Definition round2 (x : Q) : Q := round_half_even (x * 100) # 100.

(** [round(v ** 0.5, 2)]: the square root is irrational in general, so the
    two steps are taken together.  With [k] the integer part of
    [200 * sqrt v], the hundredth nearest to [sqrt v] is [(k + 1) / 2]
    hundredths, except on an exact tie, which goes to the even side. *)
Definition round2_sqrt (v : Q) : Q :=
  let a := Qfloor (v * 40000) in
  let k := Z.sqrt a in
  let n := if Z.odd k && Qeq_bool (inject_Z (k * k)) (v * 40000)
           then (if Z.even ((k - 1) / 2) then (k - 1) / 2 else (k + 1) / 2)%Z
           else ((k + 1) / 2)%Z in
  n # 100.

(** ** sensors.py: the sampling sensors *)

(** [_ping_host]: one echo round trip.  Its body catches every exception
    and answers [None], so it is a world transformer that cannot raise. *)
Definition ping_host (W : Type) : Type := W -> option Q * W.

(** The sampling loop shared by the latency and the jitter sensor:
    [for _ in range(n): ... latencies.append(latency)]. *)
Fixpoint sample_loop {W} (_ping_host : ping_host W) (n : nat) (latencies : list Q)
    : M W (list Q) :=
  match n with
  | O => ret latencies
  | S n' =>
      let* latency := total _ping_host in
      match latency with
      | Some x => sample_loop _ping_host n' (latencies ++ [x])
      | None => sample_loop _ping_host n' latencies
      end
  end.

Module LatencySensor.

(** [count] is [self.config.get("count", 3)]; the target only names the
    host that [_ping_host] is asked to reach. *)
Definition get_data {W} (_ping_host : ping_host W) (count : Z) : M W dict :=
  try_except
    (let* latencies := sample_loop _ping_host (Z.to_nat count) [] in
     if truthy latencies then
       let* avg_latency := lift (py_div (py_sum latencies) (len latencies)) in
       let* lo := lift (py_min latencies) in
       let* hi := lift (py_max latencies) in
       ret (mk_dict [ ("average", VFloat (round2 avg_latency));
                      ("min", VFloat (round2 lo));
                      ("max", VFloat (round2 hi));
                      ("status", VStr "online");
                      ("error", VNone) ])
     else
       ret (mk_dict [ ("average", VInt 0);
                      ("min", VInt 0);
                      ("max", VInt 0);
                      ("status", VStr "offline");
                      ("error", VStr "All ping attempts failed") ]))
    (fun e =>
       ret (mk_dict [ ("average", VInt 0);
                      ("min", VInt 0);
                      ("max", VInt 0);
                      ("status", VStr "offline");
                      ("error", VStr (str_exn e)) ])).

End LatencySensor.

Module PacketLossSensor.

(** [for _ in range(n): ... successful_pings += 1] *)
Fixpoint count_loop {W} (_ping_host : ping_host W) (n : nat) (successful_pings : Z)
    : M W Z :=
  match n with
  | O => ret successful_pings
  | S n' =>
      let* latency := total _ping_host in
      match latency with
      | Some _ => count_loop _ping_host n' (successful_pings + 1)%Z
      | None => count_loop _ping_host n' successful_pings
      end
  end.

(** [count] is [self.config.get("count", 10)]. *)
Definition get_data {W} (_ping_host : ping_host W) (count : Z) : M W dict :=
  try_except
    (let* successful_pings := count_loop _ping_host (Z.to_nat count) 0%Z in
     let* ratio := lift (py_div (inject_Z (count - successful_pings)) (inject_Z count)) in
     let packet_loss := ratio * 100 in
     ret (mk_dict [ ("average", VFloat (round2 packet_loss));
                    ("status", VStr (if Qlt_le_dec packet_loss 50
                                     then "online" else "offline"));
                    ("error", VNone) ]))
    (fun e =>
       ret (mk_dict [ ("average", VInt 100);
                      ("status", VStr "offline");
                      ("error", VStr (str_exn e)) ])).

End PacketLossSensor.

Module JitterSensor.

(** [sum((x - mean_latency) ** 2 for x in latencies) / len(latencies)] *)
Definition variance_of (latencies : list Q) (mean_latency : Q) : outcome Q :=
  py_div (py_sum (map (fun x => (x - mean_latency) ^ 2) latencies)) (len latencies).

(** [count] is [self.config.get("count", 10)]. *)
Definition get_data {W} (_ping_host : ping_host W) (count : Z) : M W dict :=
  try_except
    (let* latencies := sample_loop _ping_host (Z.to_nat count) [] in
     if (length latencies <? 2)%nat then
       ret (mk_dict [ ("average", VInt 0);
                      ("status", VStr "offline");
                      ("error", VStr "Insufficient data for jitter calculation") ])
     else
       let* mean_latency := lift (py_div (py_sum latencies) (len latencies)) in
       let* variance := lift (variance_of latencies mean_latency) in
       ret (mk_dict [ ("average", VFloat (round2_sqrt variance));
                      ("status", VStr "online");
                      ("error", VNone) ]))
    (fun e =>
       ret (mk_dict [ ("average", VInt 0);
                      ("status", VStr "offline");
                      ("error", VStr (str_exn e)) ])).

End JitterSensor.

(** ** Numbers as the interpreter computes them: binary64 *)

Module Binary64.

(** A Python [float] is an IEEE 754 binary64 number: 53 bits of precision,
    exponents below 1024.  [SpecFloat] gives the operations, each rounded
    to the nearest double, ties to even. *)
Definition prec : Z := 53.
Definition emax : Z := 1024.
Abbreviation float := spec_float.

Definition add : float -> float -> float := SFadd prec emax.
Definition sub : float -> float -> float := SFsub prec emax.
Definition mul : float -> float -> float := SFmul prec emax.
Definition div : float -> float -> float := SFdiv prec emax.
Definition ltb : float -> float -> bool := SFltb.

(** An int as it stands, with exponent zero: the operand of a division
    that rounds once. *)
Definition exact (z : Z) : float :=
  match z with
  | Z0 => S754_zero false
  | Zpos p => S754_finite false p 0
  | Zneg p => S754_finite true p 0
  end.

(** [float(z)] for an int: the nearest double. *)
Definition of_int (z : Z) : float := binary_normalize prec emax z 0 false.

(** The double nearest to a rational: the value of a decimal literal and
    of [float(text)] for a decimal text. *)
Definition of_Q (q : Q) : float := div (exact (Qnum q)) (exact (Zpos (Qden q))).

(** The real number a finite double stands for. *)
Definition to_Q (x : float) : Q :=
  match x with
  | S754_finite s m e =>
      let v := if (0 <=? e)%Z then inject_Z (Zpos m * 2 ^ e)
               else Zpos m # 2 ^ Z.to_pos (- e) in
      if s then - v else v
  | _ => 0
  end.

(** The least magnitude that rounds beyond the largest double. *)
Definition overflow_threshold : Z := 2 ^ 1024 - 2 ^ 970.

(** [a / b] for two ints: the quotient, rounded once. *)
Definition int_truediv (a b : Z) : outcome float :=
  if (b =? 0)%Z then Raise (ZeroDivisionError "division by zero")
  else if (overflow_threshold * Z.abs b <=? Z.abs a)%Z
       then Raise (OverflowError "integer division result too large for a float")
       else Return (div (exact a) (exact b)).

(** [x / n] for a float and an int: the int is converted first. *)
Definition float_truediv_int (x : float) (n : Z) : outcome float :=
  if (overflow_threshold <=? Z.abs n)%Z
  then Raise (OverflowError "int too large to convert to float")
  else if (n =? 0)%Z then Raise (ZeroDivisionError "float division by zero")
  else Return (div x (of_int n)).

(** [sum(l)] for a list of floats: the additions are made one after the
    other from the left, starting from 0 (CPython up to 3.11; later
    versions carry a correction term along). *)
Definition py_sum (l : list float) : float := fold_left add l (of_int 0).

(** [min(l)] and [max(l)]: the first element is replaced whenever a later
    one compares below (above) it. *)
Definition py_min (l : list float) : outcome float :=
  match l with
  | [] => Raise (ValueError "min() arg is an empty sequence")
  | x :: l' => Return (fold_left (fun m y => if ltb y m then y else m) l' x)
  end.

Definition py_max (l : list float) : outcome float :=
  match l with
  | [] => Raise (ValueError "max() arg is an empty sequence")
  | x :: l' => Return (fold_left (fun m y => if ltb m y then y else m) l' x)
  end.

(** [n / 100] as a double; a zero keeps the sign of what was rounded. *)
Definition hundredths (n : Z) (negative : bool) : float :=
  match n with
  | Z0 => S754_zero negative
  | _ => div (exact n) (exact 100)
  end.

(** [round(x, 2)]: the decimal expansion of the double is rounded to two
    places, a tie going to the even digit, and the result is the double
    nearest to that decimal.  Zeros, infinities and nan are returned as
    they are. *)
Definition py_round2 (x : float) : float :=
  match x with
  | S754_finite s _ _ => hundredths (round_half_even (to_Q x * 100)) s
  | _ => x
  end.

(** [**] goes through the [pow] of the platform's C library, which is not
    correctly rounded; it is a parameter of the embedding.  The
    interpreter answers the special cases itself and turns an infinite
    result of [pow] into an exception. *)
Definition libm : Type := float -> float -> float.

Definition checked (ix : float) : outcome float :=
  match ix with
  | S754_infinity _ => Raise (OverflowError "(34, 'Numerical result out of range')")
  | _ => Return ix
  end.

(** [x ** 2] *)
Definition pow_2 (pow : libm) (x : float) : outcome float :=
  match x with
  | S754_nan => Return S754_nan
  | S754_infinity _ => Return (S754_infinity false)
  | S754_zero _ => Return (S754_zero false)
  | S754_finite _ m e =>
      let iv := S754_finite false m e in
      if SFeqb iv (of_int 1) then Return (of_int 1)
      else checked (pow iv (of_int 2))
  end.

(** The result of [x ** 0.5] is a complex number when [x] is negative. *)
Inductive number :=
| Real (x : float)
| Complex.

(** [x ** 0.5] *)
Definition pow_half (pow : libm) (x : float) : outcome number :=
  match x with
  | S754_nan => Return (Real S754_nan)
  | S754_infinity _ => Return (Real (S754_infinity false))
  | S754_zero _ => Return (Real (S754_zero false))
  | S754_finite true _ _ => Return Complex
  | S754_finite false _ _ =>
      if SFeqb x (of_int 1) then Return (Real (of_int 1))
      else match checked (pow x (of_Q 0.5)) with
           | Return ix => Return (Real ix)
           | Raise e => Raise e
           end
  end.

(** [round(v, 2)] for the result of a power. *)
Definition round2_number (v : number) : outcome float :=
  match v with
  | Real x => Return (py_round2 x)
  | Complex => Raise (TypeError "type complex doesn't define __round__ method")
  end.

(** A [pow] that rounds correctly, for the two exponents in use. *)
Definition correctly_rounded_pow : libm :=
  fun x y =>
    if SFeqb y (of_int 2) then mul x x
    else if SFeqb y (of_Q 0.5) then SFsqrt prec emax x
    else S754_nan.

(** *** sensors.py: the sampling sensors, on doubles *)

(** [_ping_host]: what it answers is [float(time_part)], a double. *)
Definition ping_host (W : Type) : Type := W -> option float * W.

Fixpoint sample_loop {W} (_ping_host : ping_host W) (n : nat) (latencies : list float)
    : M W (list float) :=
  match n with
  | O => ret latencies
  | S n' =>
      let* latency := total _ping_host in
      match latency with
      | Some x => sample_loop _ping_host n' (latencies ++ [x])
      | None => sample_loop _ping_host n' latencies
      end
  end.

Module LatencySensor.

Definition get_data {W} (_ping_host : ping_host W) (count : Z) : M W dict :=
  try_except
    (let* latencies := sample_loop _ping_host (Z.to_nat count) [] in
     if truthy latencies then
       let* avg_latency :=
         lift (float_truediv_int (py_sum latencies) (Z.of_nat (length latencies))) in
       let* lo := lift (py_min latencies) in
       let* hi := lift (py_max latencies) in
       ret (mk_dict [ ("average", VDouble (py_round2 avg_latency));
                      ("min", VDouble (py_round2 lo));
                      ("max", VDouble (py_round2 hi));
                      ("status", VStr "online");
                      ("error", VNone) ])
     else
       ret (mk_dict [ ("average", VInt 0);
                      ("min", VInt 0);
                      ("max", VInt 0);
                      ("status", VStr "offline");
                      ("error", VStr "All ping attempts failed") ]))
    (fun e =>
       ret (mk_dict [ ("average", VInt 0);
                      ("min", VInt 0);
                      ("max", VInt 0);
                      ("status", VStr "offline");
                      ("error", VStr (str_exn e)) ])).

End LatencySensor.

Module PacketLossSensor.

Fixpoint count_loop {W} (_ping_host : ping_host W) (n : nat) (successful_pings : Z)
    : M W Z :=
  match n with
  | O => ret successful_pings
  | S n' =>
      let* latency := total _ping_host in
      match latency with
      | Some _ => count_loop _ping_host n' (successful_pings + 1)%Z
      | None => count_loop _ping_host n' successful_pings
      end
  end.

Definition get_data {W} (_ping_host : ping_host W) (count : Z) : M W dict :=
  try_except
    (let* successful_pings := count_loop _ping_host (Z.to_nat count) 0%Z in
     let* ratio := lift (int_truediv (count - successful_pings) count) in
     let packet_loss := mul ratio (of_int 100) in
     ret (mk_dict [ ("average", VDouble (py_round2 packet_loss));
                    ("status", VStr (if ltb packet_loss (of_int 50)
                                     then "online" else "offline"));
                    ("error", VNone) ]))
    (fun e =>
       ret (mk_dict [ ("average", VInt 100);
                      ("status", VStr "offline");
                      ("error", VStr (str_exn e)) ])).

End PacketLossSensor.

Module JitterSensor.

(** [sum((x - mean_latency) ** 2 for x in latencies)]: the squares are
    made one at a time as the sum asks for them. *)
Fixpoint sum_squares (pow : libm) (latencies : list float) (mean_latency : float)
    (result : float) : outcome float :=
  match latencies with
  | [] => Return result
  | x :: rest =>
      match pow_2 pow (sub x mean_latency) with
      | Return square => sum_squares pow rest mean_latency (add result square)
      | Raise e => Raise e
      end
  end.

Definition get_data {W} (pow : libm) (_ping_host : ping_host W) (count : Z) : M W dict :=
  try_except
    (let* latencies := sample_loop _ping_host (Z.to_nat count) [] in
     if (length latencies <? 2)%nat then
       ret (mk_dict [ ("average", VInt 0);
                      ("status", VStr "offline");
                      ("error", VStr "Insufficient data for jitter calculation") ])
     else
       let len := Z.of_nat (length latencies) in
       let* mean_latency := lift (float_truediv_int (py_sum latencies) len) in
       let* squares := lift (sum_squares pow latencies mean_latency (of_int 0)) in
       let* variance := lift (float_truediv_int squares len) in
       let* jitter := lift (pow_half pow variance) in
       let* rounded := lift (round2_number jitter) in
       ret (mk_dict [ ("average", VDouble rounded);
                      ("status", VStr "online");
                      ("error", VNone) ]))
    (fun e =>
       ret (mk_dict [ ("average", VInt 0);
                      ("status", VStr "offline");
                      ("error", VStr (str_exn e)) ])).

End JitterSensor.

(** What [n] successive calls of [_ping_host] answer from world [w], and
    the world they leave. *)
Fixpoint ping_outcomes {W} (_ping_host : ping_host W) (n : nat) (w : W)
    : list (option float) * W :=
  match n with
  | O => ([], w)
  | S n' =>
      let (latency, w1) := _ping_host w in
      let (outcomes, w') := ping_outcomes _ping_host n' w1 in
      (latency :: outcomes, w')
  end.

(** The successful samples among the outcomes. *)
Definition successes (outcomes : list (option float)) : list float := omap id outcomes.

(** A script of answers given as decimal texts, as [ping] prints them. *)
Definition decimals (script : list (option Q)) : list (option float) :=
  map (option_map of_Q) script.

End Binary64.

(** ** sensors.py: RouteStabilitySensor *)

Module RouteStabilitySensor.

(** The mutable fields of the sensor object. *)
Record state := {
  route_history : list (list string);
  max_history : nat;
}.

(** [__init__] *)
Definition init : state := {| route_history := []; max_history := 10 |}.

(** [_get_route]: the traceroute call; it catches every exception and
    answers [None]. *)
Definition tracer (W : Type) : Type := W -> option (list string) * W.

(** The comparison loop of [_calculate_stability]:
    [for i in range(n): previous_route = history[i]; ...], carrying
    [(matches, total_comparisons)]. *)
Definition compare_loop (history : list (list string)) (current_route : list string)
    (n : nat) : Z * Z :=
  fold_left
    (fun '(matches, total_comparisons) i =>
       match history !! i with
       | Some previous_route =>
           (if bool_decide (current_route = previous_route)
            then (matches + 1)%Z else matches,
            (total_comparisons + 1)%Z)
       | None => (matches, total_comparisons)
       end)
    (seq 0 n) (0%Z, 0%Z).

Definition _calculate_stability (self : state) : Q :=
  let history := route_history self in
  if (length history <? 2)%nat then 100
  else
    match last history with
    | None => 100
    | Some current_route =>
        let '(matches, total_comparisons) :=
          compare_loop history current_route (length history - 1) in
        if (total_comparisons =? 0)%Z then 100
        else (inject_Z matches / inject_Z total_comparisons) * 100
    end.

(** [self.route_history.append(r)] followed by the trim
    [if len(self.route_history) > self.max_history: self.route_history.pop(0)]. *)
Definition record_route (self : state) (current_route : list string) : state :=
  let appended := route_history self ++ [current_route] in
  {| route_history :=
       if (max_history self <? length appended)%nat then tail appended else appended;
     max_history := max_history self |}.

(** [get_data]: the report and the sensor object afterwards. *)
Definition get_data {W} (_get_route : tracer W) (self : state) : M W (dict * state) :=
  try_except
    (let* current_route := total _get_route in
     match current_route with
     | Some (hop :: hops) =>
         let current_route := hop :: hops in
         let self' := record_route self current_route in
         let stability := _calculate_stability self' in
         ret (mk_dict [ ("overall_stability", VFloat (round2 stability));
                        ("route_changes",
                           VInt (Z.of_nat (length (route_history self')) - 1));
                        ("current_route", VList (map VStr current_route));
                        ("status", VStr "online");
                        ("error", VNone) ],
              self')
     | Some [] | None =>
         ret (mk_dict [ ("overall_stability", VInt 0);
                        ("route_changes", VInt 0);
                        ("current_route", VStr "Unknown");
                        ("status", VStr "offline");
                        ("error", VStr "Failed to get route") ],
              self)
     end)
    (fun e =>
       ret (mk_dict [ ("overall_stability", VInt 0);
                      ("route_changes", VInt 0);
                      ("current_route", VStr "Error");
                      ("status", VStr "offline");
                      ("error", VStr (str_exn e)) ],
            self)).

End RouteStabilitySensor.

(** ** sensors.py: the parsers of the ping and traceroute output *)

Module Probes.

(** [for line in output.split('\n'):] of [_ping_host]: the first line
    that holds [time=] decides.  [py_float] stands for the builtin
    [float], which raises on text that is not a number. *)
Fixpoint ping_time (py_float : string -> outcome Q) (lines : list string) : option Q :=
  match lines with
  | [] => None
  | line :: rest =>
      if str_contains "time=" line then
        match split_str "time=" line with
        | _ :: after :: _ =>
            match py_split after with
            | time_part :: _ =>
                match py_float time_part with
                | Return latency => Some latency
                | Raise _ => None
                end
            | [] => None
            end
        | _ => None
        end
      else ping_time py_float rest
  end.

(** [ping] runs [ping -c 1 -W 5 host]. *)
Definition _ping_host {W} (py_float : string -> outcome Q) (ping : M W (Z * string))
    : ping_host W :=
  fun w =>
    match ping w with
    | (Return (returncode, stdout), w') =>
        (if (returncode =? 0)%Z then ping_time py_float (split_char LF stdout) else None, w')
    | (Raise _, w') => (None, w')
    end.

(** [for line in stdout.decode('utf-8').split('\n'):] of [_get_route]. *)
Fixpoint route_loop (lines : list string) (route : list string) : list string :=
  match lines with
  | [] => route
  | line :: rest =>
      if negb (str_contains "traceroute" line)
         && negb (String.eqb (strip line) EmptyString)
      then
        match py_split line with
        | first :: second :: third :: more =>
            if negb (String.eqb second "*") then route_loop rest (route ++ [second])
            else route_loop rest route
        | _ => route_loop rest route
        end
      else route_loop rest route
  end.

(** [traceroute] runs [traceroute -n -m 10 target]. *)
Definition _get_route {W} (traceroute : M W (Z * string)) : RouteStabilitySensor.tracer W :=
  fun w =>
    match traceroute w with
    | (Return (returncode, stdout), w') =>
        (if (returncode =? 0)%Z then Some (route_loop (split_char LF stdout) []) else None, w')
    | (Raise _, w') => (None, w')
    end.

End Probes.

(** ** sensors.py: DNSReliabilitySensor *)

Module DNSReliabilitySensor.

Definition test_domains : list string := ["google.com"; "cloudflare.com"; "github.com"].

(** [_test_dns_query]: one lookup of a domain; its body catches every
    exception and answers [False]. *)
Definition dns_query (W : Type) : Type := string -> W -> bool * W.

(** [for domain in test_domains: if await self._test_dns_query(domain):
    successful_queries += 1] *)
Fixpoint query_loop {W} (_test_dns_query : dns_query W) (domains : list string)
    (successful_queries : Z) : M W Z :=
  match domains with
  | [] => ret successful_queries
  | domain :: rest =>
      let* answered := total (_test_dns_query domain) in
      if answered then query_loop _test_dns_query rest (successful_queries + 1)%Z
      else query_loop _test_dns_query rest successful_queries
  end.

Definition get_data {W} (_test_dns_query : dns_query W) : M W dict :=
  try_except
    (let total_queries := Z.of_nat (length test_domains) in
     let* successful_queries := query_loop _test_dns_query test_domains 0%Z in
     let* ratio := lift (py_div (inject_Z successful_queries) (inject_Z total_queries)) in
     let success_rate := ratio * 100 in
     ret (mk_dict [ ("overall_success_rate", VFloat (round2 success_rate));
                    ("successful_queries", VInt successful_queries);
                    ("total_queries", VInt total_queries);
                    ("status", VStr (if Qlt_le_dec 50 success_rate
                                     then "online" else "offline"));
                    ("error", VNone) ]))
    (fun e =>
       ret (mk_dict [ ("overall_success_rate", VInt 0);
                      ("successful_queries", VInt 0);
                      ("total_queries", VInt 0);
                      ("status", VStr "offline");
                      ("error", VStr (str_exn e)) ])).

End DNSReliabilitySensor.

(** ** sensors.py: ThroughputSensor *)

Module ThroughputSensor.

(** [_run_speedtest] run in the executor: the download and upload rates
    in bit/s and the ping in ms, or None when the speed test failed. *)
Definition get_data {W} (_run_speedtest : M W (option (Q * Q * Q))) : M W dict :=
  try_except
    (let* result := _run_speedtest in
     match result with
     | Some (download, upload, ping) =>
         ret (mk_dict [ ("download_mbps", VFloat (round2 (download / 1000000)));
                        ("upload_mbps", VFloat (round2 (upload / 1000000)));
                        ("ping", VFloat (round2 ping));
                        ("status", VStr "online");
                        ("error", VNone) ])
     | None =>
         ret (mk_dict [ ("download_mbps", VInt 0);
                        ("upload_mbps", VInt 0);
                        ("ping", VInt 0);
                        ("status", VStr "offline");
                        ("error", VStr "Speedtest failed") ])
     end)
    (fun e =>
       ret (mk_dict [ ("download_mbps", VInt 0);
                      ("upload_mbps", VInt 0);
                      ("ping", VInt 0);
                      ("status", VStr "offline");
                      ("error", VStr (str_exn e)) ])).

End ThroughputSensor.

(** ** ip_info.py: the providers' normalizers *)

(** [s.split(",")] *)
Fixpoint split_comma (s : string) : list string :=
  match s with
  | EmptyString => [EmptyString]
  | String c s' =>
      if Ascii.eqb c ","%char then EmptyString :: split_comma s'
      else match split_comma s' with
           | [] => [String c EmptyString]
           | piece :: pieces => String c piece :: pieces
           end
  end.

Module IPInfoIOProvider.

(** [py_float] stands for the builtin [float(s)], which raises
    [ValueError] on text that is not a number. *)
Definition normalize_data (py_float : string -> outcome Q) (timestamp : string)
    (raw_data : dict) : outcome dict :=
  match dict_get_or raw_data "loc" (VStr EmptyString) with
  | VStr text =>
      let loc := split_comma text in
      let coordinates :=
        match loc with
        | [a; b] =>
            match py_float a with
            | Raise e => Raise e
            | Return lat =>
                match py_float b with
                | Raise e => Raise e
                | Return lon => Return (VFloat lat, VFloat lon)
                end
            end
        | _ => Return (VNone, VNone)
        end in
      match coordinates with
      | Raise e => Raise e
      | Return (lat, lon) =>
          Return (mk_dict [ ("ip", dict_get raw_data "ip");
                            ("hostname", dict_get raw_data "hostname");
                            ("city", dict_get raw_data "city");
                            ("region", dict_get raw_data "region");
                            ("country", dict_get raw_data "country");
                            ("latitude", lat);
                            ("longitude", lon);
                            ("organization", dict_get raw_data "org");
                            ("postal_code", dict_get raw_data "postal");
                            ("timezone", dict_get raw_data "timezone");
                            ("source", VStr "ipinfo.io");
                            ("timestamp", VStr timestamp) ])
      end
  | _ => Raise (AttributeError "object has no attribute 'split'")
  end.

End IPInfoIOProvider.

Module IPAPIProvider.

Definition normalize_data (timestamp : string) (raw_data : dict) : dict :=
  mk_dict [ ("ip", dict_get raw_data "query");
            ("hostname", dict_get raw_data "reverse");
            ("city", dict_get raw_data "city");
            ("region", dict_get raw_data "regionName");
            ("country", dict_get raw_data "country");
            ("latitude", dict_get raw_data "lat");
            ("longitude", dict_get raw_data "lon");
            ("organization", dict_get raw_data "isp");
            ("postal_code", dict_get raw_data "zip");
            ("timezone", dict_get raw_data "timezone");
            ("source", VStr "ip-api.com");
            ("timestamp", VStr timestamp) ].

End IPAPIProvider.

Module IPGeolocationProvider.

Definition normalize_data (timestamp : string) (raw_data : dict) : outcome dict :=
  match dict_get_or raw_data "time_zone" (VDict ∅) with
  | VDict time_zone =>
      Return (mk_dict [ ("ip", dict_get raw_data "ip");
                        ("hostname", dict_get raw_data "hostname");
                        ("city", dict_get raw_data "city");
                        ("region", dict_get raw_data "state_prov");
                        ("country", dict_get raw_data "country_name");
                        ("latitude", dict_get raw_data "latitude");
                        ("longitude", dict_get raw_data "longitude");
                        ("organization", dict_get raw_data "organization");
                        ("postal_code", dict_get raw_data "zipcode");
                        ("timezone", dict_get time_zone "name");
                        ("source", VStr "ipgeolocation.io");
                        ("timestamp", VStr timestamp) ])
  | _ => Raise (AttributeError "object has no attribute 'get'")
  end.

End IPGeolocationProvider.

(** The canonical record without its time stamp. *)
Definition sans_timestamp (record : dict) : dict := delete "timestamp" record.

(** ** ip_info.py: IPInfoManager *)

Module IPInfoManager.

Definition fallback_order : list string := ["ipapi"; "ipinfo"; "ipgeolocation"].

(** [self.providers]: for each available source, its [get_ip_info]. *)
Abbreviation providers W := (gmap string (M W dict)).

(** [source in self.providers] *)
Definition available {W} (self : providers W) (source : string) : bool :=
  match self !! source with Some _ => true | None => false end.

(** [source in sources_to_try] *)
Definition listed (sources : list string) (source : string) : bool :=
  existsb (String.eqb source) sources.

Definition sources_to_try {W} (self : providers W) (preferred_source : option string)
    : list string :=
  let preferred :=
    match preferred_source with
    | Some source =>
        if negb (String.eqb source EmptyString) && available self source then [source] else []
    | None => []
    end in
  fold_left
    (fun sources source =>
       if available self source && negb (listed sources source)
       then sources ++ [source] else sources)
    fallback_order preferred.

(** The text of [last_error] inside the f-string. *)
Definition str_last_error (last_error : option exn) : string :=
  match last_error with
  | Some e => str_exn e
  | None => "None"
  end.

(** [for source in sources_to_try: try: ... return data
     except Exception as e: last_error = e; continue], then the final
    [raise]. *)
Fixpoint try_sources {W} (self : providers W) (sources : list string)
    (last_error : option exn) : M W dict :=
  match sources with
  | [] =>
      raise (Exception ("All IP info sources failed. Last error: "
                        +:+ str_last_error last_error))
  | source :: rest =>
      try_except
        (match self !! source with
         | Some get_ip_info => get_ip_info
         | None => raise (KeyError source)
         end)
        (fun e => try_sources self rest (Some e))
  end.

Definition get_ip_info {W} (self : providers W) (preferred_source : option string)
    : M W dict :=
  try_sources self (sources_to_try self preferred_source) None.

(** [failing_run self sources w last w']: tried in order from world [w],
    every source of [sources] raises; [last] is the last error raised
    and [w'] the world left behind. *)
Inductive failing_run {W} (self : providers W)
    : list string -> W -> option exn -> option exn -> W -> Prop :=
| failing_nil w last : failing_run self [] w last last w
| failing_cons source rest get_ip_info w e w1 last0 last w' :
    self !! source = Some get_ip_info ->
    get_ip_info w = (Raise e, w1) ->
    failing_run self rest w1 (Some e) last w' ->
    failing_run self (source :: rest) w last0 last w'.

(** The [get_ip_info] of the three provider classes, for a provider
    built from the configuration dict it is given. *)
Record provider_classes (W : Type) := {
  IPInfoIOProvider_get_ip_info : dict -> M W dict;
  IPAPIProvider_get_ip_info : dict -> M W dict;
  IPGeolocationProvider_get_ip_info : dict -> M W dict;
}.
Arguments IPInfoIOProvider_get_ip_info {W} _.
Arguments IPAPIProvider_get_ip_info {W} _.
Arguments IPGeolocationProvider_get_ip_info {W} _.

Definition _initialize_providers {W} (classes : provider_classes W)
    (config : gmap string dict) : providers W :=
  let providers : providers W := ∅ in
  let providers :=
    match config !! "ipinfo" with
    | Some c => <["ipinfo" := IPInfoIOProvider_get_ip_info classes c]> providers
    | None => providers
    end in
  let providers :=
    match config !! "ipapi" with
    | Some c => <["ipapi" := IPAPIProvider_get_ip_info classes c]> providers
    | None => providers
    end in
  match config !! "ipgeolocation" with
  | Some c =>
      if value_truthy (dict_get c "api_key")
      then <["ipgeolocation" := IPGeolocationProvider_get_ip_info classes c]> providers
      else providers
  | None => providers
  end.

End IPInfoManager.

(** ** isp_health.py: ISPHealthMonitor *)

Module ISPHealthMonitor.

(** What a monitor object holds and the environment it runs in.
    [now] is [datetime.now().isoformat()].  [deadline] decides
    [asyncio.wait_for(..., timeout=30)]: [Some w'] when the 30 seconds
    run out before the awaited lookup ends, [w'] being the world at the
    moment of cancellation. *)
Record monitor (W : Type) := {
  now : W -> string * W;
  deadline : W -> option W;
  ip_info_source : string;
  ip_info_manager : gmap string (M W dict);
  sensors : list (string * M W dict);
}.
Arguments now {W} _.
Arguments deadline {W} _.
Arguments ip_info_source {W} _.
Arguments ip_info_manager {W} _.
Arguments sensors {W} _.

Definition wait_for {W A} (deadline : W -> option W) (c : M W A) : M W A :=
  fun w => match deadline w with
           | Some w' => (Raise TimeoutError, w')
           | None => c w
           end.

Definition get_ip_information {W} (self : monitor W) : M W dict :=
  try_except
    (wait_for (deadline self)
       (IPInfoManager.get_ip_info (ip_info_manager self) (Some (ip_info_source self))))
    (fun e =>
       let* timestamp := total (now self) in
       if is_timeout e then
         ret (mk_dict [ ("status", VStr "error");
                        ("error", VStr "Request timed out");
                        ("timestamp", VStr timestamp) ])
       else
         ret (mk_dict [ ("status", VStr "error");
                        ("error", VStr (str_exn e));
                        ("timestamp", VStr timestamp) ])).

(** The entry written for a sensor whose [get_data] raised. *)
Definition error_entry (e : exn) : dict :=
  mk_dict [ ("status", VStr "error"); ("error", VStr (str_exn e)) ].

(** [for sensor_name, sensor in self.sensors.items(): ...] *)
Fixpoint collect_loop {W} (sensors : list (string * M W dict))
    (results : gmap string dict) : M W (gmap string dict) :=
  match sensors with
  | [] => ret results
  | (sensor_name, get_data) :: rest =>
      let* entry := try_except get_data (fun e => ret (error_entry e)) in
      collect_loop rest (<[sensor_name := entry]> results)
  end.

Definition get_all_sensor_data {W} (self : monitor W) : M W (gmap string dict) :=
  let* ip_info := get_ip_information self in
  collect_loop (sensors self) (<["ip_info" := ip_info]> ∅).

(** The [enabled] flags of the sensors section of the configuration. *)
Record sensors_config := {
  dns_config : bool;
  latency : bool;
  packet_loss : bool;
  jitter : bool;
  throughput : bool;
  dns_reliability : bool;
  route_stability : bool;
}.

(** The [get_data] of the seven sensor classes. *)
Record sensor_classes (W : Type) := {
  DNSConfigSensor_get_data : M W dict;
  LatencySensor_get_data : M W dict;
  PacketLossSensor_get_data : M W dict;
  JitterSensor_get_data : M W dict;
  ThroughputSensor_get_data : M W dict;
  DNSReliabilitySensor_get_data : M W dict;
  RouteStabilitySensor_get_data : M W dict;
}.
Arguments DNSConfigSensor_get_data {W} _.
Arguments LatencySensor_get_data {W} _.
Arguments PacketLossSensor_get_data {W} _.
Arguments JitterSensor_get_data {W} _.
Arguments ThroughputSensor_get_data {W} _.
Arguments DNSReliabilitySensor_get_data {W} _.
Arguments RouteStabilitySensor_get_data {W} _.

(** One optional entry of the [sensors] dict. *)
Definition entry_if {W} (enabled : bool) (name : string) (get_data : M W dict)
    : list (string * M W dict) :=
  if enabled then [(name, get_data)] else [].

Definition _initialize_sensors {W} (config : sensors_config) (classes : sensor_classes W)
    : list (string * M W dict) :=
  entry_if (dns_config config) "dns_config" (DNSConfigSensor_get_data classes)
  ++ entry_if (latency config) "latency" (LatencySensor_get_data classes)
  ++ entry_if (packet_loss config) "packet_loss" (PacketLossSensor_get_data classes)
  ++ entry_if (jitter config) "jitter" (JitterSensor_get_data classes)
  ++ entry_if (throughput config) "throughput" (ThroughputSensor_get_data classes)
  ++ entry_if (dns_reliability config) "dns_reliability"
       (DNSReliabilitySensor_get_data classes)
  ++ entry_if (route_stability config) "route_stability"
       (RouteStabilitySensor_get_data classes).

(** [get_enabled_sensors] *)
Definition get_enabled_sensors {W} (self : monitor W) : list string :=
  map fst (sensors self).

(** The world after every sensor of the list has run once, in order. *)
Fixpoint after_all {W} (sensors : list (string * M W dict)) (w : W) : W :=
  match sensors with
  | [] => w
  | (_, get_data) :: rest => after_all rest (snd (get_data w))
  end.

(** What the sensors of the list answer when run in order from [w]. *)
Fixpoint answers {W} (sensors : list (string * M W dict)) (w : W)
    : list (string * outcome dict) :=
  match sensors with
  | [] => []
  | (name, get_data) :: rest =>
      (name, fst (get_data w)) :: answers rest (snd (get_data w))
  end.

(** The entry the report holds for an answer. *)
Definition entry_of (o : outcome dict) : dict :=
  match o with
  | Return data => data
  | Raise e => error_entry e
  end.

End ISPHealthMonitor.

(** ** coordinator.py: ISPHealthDataUpdateCoordinator *)

Module ISPHealthDataUpdateCoordinator.

Definition CONF_UPDATE_INTERVAL : string := "update_interval".

(** The keys of [SENSOR_TYPES] in const.py. *)
Definition SENSOR_TYPES : list string :=
  [ "ip_info"; "dns_config"; "latency"; "packet_loss"; "jitter";
    "throughput"; "dns_reliability"; "route_stability" ].

(** The [sensors] part of the dict built by [_get_mock_data], given the
    time stamps read for its eight entries. *)
Definition mock_sensors (t_ip t_dns t_lat t_loss t_jit t_thr t_rel t_route : string)
    : dict :=
  mk_dict
    [ ("ip_info", VDict (mk_dict
         [ ("ip", VStr "192.168.1.1");
           ("hostname", VStr "mock.example.com");
           ("city", VStr "Test City");
           ("region", VStr "Test Region");
           ("country", VStr "US");
           ("latitude", VFloat 40.7128);
           ("longitude", VFloat (-74.0060));
           ("organization", VStr "Test ISP");
           ("postal_code", VStr "10001");
           ("timezone", VStr "America/New_York");
           ("source", VStr "mock");
           ("status", VStr "online");
           ("timestamp", VStr t_ip) ]));
      ("dns_config", VDict (mk_dict
         [ ("primary_dns", VStr "8.8.8.8");
           ("secondary_dns", VStr "8.8.4.4");
           ("all_dns_servers", VList [VStr "8.8.8.8"; VStr "8.8.4.4"]);
           ("resolution_test", VDict (mk_dict
              [ ("success", VBool true);
                ("success_rate", VFloat 100.0);
                ("results", VList []) ]));
           ("status", VStr "online");
           ("timestamp", VStr t_dns) ]));
      ("latency", VDict (mk_dict
         [ ("average", VFloat 25.5);
           ("minimum", VFloat 20.1);
           ("maximum", VFloat 30.9);
           ("results", VList [ VDict (mk_dict
              [ ("target", VStr "8.8.8.8");
                ("latency_ms", VFloat 25.5);
                ("success", VBool true) ]) ]);
           ("status", VStr "online");
           ("timestamp", VStr t_lat) ]));
      ("packet_loss", VDict (mk_dict
         [ ("average", VFloat 0.0);
           ("minimum", VFloat 0.0);
           ("maximum", VFloat 0.0);
           ("results", VList [ VDict (mk_dict
              [ ("target", VStr "8.8.8.8");
                ("packet_loss_percentage", VFloat 0.0);
                ("success", VBool true) ]) ]);
           ("status", VStr "online");
           ("timestamp", VStr t_loss) ]));
      ("jitter", VDict (mk_dict
         [ ("average", VFloat 5.2);
           ("minimum", VFloat 3.1);
           ("maximum", VFloat 7.8);
           ("results", VList [ VDict (mk_dict
              [ ("target", VStr "8.8.8.8");
                ("jitter_ms", VFloat 5.2);
                ("success", VBool true) ]) ]);
           ("status", VStr "online");
           ("timestamp", VStr t_jit) ]));
      ("throughput", VDict (mk_dict
         [ ("download_mbps", VFloat 100.0);
           ("upload_mbps", VFloat 20.0);
           ("server", VDict (mk_dict
              [ ("name", VStr "Test Server");
                ("country", VStr "United States");
                ("distance", VFloat 50.0);
                ("latency", VFloat 25.0) ]));
           ("test_type", VStr "single_server");
           ("status", VStr "online");
           ("timestamp", VStr t_thr) ]));
      ("dns_reliability", VDict (mk_dict
         [ ("overall_success_rate", VFloat 100.0);
           ("average_response_time", VFloat 15.5);
           ("results", VList [ VDict (mk_dict
              [ ("server", VStr "8.8.8.8");
                ("success_rate", VFloat 100.0);
                ("average_response_time", VFloat 15.5);
                ("success", VBool true) ]) ]);
           ("status", VStr "online");
           ("timestamp", VStr t_rel) ]));
      ("route_stability", VDict (mk_dict
         [ ("overall_stability", VFloat 1.0);
           ("total_route_changes", VInt 0);
           ("average_hop_count", VFloat 12.0);
           ("results", VList [ VDict (mk_dict
              [ ("target", VStr "google.com");
                ("hop_count", VInt 12);
                ("route_stability", VFloat 1.0);
                ("hop_analysis", VDict (mk_dict
                   [ ("stable_hops", VInt 12);
                     ("unstable_hops", VInt 0);
                     ("new_hops", VInt 0);
                     ("missing_hops", VInt 0) ]));
                ("route_changes", VInt 0);
                ("success", VBool true) ]) ]);
           ("status", VStr "online");
           ("timestamp", VStr t_route) ])) ].

(** [_get_mock_data]; [entry_data] is [self.entry.data], [now] is
    [datetime.now().isoformat()], read once per time stamp, in the order
    of the dict display. *)
Definition _get_mock_data {W} (now : W -> string * W) (entry_data : dict) : M W dict :=
  let* last_update := total now in
  let update_interval := dict_get_or entry_data CONF_UPDATE_INTERVAL (VInt 60) in
  let* t_ip := total now in
  let* t_dns := total now in
  let* t_lat := total now in
  let* t_loss := total now in
  let* t_jit := total now in
  let* t_thr := total now in
  let* t_rel := total now in
  let* t_route := total now in
  ret (mk_dict
         [ ("last_update", VStr last_update);
           ("update_interval", update_interval);
           ("sensors",
              VDict (mock_sensors t_ip t_dns t_lat t_loss t_jit t_thr t_rel t_route)) ]).

(** The [try] block of [_async_update_data].  [setup] covers the imports,
    [_create_config_from_entry], the validation of the configuration by
    [Config] and the construction of the monitor; each of them may raise. *)
Definition update_body {W} (now : W -> string * W) (entry_data : dict)
    (setup : M W (ISPHealthMonitor.monitor W)) : M W dict :=
  let* monitor := setup in
  let* sensor_data := ISPHealthMonitor.get_all_sensor_data monitor in
  let* last_update := total now in
  ret (mk_dict
         [ ("sensors", VDict (VDict <$> sensor_data));
           ("last_update", VStr last_update);
           ("update_interval",
              dict_get_or entry_data CONF_UPDATE_INTERVAL (VInt 60)) ]).

Definition _async_update_data {W} (now : W -> string * W) (entry_data : dict)
    (setup : M W (ISPHealthMonitor.monitor W)) : M W dict :=
  try_except (update_body now entry_data setup)
             (fun err => _get_mock_data now entry_data).

(** The entry of a report for one metric: [data["sensors"][name]]. *)
Definition metric_entry (data : dict) (name : string) : option dict :=
  match data !! "sensors" with
  | Some (VDict sensors) =>
      match sensors !! name with
      | Some (VDict entry) => Some entry
      | _ => None
      end
  | _ => None
  end.

(** The [ip_info_config] built by [_create_config_from_entry]. *)
Definition ip_info_config (entry_data : dict) : gmap string dict :=
  let ip_info_source := dict_get_or entry_data "ip_info_source" (VStr "ipapi") in
  let ip_info_token := dict_get_or entry_data "ip_info_token" (VStr EmptyString) in
  list_to_map
    [ ("ipinfo", mk_dict [ ("token", if eq_str ip_info_source "ipinfo"
                                     then ip_info_token else VStr EmptyString) ]);
      ("ipapi", mk_dict [ ("token", if eq_str ip_info_source "ipapi"
                                    then ip_info_token else VStr EmptyString) ]);
      ("ipgeolocation", mk_dict [ ("api_key", if eq_str ip_info_source "ipgeolocation"
                                              then ip_info_token else VStr EmptyString) ]) ].

Definition default_intervals : dict :=
  mk_dict [ ("ip_info", VInt 60);
            ("dns_config", VInt 60);
            ("latency", VInt 60);
            ("packet_loss", VInt 120);
            ("jitter", VInt 120);
            ("throughput", VInt 3600);
            ("dns_reliability", VInt 180);
            ("route_stability", VInt 1800) ].

(** One turn of the loop over [sensors_config.items()]: a dict gets an
    [interval] unless it has one, anything else is replaced by a dict. *)
Definition normalize_sensor (sensor_type : string) (sensor_data : value) : value :=
  match sensor_data with
  | VDict d =>
      VDict (match d !! "interval" with
             | Some _ => d
             | None => <["interval" := dict_get_or default_intervals sensor_type (VInt 60)]> d
             end)
  | _ =>
      VDict (mk_dict [ ("enabled", sensor_data);
                       ("interval", dict_get_or default_intervals sensor_type (VInt 60)) ])
  end.

Definition normalize_sensors (sensors_config : dict) : dict :=
  map_imap (fun sensor_type sensor_data => Some (normalize_sensor sensor_type sensor_data))
           sensors_config.

(** [_create_config_from_entry] returns the configuration dict.  Its loop
    rewrites the dict stored under [sensors] in the entry itself, so the
    entry data as they are after the call are returned as well. *)
Definition _create_config_from_entry (entry_data : dict) : outcome (dict * dict) :=
  match dict_get_or entry_data "sensors" (VDict ∅) with
  | VDict sensors_config =>
      let config_data :=
        mk_dict [ ("update_interval", dict_get_or entry_data CONF_UPDATE_INTERVAL (VInt 60));
                  ("ip_info_source", dict_get_or entry_data "ip_info_source" (VStr "ipapi"));
                  ("ip_info_config", VDict (VDict <$> ip_info_config entry_data));
                  ("sensors", VDict (normalize_sensors sensors_config)) ] in
      let entry_data' :=
        match entry_data !! "sensors" with
        | Some _ => <["sensors" := VDict (normalize_sensors sensors_config)]> entry_data
        | None => entry_data
        end in
      Return (config_data, entry_data')
  | _ => Raise (AttributeError "object has no attribute 'items'")
  end.

End ISPHealthDataUpdateCoordinator.

(** ** config.py: the configuration of the address providers *)

Module IPInfoConfig.

(** A validated [IPInfoConfig]: each field holds None or a str. *)
Record t := { token : value; api_key : value }.

(** Validation of a field declared [Optional[str] = None]. *)
Definition optional_str (fields : dict) (name : string) : outcome value :=
  match fields !! name with
  | None => Return VNone
  | Some VNone => Return VNone
  | Some (VStr s) => Return (VStr s)
  | Some _ => Raise (ValueError "Input should be a valid string")
  end.

Definition validate (fields : dict) : outcome t :=
  match optional_str fields "token" with
  | Raise e => Raise e
  | Return token =>
      match optional_str fields "api_key" with
      | Raise e => Raise e
      | Return api_key => Return {| token := token; api_key := api_key |}
      end
  end.

Definition model_dump (self : t) : dict :=
  mk_dict [ ("token", token self); ("api_key", api_key self) ].

End IPInfoConfig.

Module Config.

Definition to_option {A} (o : outcome A) : option A :=
  match o with Return a => Some a | Raise _ => None end.

Fixpoint first_error {A} (l : list (string * outcome A)) : option exn :=
  match l with
  | [] => None
  | (_, Raise e) :: _ => Some e
  | (_, Return _) :: rest => first_error rest
  end.

(** Validation of the field [ip_info_config: Dict[str, IPInfoConfig]]. *)
Definition ip_info_config (c : gmap string dict) : outcome (gmap string IPInfoConfig.t) :=
  let parsed := IPInfoConfig.validate <$> c in
  match first_error (map_to_list parsed) with
  | Some e => Raise e
  | None => Return (omap to_option parsed)
  end.

End Config.

(** [ISPHealthMonitor.__init__]: the providers of a monitor built from a
    validated configuration. *)
Definition monitor_providers {W} (classes : IPInfoManager.provider_classes W)
    (ip_info_config : gmap string IPInfoConfig.t) : IPInfoManager.providers W :=
  IPInfoManager._initialize_providers classes (IPInfoConfig.model_dump <$> ip_info_config).

(** ** config_flow.py and options_flow.py: the entry made from the form *)

Module ISPHealthConfigFlow.

(** The interval fields of [STEP_USER_DATA_SCHEMA] with the bounds of
    their [vol.Range(min, max)]. *)
Definition interval_ranges : list (string * (Z * Z)) :=
  [ ("update_interval", (30, 600)%Z);
    ("ip_info_interval", (30, 600)%Z);
    ("dns_config_interval", (30, 600)%Z);
    ("latency_interval", (30, 600)%Z);
    ("packet_loss_interval", (60, 1800)%Z);
    ("jitter_interval", (60, 1800)%Z);
    ("throughput_interval", (3600, 86400)%Z);
    ("dns_reliability_interval", (60, 1800)%Z);
    ("route_stability_interval", (300, 7200)%Z) ].

(** What the schema guarantees of the interval fields of the input it
    lets through: each is there ([vol.Required] with a default) and holds
    an int ([vol.Coerce(int)]) within its range. *)
Definition intervals_valid (user_input : dict) : bool :=
  forallb (fun '(key, (lo, hi)) =>
             match user_input !! key with
             | Some (VInt z) => (lo <=? z)%Z && (z <=? hi)%Z
             | _ => false
             end)
          interval_ranges.

Definition _create_sensors_config (user_input : dict) : dict :=
  mk_dict
    [ ("ip_info", VDict (mk_dict
         [ ("enabled", VBool true);
           ("interval", dict_get_or user_input "ip_info_interval" (VInt 60)) ]));
      ("dns_config", VDict (mk_dict
         [ ("enabled", VBool true);
           ("interval", dict_get_or user_input "dns_config_interval" (VInt 60));
           ("custom_dns", dict_get_or user_input "custom_dns" (VStr EmptyString)) ]));
      ("latency", VDict (mk_dict
         [ ("enabled", dict_get_or user_input "enable_latency" (VBool true));
           ("interval", dict_get_or user_input "latency_interval" (VInt 60)) ]));
      ("packet_loss", VDict (mk_dict
         [ ("enabled", dict_get_or user_input "enable_packet_loss" (VBool true));
           ("interval", dict_get_or user_input "packet_loss_interval" (VInt 120)) ]));
      ("jitter", VDict (mk_dict
         [ ("enabled", dict_get_or user_input "enable_jitter" (VBool true));
           ("interval", dict_get_or user_input "jitter_interval" (VInt 120)) ]));
      ("throughput", VDict (mk_dict
         [ ("enabled", dict_get_or user_input "enable_throughput" (VBool false));
           ("interval", dict_get_or user_input "throughput_interval" (VInt 3600)) ]));
      ("dns_reliability", VDict (mk_dict
         [ ("enabled", dict_get_or user_input "enable_dns_reliability" (VBool true));
           ("interval", dict_get_or user_input "dns_reliability_interval" (VInt 180)) ]));
      ("route_stability", VDict (mk_dict
         [ ("enabled", dict_get_or user_input "enable_route_stability" (VBool false));
           ("interval", dict_get_or user_input "route_stability_interval" (VInt 1800)) ])) ].

(** The data of the entry created by [async_step_user]:
    [{**user_input, CONF_SENSORS: sensors_config}]. *)
Definition entry_data (user_input : dict) : dict :=
  <["sensors" := VDict (_create_sensors_config user_input)]> user_input.

End ISPHealthConfigFlow.

Module ISPHealthOptionsFlowHandler.

Definition _create_sensors_config (user_input : dict) : dict :=
  mk_dict
    [ ("ip_info", VDict (mk_dict
         [ ("enabled", VBool true);
           ("interval", dict_get_or user_input "ip_info_interval" (VInt 60)) ]));
      ("dns_config", VDict (mk_dict
         [ ("enabled", VBool true);
           ("interval", dict_get_or user_input "dns_config_interval" (VInt 60)) ]));
      ("latency", VDict (mk_dict
         [ ("enabled", dict_get_or user_input "enable_latency" (VBool true));
           ("interval", dict_get_or user_input "latency_interval" (VInt 60)) ]));
      ("packet_loss", VDict (mk_dict
         [ ("enabled", dict_get_or user_input "enable_packet_loss" (VBool true));
           ("interval", dict_get_or user_input "packet_loss_interval" (VInt 120)) ]));
      ("jitter", VDict (mk_dict
         [ ("enabled", dict_get_or user_input "enable_jitter" (VBool true));
           ("interval", dict_get_or user_input "jitter_interval" (VInt 120)) ]));
      ("throughput", VDict (mk_dict
         [ ("enabled", dict_get_or user_input "enable_throughput" (VBool false));
           ("interval", dict_get_or user_input "throughput_interval" (VInt 3600)) ]));
      ("dns_reliability", VDict (mk_dict
         [ ("enabled", dict_get_or user_input "enable_dns_reliability" (VBool true));
           ("interval", dict_get_or user_input "dns_reliability_interval" (VInt 180)) ]));
      ("route_stability", VDict (mk_dict
         [ ("enabled", dict_get_or user_input "enable_route_stability" (VBool false));
           ("interval", dict_get_or user_input "route_stability_interval" (VInt 1800)) ])) ].

End ISPHealthOptionsFlowHandler.

(** ** config.py: the bounds of the intervals *)

Module SensorsConfig.

(** The bounds [Field(ge=..., le=...)] of [interval] in the class of each
    field of [SensorsConfig]: [ThroughputConfig] declares its own, the
    other classes inherit those of [SensorConfig]. *)
Definition interval_bounds : list (string * (Z * Z)) :=
  [ ("ip_info", (30, 3600)%Z);
    ("dns_config", (30, 3600)%Z);
    ("latency", (30, 3600)%Z);
    ("packet_loss", (30, 3600)%Z);
    ("jitter", (30, 3600)%Z);
    ("throughput", (3600, 86400)%Z);
    ("dns_reliability", (30, 3600)%Z);
    ("route_stability", (30, 3600)%Z) ].

(** [Field(ge=lo, le=hi)] on an int; the text of the error is left out. *)
Definition Field (ge le : Z) (v : Z) : outcome Z :=
  if (ge <=? v)%Z && (v <=? le)%Z then Return v
  else Raise (ValueError EmptyString).

(** Validation of an int given for [interval] of the field [sensor_type];
    nothing for a name that is no field of [SensorsConfig]. *)
Definition validate_interval (sensor_type : string) (interval : Z) : option (outcome Z) :=
  match list_to_map (M := gmap string (Z * Z)) interval_bounds !! sensor_type with
  | Some (lo, hi) => Some (Field lo hi interval)
  | None => None
  end.

End SensorsConfig.

(** ** sensor.py: the entities *)

Module ISPHealthSensor.

(** What a property of an entity raises on data that are not dicts. *)
Inductive error := attribute_error | type_error.

Inductive answer (A : Type) :=
| Value (a : A)
| Error (e : error).
Arguments Value {A} _.
Arguments Error {A} _.

(** [async_setup_entry]: the sensor types an entity is created for.
    [sensors_config] lists the items of [entry.data.get("sensors", {})]. *)
Definition entity_types (sensors_config : list (string * value)) : list string :=
  let enabled_sensors :=
    map fst
      (List.filter
         (fun '(_, config) =>
            match config with
            | VDict c => value_truthy (dict_get_or c "enabled" (VBool true))
            | _ => false
            end)
         sensors_config) in
  let enabled_sensors :=
    fold_left
      (fun enabled_sensors sensor_type =>
         if IPInfoManager.listed enabled_sensors sensor_type then enabled_sensors
         else enabled_sensors ++ [sensor_type])
      ["ip_info"; "dns_config"] enabled_sensors in
  List.filter (IPInfoManager.listed ISPHealthDataUpdateCoordinator.SENSOR_TYPES)
              enabled_sensors.

(** [self.coordinator.data.get("sensors", {}).get(self._sensor_type, {})] *)
Definition sensor_data (data : dict) (_sensor_type : string) : answer value :=
  match dict_get_or data "sensors" (VDict ∅) with
  | VDict sensors => Value (dict_get_or sensors _sensor_type (VDict ∅))
  | _ => Error attribute_error
  end.

(** [coordinator_data] is [self.coordinator.data], None before the first
    update. *)
Definition native_value (coordinator_data : option dict) (_sensor_type : string)
    : answer value :=
  match coordinator_data with
  | None => Value VNone
  | Some data =>
      if negb (value_truthy (VDict data)) then Value VNone
      else
        match sensor_data data _sensor_type with
        | Error e => Error e
        | Value sensor_data =>
            if negb (value_truthy sensor_data) then Value VNone
            else
              match sensor_data with
              | VDict entry =>
                  if eq_str (dict_get entry "status") "error" then Value VNone
                  else if String.eqb _sensor_type "ip_info"
                  then Value (dict_get_or entry "ip" (VStr "Unknown"))
                  else if String.eqb _sensor_type "dns_config"
                  then Value (dict_get_or entry "primary_dns" (VStr "Unknown"))
                  else if String.eqb _sensor_type "latency"
                  then Value (dict_get entry "average")
                  else if String.eqb _sensor_type "packet_loss"
                  then Value (dict_get entry "average")
                  else if String.eqb _sensor_type "jitter"
                  then Value (dict_get entry "average")
                  else if String.eqb _sensor_type "throughput"
                  then Value (dict_get entry "download_mbps")
                  else if String.eqb _sensor_type "dns_reliability"
                  then Value (dict_get entry "overall_success_rate")
                  else if String.eqb _sensor_type "route_stability"
                  then Value (dict_get entry "overall_stability")
                  else Value VNone
              | _ => Error attribute_error
              end
        end
  end.

(** [if key in sensor_data: ... sensor_data[key]]: the value to copy, if
    any.  Only a dict can be indexed by a str. *)
Definition common (key : string) (sensor_data : value) : answer (option value) :=
  match sensor_data with
  | VDict entry => Value (entry !! key)
  | VStr s => if str_contains key s then Error type_error else Value None
  | VList l => if existsb (fun v => eq_str v key) l then Error type_error else Value None
  | _ => Error type_error
  end.

(** The attributes of one sensor type, read with [sensor_data.get]. *)
Definition specific (_sensor_type : string) (entry : dict) : option dict :=
  if String.eqb _sensor_type "ip_info" then
    Some (mk_dict [ ("hostname", dict_get entry "hostname");
                    ("city", dict_get entry "city");
                    ("region", dict_get entry "region");
                    ("country", dict_get entry "country");
                    ("latitude", dict_get entry "latitude");
                    ("longitude", dict_get entry "longitude");
                    ("organization", dict_get entry "organization");
                    ("postal_code", dict_get entry "postal_code");
                    ("timezone", dict_get entry "timezone");
                    ("source", dict_get entry "source") ])
  else if String.eqb _sensor_type "dns_config" then
    Some (mk_dict [ ("primary_dns", dict_get entry "primary_dns");
                    ("secondary_dns", dict_get entry "secondary_dns");
                    ("all_dns_servers", dict_get_or entry "all_dns_servers" (VList []));
                    ("source", dict_get entry "source");
                    ("resolution_test", dict_get_or entry "resolution_test" (VDict ∅));
                    ("supervisor_dns", dict_get_or entry "supervisor_dns" (VList []));
                    ("docker_host_dns", dict_get_or entry "docker_host_dns" (VList []));
                    ("gateway_dns", dict_get_or entry "gateway_dns" (VList []));
                    ("systemd_resolve_dns",
                       dict_get_or entry "systemd_resolve_dns" (VList []));
                    ("resolv_conf_dns", dict_get_or entry "resolv_conf_dns" (VList []));
                    ("public_fallback_dns",
                       dict_get_or entry "public_fallback_dns" (VList []));
                    ("supervisor_dns_raw",
                       dict_get_or entry "supervisor_dns_raw" (VList []));
                    ("docker_host_dns_raw",
                       dict_get_or entry "docker_host_dns_raw" (VList []));
                    ("gateway_dns_raw", dict_get_or entry "gateway_dns_raw" (VList []));
                    ("systemd_resolve_dns_raw",
                       dict_get_or entry "systemd_resolve_dns_raw" (VList []));
                    ("resolv_conf_dns_raw",
                       dict_get_or entry "resolv_conf_dns_raw" (VList []));
                    ("public_fallback_dns_raw",
                       dict_get_or entry "public_fallback_dns_raw" (VList [])) ])
  else if String.eqb _sensor_type "latency" then
    Some (mk_dict [ ("minimum", dict_get entry "minimum");
                    ("maximum", dict_get entry "maximum");
                    ("results", dict_get_or entry "results" (VList [])) ])
  else if String.eqb _sensor_type "packet_loss" then
    Some (mk_dict [ ("minimum", dict_get entry "minimum");
                    ("maximum", dict_get entry "maximum");
                    ("results", dict_get_or entry "results" (VList [])) ])
  else if String.eqb _sensor_type "jitter" then
    Some (mk_dict [ ("minimum", dict_get entry "minimum");
                    ("maximum", dict_get entry "maximum");
                    ("results", dict_get_or entry "results" (VList [])) ])
  else if String.eqb _sensor_type "throughput" then
    Some (mk_dict [ ("upload_mbps", dict_get entry "upload_mbps");
                    ("server", dict_get_or entry "server" (VDict ∅));
                    ("test_type", dict_get entry "test_type") ])
  else if String.eqb _sensor_type "dns_reliability" then
    Some (mk_dict [ ("average_response_time", dict_get entry "average_response_time");
                    ("results", dict_get_or entry "results" (VList [])) ])
  else if String.eqb _sensor_type "route_stability" then
    Some (mk_dict [ ("total_route_changes", dict_get entry "total_route_changes");
                    ("average_hop_count", dict_get entry "average_hop_count");
                    ("results", dict_get_or entry "results" (VList [])) ])
  else None.

Definition extra_state_attributes (coordinator_data : option dict) (_sensor_type : string)
    : answer dict :=
  match coordinator_data with
  | None => Value ∅
  | Some data =>
      if negb (value_truthy (VDict data)) then Value ∅
      else
        match sensor_data data _sensor_type with
        | Error e => Error e
        | Value sensor_data =>
            if negb (value_truthy sensor_data) then Value ∅
            else
              match common "timestamp" sensor_data with
              | Error e => Error e
              | Value timestamp =>
                  let attrs : dict :=
                    match timestamp with
                    | Some t => <["last_update" := t]> ∅
                    | None => ∅
                    end in
                  match common "status" sensor_data with
                  | Error e => Error e
                  | Value status =>
                      let attrs :=
                        match status with
                        | Some s => <["status" := s]> attrs
                        | None => attrs
                        end in
                      match sensor_data with
                      | VDict entry =>
                          match specific _sensor_type entry with
                          | Some update => Value (update ∪ attrs)
                          | None => Value attrs
                          end
                      | _ =>
                          match specific _sensor_type ∅ with
                          | Some _ => Error attribute_error
                          | None => Value attrs
                          end
                      end
                  end
              end
        end
  end.

End ISPHealthSensor.

(** ** Runs of the external calls, and worlds for concrete runs *)

(** What [n] successive calls of [_ping_host] answer from world [w], and
    the world they leave. *)
Fixpoint ping_outcomes {W} (_ping_host : ping_host W) (n : nat) (w : W)
    : list (option Q) * W :=
  match n with
  | O => ([], w)
  | S n' =>
      let (latency, w1) := _ping_host w in
      let (outcomes, w') := ping_outcomes _ping_host n' w1 in
      (latency :: outcomes, w')
  end.

(** The successful samples among the outcomes. *)
Definition successes (outcomes : list (option Q)) : list Q := omap id outcomes.

(** A world that is the script of the answers still to come; a call
    consumes the first one. *)
Definition replay {A} : list (option A) -> option A * list (option A) :=
  fun script =>
    match script with
    | [] => (None, [])
    | answer :: script' => (answer, script')
    end.

(** A detection method that writes its name into the call history and
    gives a fixed answer. *)
Definition logged (name : string) (answer : outcome (list string))
    : DNSConfigSensor.method (list string) :=
  (name, fun history => (answer, history ++ [name])).

(** Successive invocations of the route-stability probe on one sensor
    object: the reports, oldest first, and the object afterwards. *)
Fixpoint route_runs {W} (_get_route : RouteStabilitySensor.tracer W) (n : nat)
    (self : RouteStabilitySensor.state) (w : W)
    : list (outcome dict) * RouteStabilitySensor.state * W :=
  match n with
  | O => ([], self, w)
  | S n' =>
      match RouteStabilitySensor.get_data _get_route self w with
      | (Return (report, self1), w1) =>
          let '(reports, self', w') := route_runs _get_route n' self1 w1 in
          (Return report :: reports, self', w')
      | (Raise e, w1) =>
          let '(reports, self', w') := route_runs _get_route n' self w1 in
          (Raise e :: reports, self', w')
      end
  end.

(** What [n] successive calls of [_get_route] answer from world [w], and
    the world they leave. *)
Fixpoint trace_outcomes {W} (_get_route : RouteStabilitySensor.tracer W) (n : nat)
    (w : W) : list (option (list string)) * W :=
  match n with
  | O => ([], w)
  | S n' =>
      let (route, w1) := _get_route w in
      let (outcomes, w') := trace_outcomes _get_route n' w1 in
      (route :: outcomes, w')
  end.

(** The routes among the outcomes that name at least one hop. *)
Definition kept_routes (outcomes : list (option (list string))) : list (list string) :=
  omap (fun route => match route with
                     | Some (hop :: hops) => Some (hop :: hops)
                     | _ => None
                     end) outcomes.

(** The last ten elements of a list. *)
Definition last_ten {A} (l : list A) : list A := drop (length l - 10) l.

(** The report of a sensor object used once, straight after its
    construction; this is how a monitor that lives for one collection
    cycle uses its route sensor. *)
Definition first_report {W} (_get_route : RouteStabilitySensor.tracer W) : M W dict :=
  let* (report, _) := RouteStabilitySensor.get_data _get_route RouteStabilitySensor.init in
  ret report.

(** What the queries for the given domains answer, in order, from world
    [w], and the world they leave. *)
Fixpoint query_outcomes {W} (_test_dns_query : DNSReliabilitySensor.dns_query W)
    (domains : list string) (w : W) : list bool * W :=
  match domains with
  | [] => ([], w)
  | domain :: rest =>
      let (answered, w1) := _test_dns_query domain w in
      let (outcomes, w') := query_outcomes _test_dns_query rest w1 in
      (answered :: outcomes, w')
  end.

(** How many of the answers are [True]. *)
Definition count_true (answers : list bool) : Z :=
  Z.of_nat (length (filter (fun b => b = true) answers)).

(** How many of the snapshots equal [route]. *)
Definition occurrences (route : list string) (snapshots : list (list string)) : Z :=
  Z.of_nat (length (filter (fun previous => route = previous) snapshots)).

(** A provider that writes its name into the call history and gives a
    fixed answer. *)
Definition logged_provider (name : string) (answer : outcome dict)
    : M (list string) dict :=
  fun history => (answer, history ++ [name]).

(** A monitor over call histories: no sensor enabled, a clock that
    stands still, a budget that is never used up, and two providers that
    both fail. *)
Definition failing_monitor : ISPHealthMonitor.monitor (list string) :=
  {| ISPHealthMonitor.now := fun history => ("2024-05-01T12:00:00", history);
     ISPHealthMonitor.deadline := fun _ => None;
     ISPHealthMonitor.ip_info_source := "ipinfo";
     ISPHealthMonitor.ip_info_manager :=
       <["ipinfo" := logged_provider "ipinfo" (Raise (Exception "Request timed out"))]>
         (<["ipapi" := logged_provider "ipapi" (Raise (Exception "HTTP 500: down"))]> ∅);
     ISPHealthMonitor.sensors := [] |}.

(** The report after the entries for the given answers were written. *)
Definition written (results : gmap string dict) (l : list (string * outcome dict))
    : gmap string dict :=
  foldl (fun acc '(name, o) => <[name := ISPHealthMonitor.entry_of o]> acc) results l.

(** A monitor over call histories with three sensors, the second of
    which raises. *)
Definition mixed_monitor : ISPHealthMonitor.monitor (list string) :=
  {| ISPHealthMonitor.now := fun history => ("2024-05-01T12:00:00", history);
     ISPHealthMonitor.deadline := fun _ => None;
     ISPHealthMonitor.ip_info_source := "ipapi";
     ISPHealthMonitor.ip_info_manager :=
       <["ipapi" := logged_provider "ipapi"
                      (Return (mk_dict [("ip", VStr "203.0.113.7")]))]> ∅;
     ISPHealthMonitor.sensors :=
       [ ("latency", logged_provider "latency"
                       (Return (mk_dict [("status", VStr "online")])));
         ("jitter", logged_provider "jitter" (Raise (Exception "no samples")));
         ("throughput", logged_provider "throughput"
                          (Return (mk_dict [("status", VStr "offline")]))) ] |}.

(** A monitor over call histories whose preferred provider is out of
    reach while the next one answers. *)
Definition recovering_monitor : ISPHealthMonitor.monitor (list string) :=
  {| ISPHealthMonitor.now := fun history => ("2024-05-01T12:00:00", history);
     ISPHealthMonitor.deadline := fun _ => None;
     ISPHealthMonitor.ip_info_source := "ipinfo";
     ISPHealthMonitor.ip_info_manager :=
       <["ipinfo" := logged_provider "ipinfo" (Raise (Exception "Request timed out"))]>
         (<["ipapi" := logged_provider "ipapi"
                         (Return (mk_dict [ ("ip", VStr "203.0.113.7");
                                            ("source", VStr "ip-api.com") ]))]> ∅);
     ISPHealthMonitor.sensors := [] |}.

(** The calls to the outside world that the sensors of a monitor make. *)
Record externals (W : Type) := {
  dns_detectors : DNSConfigSensor.detectors W;
  _test_dns_resolution : DNSConfigSensor.resolver W;
  _ping_host : ping_host W;
  _run_speedtest : M W (option (Q * Q * Q));
  _test_dns_query : DNSReliabilitySensor.dns_query W;
  _get_route : RouteStabilitySensor.tracer W;
}.
Arguments dns_detectors {W} _.
Arguments _test_dns_resolution {W} _.
Arguments _ping_host {W} _.
Arguments _run_speedtest {W} _.
Arguments _test_dns_query {W} _.
Arguments _get_route {W} _.

(** The sensor objects that [_initialize_sensors] constructs.  Each is
    new, so the route history starts empty; the configuration dicts the
    monitor passes hold no [count], so the sensors take their defaults 3,
    10 and 10. *)
Definition new_sensors {W} (env : externals W) : ISPHealthMonitor.sensor_classes W :=
  {| ISPHealthMonitor.DNSConfigSensor_get_data :=
       DNSConfigSensor.get_data (dns_detectors env) (_test_dns_resolution env);
     ISPHealthMonitor.LatencySensor_get_data := LatencySensor.get_data (_ping_host env) 3;
     ISPHealthMonitor.PacketLossSensor_get_data :=
       PacketLossSensor.get_data (_ping_host env) 10;
     ISPHealthMonitor.JitterSensor_get_data := JitterSensor.get_data (_ping_host env) 10;
     ISPHealthMonitor.ThroughputSensor_get_data :=
       ThroughputSensor.get_data (_run_speedtest env);
     ISPHealthMonitor.DNSReliabilitySensor_get_data :=
       DNSReliabilitySensor.get_data (_test_dns_query env);
     ISPHealthMonitor.RouteStabilitySensor_get_data := first_report (_get_route env) |}.

(** [ISPHealthMonitor(config)], as every update cycle of the coordinator
    constructs it. *)
Definition new_monitor {W} (now : W -> string * W) (deadline : W -> option W)
    (ip_info_source : string) (providers : IPInfoManager.providers W)
    (config : ISPHealthMonitor.sensors_config) (env : externals W)
    : ISPHealthMonitor.monitor W :=
  {| ISPHealthMonitor.now := now;
     ISPHealthMonitor.deadline := deadline;
     ISPHealthMonitor.ip_info_source := ip_info_source;
     ISPHealthMonitor.ip_info_manager := providers;
     ISPHealthMonitor.sensors := ISPHealthMonitor._initialize_sensors config (new_sensors env) |}.

(** One turn of the loop that builds [sources_to_try]. *)
Definition extend_sources {W} (self : gmap string (M W dict))
    (sources : list string) (source : string) : list string :=
  if IPInfoManager.available self source && negb (IPInfoManager.listed sources source)
  then sources ++ [source] else sources.

(** The names of the enabled sensors, in the order of
    [_initialize_sensors]. *)
Definition enabled_metrics (config : ISPHealthMonitor.sensors_config) : list string :=
  (if ISPHealthMonitor.dns_config config then ["dns_config"] else [])
  ++ (if ISPHealthMonitor.latency config then ["latency"] else [])
  ++ (if ISPHealthMonitor.packet_loss config then ["packet_loss"] else [])
  ++ (if ISPHealthMonitor.jitter config then ["jitter"] else [])
  ++ (if ISPHealthMonitor.throughput config then ["throughput"] else [])
  ++ (if ISPHealthMonitor.dns_reliability config then ["dns_reliability"] else [])
  ++ (if ISPHealthMonitor.route_stability config then ["route_stability"] else []).

(** ** Facts about the exclusion predicate and the DNS detector chain *)

Lemma startswith_spec (s p : string) :
  startswith s p = true <-> exists rest, s = p +:+ rest.
Proof.
  unfold startswith. revert s.
  induction p as [|c p IH]; intros s; simpl.
  - split; [intros _; exists s; reflexivity | intros _; now destruct s].
  - destruct s as [|c' s]; simpl.
    + split; [discriminate | intros [rest H]; discriminate].
    + destruct (Ascii.ascii_dec c c') as [->|Hne].
      * rewrite IH. split; intros [rest H]; exists rest.
        -- now rewrite H.
        -- now injection H.
      * split; [discriminate | intros [rest H]; injection H; congruence].
Qed.

Lemma is_container_dns_spec (dns_ip : string) :
  DNSConfigSensor._is_container_dns dns_ip = true <->
  exists network, In network DNSConfigSensor.container_networks /\
                  exists rest, dns_ip = network +:+ rest.
Proof.
  unfold DNSConfigSensor._is_container_dns. rewrite existsb_exists.
  split; intros [network [Hin H]]; exists network; split; auto;
    now apply startswith_spec.
Qed.

Lemma filtered_keeps_outsiders (raw : list string) :
  Forall (fun dns => DNSConfigSensor._is_container_dns dns = false)
         (DNSConfigSensor.filtered raw).
Proof.
  apply Forall_forall. intros dns Hin.
  apply list_elem_of_filter in Hin as [Hkeep _].
  now apply negb_true_iff.
Qed.

Lemma truthy_false {A} (l : list A) : truthy l = false <-> l = [].
Proof. destruct l; simpl; split; congruence. Qed.

Lemma truthy_true {A} (l : list A) : truthy l = true <-> l <> [].
Proof. destruct l; simpl; split; congruence. Qed.

Section DetectorChain.
Context {W : Type}.
Implicit Types (ms rest : list (DNSConfigSensor.method W)) (w : W).

(** One step of the loop on a method whose answer is accepted. *)
Lemma detect_loop_accept name call rest acc src w raw w1 :
  call w = (Return raw, w1) ->
  DNSConfigSensor.filtered raw <> [] ->
  DNSConfigSensor.detect_loop ((name, call) :: rest) acc src w
  = (Return (acc ++ DNSConfigSensor.filtered raw, name), w1).
Proof.
  intros Hcall Hne. simpl. rewrite Hcall.
  assert (Hraw : truthy raw = true).
  { apply truthy_true. intros ->. now apply Hne. }
  rewrite Hraw. fold (DNSConfigSensor.filtered raw).
  apply truthy_true in Hne. now rewrite Hne.
Qed.

(** One step of the loop on a method that yields nothing. *)
Lemma detect_loop_skip name call rest acc src w o w1 :
  call w = (o, w1) ->
  DNSConfigSensor.yields_nothing o ->
  DNSConfigSensor.detect_loop ((name, call) :: rest) acc src w
  = DNSConfigSensor.detect_loop rest acc src w1.
Proof.
  intros Hcall Hno. simpl. rewrite Hcall.
  destruct o as [raw|e]; [|reflexivity].
  simpl in Hno. fold (DNSConfigSensor.filtered raw). rewrite Hno. simpl.
  now destruct (truthy raw).
Qed.

Lemma detect_loop_rejected ms rest acc src w w' :
  DNSConfigSensor.all_rejected ms w w' ->
  DNSConfigSensor.detect_loop (ms ++ rest) acc src w
  = DNSConfigSensor.detect_loop rest acc src w'.
Proof.
  induction 1 as [w|name call ms w o w1 w' Hcall Hno _ IH]; [reflexivity|].
  rewrite <- app_comm_cons, (detect_loop_skip _ _ _ _ _ _ _ _ Hcall Hno).
  exact IH.
Qed.

(** Every run of the chain is of one of two shapes. *)
Lemma chain_cases ms w :
  (exists ms1 name call ms2 w1 raw w2,
      ms = ms1 ++ (name, call) :: ms2 /\
      DNSConfigSensor.all_rejected ms1 w w1 /\
      call w1 = (Return raw, w2) /\
      DNSConfigSensor.filtered raw <> [])
  \/ (exists w', DNSConfigSensor.all_rejected ms w w').
Proof.
  revert w. induction ms as [|[name call] ms IH]; intros w.
  - right. exists w. constructor.
  - destruct (call w) as [o w1] eqn:Hcall.
    assert (Hdec : DNSConfigSensor.yields_nothing o \/
                   exists raw, o = Return raw /\ DNSConfigSensor.filtered raw <> []).
    { destruct o as [raw|e]; simpl; [|now left].
      destruct (DNSConfigSensor.filtered raw) eqn:Hf; [now left|].
      right. exists raw. rewrite Hf. split; congruence. }
    destruct Hdec as [Hno|(raw & -> & Hne)].
    + destruct (IH w1) as [(ms1 & n & c & ms2 & wa & raw & wb & -> & Hrej & Hc & Hne)
                          |(w' & Hrej)].
      * left. exists ((name, call) :: ms1), n, c, ms2, wa, raw, wb.
        repeat split; auto. econstructor; eauto.
      * right. exists w'. econstructor; eauto.
    + left. exists [], name, call, ms, w, raw, w1.
      repeat split; auto. constructor.
Qed.

Lemma chain_accepts ms1 name call ms2 w w1 raw w2 :
  DNSConfigSensor.all_rejected ms1 w w1 ->
  call w1 = (Return raw, w2) ->
  DNSConfigSensor.filtered raw <> [] ->
  DNSConfigSensor.get_system_dns_servers_with (ms1 ++ (name, call) :: ms2) w
  = (Return (DNSConfigSensor.filtered raw, name), w2).
Proof.
  intros Hrej Hcall Hne.
  unfold DNSConfigSensor.get_system_dns_servers_with, bind.
  rewrite (detect_loop_rejected _ _ _ _ _ _ Hrej).
  rewrite (detect_loop_accept _ _ _ _ _ _ _ _ Hcall Hne). simpl.
  apply truthy_true in Hne. now rewrite Hne.
Qed.

Lemma chain_falls_back ms w w' :
  DNSConfigSensor.all_rejected ms w w' ->
  DNSConfigSensor.get_system_dns_servers_with ms w
  = (Return (["8.8.8.8"; "1.1.1.1"], "public_fallback"), w').
Proof.
  intros Hrej.
  unfold DNSConfigSensor.get_system_dns_servers_with, bind.
  rewrite <- (app_nil_r ms), (detect_loop_rejected _ _ _ _ _ _ Hrej).
  reflexivity.
Qed.

(** The chain always returns, and what it returns is never empty and
    never holds an address the exclusion predicate discards. *)
Lemma chain_returns ms w :
  exists servers source w',
    DNSConfigSensor.get_system_dns_servers_with ms w = (Return (servers, source), w') /\
    servers <> [] /\
    Forall (fun dns => DNSConfigSensor._is_container_dns dns = false) servers.
Proof.
  destruct (chain_cases ms w)
    as [(ms1 & name & call & ms2 & w1 & raw & w2 & -> & Hrej & Hcall & Hne)|(w' & Hrej)].
  - exists (DNSConfigSensor.filtered raw), name, w2.
    split; [now apply (chain_accepts _ _ _ _ _ w1)|]. split; [exact Hne|].
    apply filtered_keeps_outsiders.
  - exists ["8.8.8.8"; "1.1.1.1"], "public_fallback", w'.
    split; [now apply chain_falls_back|]. split; [discriminate|].
    repeat constructor.
Qed.

End DetectorChain.

(** The last declared method cannot fail, so the chain of the sensor
    never reaches the fallback below the loop. *)
Lemma system_chain_source {W} (self : DNSConfigSensor.detectors W) (w : W) :
  exists servers source w',
    DNSConfigSensor._get_system_dns_servers self w = (Return (servers, source), w') /\
    source <> "public_fallback" /\ source <> "unknown".
Proof.
  unfold DNSConfigSensor._get_system_dns_servers,
    DNSConfigSensor.get_system_dns_servers_with, DNSConfigSensor.methods, bind.
  simpl.
  repeat match goal with
  | |- context [match ?c w with _ => _ end] => destruct (c w) as [[?|?] ?]
  | |- context [match ?c ?x with _ => _ end] =>
      is_var x; destruct (c x) as [[?|?] ?]
  | |- context [truthy ?l] => destruct (truthy l) eqn:?
  end; simpl; try discriminate;
  eexists _, _, _; (split; [reflexivity|split; discriminate]).
Qed.

(** C10. The exclusion predicate [_is_container_dns] is a plain prefix
    test: it answers true exactly for the strings that start with one of
    "127.0.0.1", "::1", "172.", "192.168.", "10.", "169.254.".  So every
    address that begins with "172." is discarded, the public address
    "172.217.0.1" among them, and whatever method the chain accepts, no
    server it returns is one the predicate discards. *)
Theorem exclusion_is_prefix_test :
  (forall dns_ip : string,
      DNSConfigSensor._is_container_dns dns_ip = true <->
      exists network,
        In network ["127.0.0.1"; "::1"; "172."; "192.168."; "10."; "169.254."] /\
        exists rest, dns_ip = network +:+ rest)
  /\ (forall rest : string, DNSConfigSensor._is_container_dns ("172." +:+ rest) = true)
  /\ DNSConfigSensor._is_container_dns "172.217.0.1" = true
  /\ (forall (W : Type) (ms : list (DNSConfigSensor.method W)) (w : W),
        match fst (DNSConfigSensor.get_system_dns_servers_with ms w) with
        | Return (servers, _) =>
            Forall (fun dns => DNSConfigSensor._is_container_dns dns = false) servers
        | Raise _ => False
        end).
Proof.
  split; [exact is_container_dns_spec|].
  split; [intros rest; apply is_container_dns_spec; exists "172.";
          split; [simpl; tauto | now exists rest]|].
  split; [reflexivity|].
  intros W ms w.
  destruct (chain_returns ms w) as (servers & source & w' & -> & _ & Hall).
  exact Hall.
Qed.

(** C2. The detector chain runs its methods in the declared order.  If
    the methods before [call] each raise or return nothing that the
    exclusion predicate keeps, and [call] returns candidates of which the
    predicate keeps some, then the chain returns exactly the kept
    candidates of [call] with the name of [call] as the source, and the
    world it leaves is the one left by [call]: the methods declared after
    it are not run.  An exception inside a method counts as that method
    having produced nothing, and the chain itself never raises. *)
Theorem chain_first_success_wins {W : Type}
    (ms1 ms2 : list (DNSConfigSensor.method W))
    (name : string) (call : M W (list string)) (w w1 w2 : W) (raw : list string) :
  DNSConfigSensor.all_rejected ms1 w w1 ->
  call w1 = (Return raw, w2) ->
  DNSConfigSensor.filtered raw <> [] ->
  DNSConfigSensor.get_system_dns_servers_with (ms1 ++ (name, call) :: ms2) w
  = (Return (DNSConfigSensor.filtered raw, name), w2)
  /\ (forall e w0 w0', call w0 = (Raise e, w0') ->
        DNSConfigSensor.detect_loop ((name, call) :: ms2) [] "unknown" w0
        = DNSConfigSensor.detect_loop ms2 [] "unknown" w0')
  /\ (forall (ms : list (DNSConfigSensor.method W)) (w0 : W), exists result w',
        DNSConfigSensor.get_system_dns_servers_with ms w0 = (Return result, w')).
Proof.
  intros Hrej Hcall Hne. split; [now apply (chain_accepts _ _ _ _ _ w1)|]. split.
  - intros e w0 w0' Hraise.
    now apply (detect_loop_skip _ _ _ _ _ _ (Raise e) w0').
  - intros ms w0.
    destruct (chain_returns ms w0) as (servers & source & w' & H & _).
    now exists (servers, source), w'.
Qed.

Lemma chain_first_success_wins_witness :
  DNSConfigSensor.get_system_dns_servers_with
    ([logged "m1" (Return ["192.168.1.1"; "10.0.0.2"]);
      logged "m2" (Raise (Exception "no route"))]
     ++ logged "m3" (Return ["172.17.0.1"; "9.9.9.9"])
     :: [logged "m4" (Return ["1.1.1.1"])]) []
  = (Return (["9.9.9.9"], "m3"), ["m1"; "m2"; "m3"]).
Proof.
  refine (proj1 (chain_first_success_wins
            [logged "m1" (Return ["192.168.1.1"; "10.0.0.2"]);
             logged "m2" (Raise (Exception "no route"))]
            [logged "m4" (Return ["1.1.1.1"])]
            "m3" (fun history => (Return ["172.17.0.1"; "9.9.9.9"], history ++ ["m3"]))
            [] ["m1"; "m2"] ["m1"; "m2"; "m3"] ["172.17.0.1"; "9.9.9.9"] _ _ _)).
  - eapply DNSConfigSensor.rejected_cons; [reflexivity|reflexivity|].
    eapply DNSConfigSensor.rejected_cons; [reflexivity|exact I|].
    apply DNSConfigSensor.rejected_nil.
  - reflexivity.
  - discriminate.
Defined.

(** C7. When every method of the chain yields an empty filtered set (or
    raises), the chain returns the fixed list ["8.8.8.8"; "1.1.1.1"] with
    source "public_fallback".  Hence DNS discovery never fails: for every
    list of methods and every world the chain returns a server list that
    is not empty, and so does the chain of the sensor itself. *)
Theorem chain_exhaustion_falls_back {W : Type}
    (ms : list (DNSConfigSensor.method W)) (w w' : W) :
  DNSConfigSensor.all_rejected ms w w' ->
  DNSConfigSensor.get_system_dns_servers_with ms w
  = (Return (["8.8.8.8"; "1.1.1.1"], "public_fallback"), w')
  /\ (forall (ms0 : list (DNSConfigSensor.method W)) (w0 : W),
      exists servers source w1,
        DNSConfigSensor.get_system_dns_servers_with ms0 w0
        = (Return (servers, source), w1) /\ servers <> [])
  /\ (forall (self : DNSConfigSensor.detectors W) w0, exists servers source w1,
        DNSConfigSensor._get_system_dns_servers self w0
        = (Return (servers, source), w1) /\ servers <> []).
Proof.
  intros Hrej. split; [now apply chain_falls_back|]. split.
  - intros ms0 w0.
    destruct (chain_returns ms0 w0) as (servers & source & w1 & H & Hne & _).
    now exists servers, source, w1.
  - intros self w0.
    destruct (chain_returns (DNSConfigSensor.methods self) w0)
      as (servers & source & w1 & H & Hne & _).
    now exists servers, source, w1.
Qed.

Lemma chain_exhaustion_falls_back_witness :
  DNSConfigSensor.get_system_dns_servers_with
    [logged "m1" (Return ["192.168.1.1"]); logged "m2" (Raise (Exception "down"));
     logged "m3" (Return [])] []
  = (Return (["8.8.8.8"; "1.1.1.1"], "public_fallback"), ["m1"; "m2"; "m3"]).
Proof.
  refine (proj1 (chain_exhaustion_falls_back _ [] ["m1"; "m2"; "m3"] _)).
  eapply DNSConfigSensor.rejected_cons; [reflexivity|reflexivity|].
  eapply DNSConfigSensor.rejected_cons; [reflexivity|exact I|].
  eapply DNSConfigSensor.rejected_cons; [reflexivity|reflexivity|].
  apply DNSConfigSensor.rejected_nil.
Defined.

(** ** Facts about rounding *)

Lemma round_half_even_comp (x y : Q) : x == y -> round_half_even x = round_half_even y.
Proof.
  intros H. unfold round_half_even.
  rewrite (Qfloor_comp _ _ H).
  assert (Hc : (x - inject_Z (Qfloor y) ?= 1 # 2) = (y - inject_Z (Qfloor y) ?= 1 # 2)).
  { now rewrite H. }
  now rewrite Hc.
Qed.

Lemma round2_comp (x y : Q) : x == y -> round2 x = round2 y.
Proof.
  intros H. unfold round2.
  now rewrite (round_half_even_comp (x * 100) (y * 100)) by now rewrite H.
Qed.

Lemma Qmake_100 (n : Z) : n # 100 == inject_Z n / 100.
Proof. unfold Qeq, Qdiv, Qmult, Qinv, inject_Z. simpl. lia. Qed.

Lemma inject_Z_nonzero (k : Z) : k <> 0%Z -> ~ inject_Z k == 0.
Proof.
  intros Hk H0. apply Hk. now apply (proj1 (inject_Z_injective k 0)).
Qed.

Lemma Qdiv_100 (x : Q) : x / 100 == x * (1 # 100).
Proof. reflexivity. Qed.

(** [round_half_even x] is an integer nearest to [x]. *)
Lemma round_half_even_nearest (x : Q) :
  Qabs (inject_Z (round_half_even x) - x) <= 1 # 2.
Proof.
  unfold round_half_even.
  pose proof (Qfloor_le x) as Hlo. pose proof (Qlt_floor x) as Hhi.
  rewrite inject_Z_plus in Hhi. change (inject_Z 1) with 1 in Hhi.
  apply Qabs_Qle_condition.
  destruct (x - inject_Z (Qfloor x) ?= 1 # 2) eqn:Hc.
  - apply Qeq_alt in Hc.
    destruct (Z.even (Qfloor x));
      rewrite ?inject_Z_plus; change (inject_Z 1) with 1; lra.
  - apply Qlt_alt in Hc. lra.
  - apply Qgt_alt in Hc. rewrite inject_Z_plus. change (inject_Z 1) with 1. lra.
Qed.

(** [round2 x] is a whole number of hundredths, one nearest to [x]. *)
Lemma round2_nearest (x : Q) :
  (exists n : Z, round2 x == inject_Z n / 100) /\ Qabs (round2 x - x) <= 1 # 200.
Proof.
  unfold round2. split.
  - exists (round_half_even (x * 100)). apply Qmake_100.
  - rewrite Qmake_100.
    pose proof (round_half_even_nearest (x * 100)) as H.
    apply Qabs_Qle_condition in H. apply Qabs_Qle_condition.
    rewrite Qdiv_100. lra.
Qed.

(** A number that already is a whole number of hundredths is left as it
    is. *)
Lemma round2_hundredths (n : Z) : round2 (inject_Z n / 100) == inject_Z n / 100.
Proof.
  unfold round2. rewrite Qmake_100.
  assert (H : round_half_even (inject_Z n / 100 * 100) = n).
  { rewrite (round_half_even_comp _ (inject_Z n)) by (field; discriminate).
    unfold round_half_even. rewrite Qfloor_Z.
    assert (Hc : (inject_Z n - inject_Z n ?= 1 # 2) = Lt).
    { apply (proj1 (Qlt_alt _ _)). lra. }
    now rewrite Hc. }
  now rewrite H.
Qed.

(** ** Facts about the sampling sensors *)

Lemma py_min_spec (l : list Q) :
  l <> [] ->
  exists lo, py_min l = Return lo /\ In lo l /\ forall x, In x l -> lo <= x.
Proof.
  destruct l as [|x0 l]; [congruence|]. intros _. simpl.
  eexists. split; [reflexivity|].
  revert x0. induction l as [|y l IH]; intros x0; simpl.
  - split; [now left|]. intros x [<-|[]]. lra.
  - destruct (Qlt_le_dec y x0) as [Hlt|Hle].
    + destruct (IH y) as [Hin Hmin]. split.
      * destruct Hin as [<-|Hin]; [right; now left | right; now right].
      * intros x [<-|[<-|Hx]].
        -- specialize (Hmin y (or_introl eq_refl)). lra.
        -- apply Hmin. now left.
        -- apply Hmin. now right.
    + destruct (IH x0) as [Hin Hmin]. split.
      * destruct Hin as [<-|Hin]; [now left | right; now right].
      * intros x [<-|[<-|Hx]].
        -- apply Hmin. now left.
        -- specialize (Hmin x0 (or_introl eq_refl)). lra.
        -- apply Hmin. now right.
Qed.

Lemma py_max_spec (l : list Q) :
  l <> [] ->
  exists hi, py_max l = Return hi /\ In hi l /\ forall x, In x l -> x <= hi.
Proof.
  destruct l as [|x0 l]; [congruence|]. intros _. simpl.
  eexists. split; [reflexivity|].
  revert x0. induction l as [|y l IH]; intros x0; simpl.
  - split; [now left|]. intros x [<-|[]]. lra.
  - destruct (Qlt_le_dec x0 y) as [Hlt|Hle].
    + destruct (IH y) as [Hin Hmax]. split.
      * destruct Hin as [<-|Hin]; [right; now left | right; now right].
      * intros x [<-|[<-|Hx]].
        -- specialize (Hmax y (or_introl eq_refl)). lra.
        -- apply Hmax. now left.
        -- apply Hmax. now right.
    + destruct (IH x0) as [Hin Hmax]. split.
      * destruct Hin as [<-|Hin]; [now left | right; now right].
      * intros x [<-|[<-|Hx]].
        -- apply Hmax. now left.
        -- specialize (Hmax x0 (or_introl eq_refl)). lra.
        -- apply Hmax. now right.
Qed.

Lemma len_nonzero {A} (l : list A) : l <> [] -> Qeq_bool (len l) 0 = false.
Proof. destruct l; [congruence|reflexivity]. Qed.

Lemma py_div_len {A} (x : Q) (l : list A) :
  l <> [] -> py_div x (len l) = Return (x / len l).
Proof. intros H. unfold py_div. now rewrite len_nonzero. Qed.

Section Sampling.
Context {W : Type} (_ping_host : ping_host W).

Lemma sample_loop_spec (n : nat) (acc : list Q) (w : W) :
  sample_loop _ping_host n acc w
  = (Return (acc ++ successes (fst (ping_outcomes _ping_host n w))),
     snd (ping_outcomes _ping_host n w)).
Proof.
  revert acc w. induction n as [|n IH]; intros acc w; simpl.
  - unfold ret. now rewrite app_nil_r.
  - unfold bind, total. destruct (_ping_host w) as [latency w1].
    destruct latency as [x|]; rewrite IH;
      destruct (ping_outcomes _ping_host n w1) as [outcomes w']; simpl;
      [now rewrite <- app_assoc | reflexivity].
Qed.

Lemma count_loop_spec (n : nat) (acc : Z) (w : W) :
  PacketLossSensor.count_loop _ping_host n acc w
  = (Return (acc + Z.of_nat (length (successes (fst (ping_outcomes _ping_host n w)))))%Z,
     snd (ping_outcomes _ping_host n w)).
Proof.
  revert acc w. induction n as [|n IH]; intros acc w; simpl.
  - unfold ret. now rewrite Z.add_0_r.
  - unfold bind, total. destruct (_ping_host w) as [latency w1].
    destruct latency as [x|]; rewrite IH;
      destruct (ping_outcomes _ping_host n w1) as [outcomes w']; simpl;
      [f_equal; f_equal; lia | reflexivity].
Qed.

Lemma ping_outcomes_length (n : nat) (w : W) :
  length (fst (ping_outcomes _ping_host n w)) = n.
Proof.
  revert w. induction n as [|n IH]; intros w; simpl; [reflexivity|].
  destruct (_ping_host w) as [latency w1]. specialize (IH w1).
  destruct (ping_outcomes _ping_host n w1). simpl in *. now rewrite IH.
Qed.

End Sampling.

Lemma successes_length (outcomes : list (option Q)) :
  (length (successes outcomes) <= length outcomes)%nat.
Proof.
  induction outcomes as [|[x|] l IH]; simpl; [lia| |];
    fold (successes l); simpl; lia.
Qed.

Lemma latency_report {W} (_ping_host : ping_host W) (count : Z) (w : W) :
  let samples := successes (fst (ping_outcomes _ping_host (Z.to_nat count) w)) in
  let w' := snd (ping_outcomes _ping_host (Z.to_nat count) w) in
  (samples = [] ->
     LatencySensor.get_data _ping_host count w
     = (Return (mk_dict [ ("average", VInt 0); ("min", VInt 0); ("max", VInt 0);
                          ("status", VStr "offline");
                          ("error", VStr "All ping attempts failed") ]), w'))
  /\ (samples <> [] ->
      exists lo hi,
        In lo samples /\ In hi samples /\
        (forall x, In x samples -> lo <= x <= hi) /\
        LatencySensor.get_data _ping_host count w
        = (Return (mk_dict [ ("average", VFloat (round2 (py_sum samples / len samples)));
                             ("min", VFloat (round2 lo));
                             ("max", VFloat (round2 hi));
                             ("status", VStr "online");
                             ("error", VNone) ]), w')).
Proof.
  intros samples w'. subst samples w'.
  unfold LatencySensor.get_data, try_except, bind.
  rewrite sample_loop_spec. cbv beta iota. rewrite !app_nil_l.
  set (samples := successes _). set (w' := snd _).
  split.
  - intros ->. reflexivity.
  - intros Hne.
    destruct (py_min_spec samples Hne) as (lo & Hlo & Hlo_in & Hlo_le).
    destruct (py_max_spec samples Hne) as (hi & Hhi & Hhi_in & Hhi_le).
    exists lo, hi. repeat split; auto.
    apply truthy_true in Hne as Ht. rewrite Ht.
    unfold lift. rewrite (py_div_len _ _ Hne), Hlo, Hhi. reflexivity.
Qed.

Lemma packet_loss_report {W} (_ping_host : ping_host W) (count : Z) (w : W) :
  (1 <= count)%Z ->
  let samples := successes (fst (ping_outcomes _ping_host (Z.to_nat count) w)) in
  let w' := snd (ping_outcomes _ping_host (Z.to_nat count) w) in
  let packet_loss :=
    inject_Z (count - Z.of_nat (length samples)) / inject_Z count * 100 in
  PacketLossSensor.get_data _ping_host count w
  = (Return (mk_dict [ ("average", VFloat (round2 packet_loss));
                       ("status", VStr (if Qlt_le_dec packet_loss 50
                                        then "online" else "offline"));
                       ("error", VNone) ]), w').
Proof.
  intros Hk samples w' packet_loss. subst samples w' packet_loss.
  unfold PacketLossSensor.get_data, try_except, bind.
  rewrite count_loop_spec. rewrite Z.add_0_l.
  unfold lift, py_div.
  assert (Hnz : Qeq_bool (inject_Z count) 0 = false).
  { destruct count; try lia. reflexivity. }
  rewrite Hnz. reflexivity.
Qed.

(** ** Facts about doubles *)


















(** [round(x, 2)] of a finite double is the double nearest to a whole
    number of hundredths, one that lies within half a hundredth of [x]. *)
Lemma py_round2_nearest (s : bool) (m : positive) (e : Z) :
  let x := S754_finite s m e in
  exists n : Z,
    Binary64.py_round2 x = Binary64.hundredths n s /\
    Qabs ((n # 100) - Binary64.to_Q x) <= 1 # 200.
Proof.
  intros x. exists (round_half_even (Binary64.to_Q x * 100)).
  split; [reflexivity|]. exact (proj2 (round2_nearest (Binary64.to_Q x))).
Qed.

(** ** Facts about the sampling sensors on doubles *)

Section DoubleSampling.
Context {W : Type} (_ping_host : Binary64.ping_host W).




End DoubleSampling.












(** ** Facts about the jitter sensor *)


(** ** Facts about the jitter sensor on doubles *)









(** Runs of the jitter sensor: deviations that land on the other side of a
    tie than the exact ones would, and a sample whose square is too large
    for a double. *)
Lemma jitter_runs :
  (exists report,
      fst (Binary64.JitterSensor.get_data Binary64.correctly_rounded_pow replay 2
             (Binary64.decimals [Some 10; Some 10.03])) = Return report /\
      report !! "average" = Some (VDouble (Binary64.of_Q 0.01)) /\
      report !! "status" = Some (VStr "online"))
  /\ (exists report,
      fst (Binary64.JitterSensor.get_data Binary64.correctly_rounded_pow replay 4
             (Binary64.decimals [None; Some 12.347; None; None])) = Return report /\
      report !! "average" = Some (VInt 0) /\
      report !! "status" = Some (VStr "offline") /\
      report !! "error" = Some (VStr "Insufficient data for jitter calculation"))
  /\ (exists report,
      fst (Binary64.JitterSensor.get_data Binary64.correctly_rounded_pow replay 2
             [Some (Binary64.of_int (10 ^ 200)); Some (Binary64.of_int 0)])
      = Return report /\
      report !! "average" = Some (VInt 0) /\
      report !! "status" = Some (VStr "offline") /\
      report !! "error" = Some (VStr "(34, 'Numerical result out of range')")).
Proof.
  split; [|split].
  - exists (mk_dict [ ("average", VDouble (Binary64.of_Q 0.01));
                      ("status", VStr "online"); ("error", VNone) ]).
    split; [now vm_compute|]. split; reflexivity.
  - exists (mk_dict [ ("average", VInt 0); ("status", VStr "offline");
                      ("error", VStr "Insufficient data for jitter calculation") ]).
    split; [now vm_compute|]. repeat split; reflexivity.
  - exists (mk_dict [ ("average", VInt 0); ("status", VStr "offline");
                      ("error", VStr "(34, 'Numerical result out of range')") ]).
    split; [now vm_compute|]. repeat split; reflexivity.
Qed.


(** ** Facts about the route tracker *)

Lemma occurrences_snoc (route previous : list string) (snapshots : list (list string)) :
  occurrences route (snapshots ++ [previous])
  = (if bool_decide (route = previous)
     then occurrences route snapshots + 1
     else occurrences route snapshots)%Z.
Proof.
  unfold occurrences. rewrite filter_app, length_app.
  rewrite filter_cons, filter_nil.
  case_bool_decide; case_decide; try contradiction; simpl; lia.
Qed.

Lemma compare_loop_spec (history : list (list string)) (current_route : list string)
    (n : nat) :
  (n <= length history)%nat ->
  RouteStabilitySensor.compare_loop history current_route n
  = (occurrences current_route (take n history), Z.of_nat n).
Proof.
  unfold RouteStabilitySensor.compare_loop.
  induction n as [|n IH]; intros Hn; [reflexivity|].
  rewrite seq_S, fold_left_app, IH by lia. simpl.
  destruct (lookup_lt_is_Some_2 history n ltac:(lia)) as [previous Hprev].
  rewrite Hprev, (take_S_r _ _ _ Hprev), occurrences_snoc.
  f_equal. lia.
Qed.

Lemma calculate_stability_spec (earlier : list (list string)) (route : list string)
    (limit : nat) :
  RouteStabilitySensor._calculate_stability
    {| RouteStabilitySensor.route_history := earlier ++ [route];
       RouteStabilitySensor.max_history := limit |}
  == (if (length (earlier ++ [route]) <? 2)%nat then 100
      else 100 * inject_Z (occurrences route earlier)
           / inject_Z (Z.of_nat (length (earlier ++ [route])) - 1)).
Proof.
  unfold RouteStabilitySensor._calculate_stability. simpl.
  destruct (length (earlier ++ [route]) <? 2)%nat eqn:Hshort; [reflexivity|].
  rewrite last_snoc.
  rewrite length_app in *. simpl length in *.
  replace (length earlier + 1 - 1)%nat with (length earlier) by lia.
  rewrite compare_loop_spec by (rewrite length_app; simpl; lia).
  rewrite take_app_length.
  apply Nat.ltb_ge in Hshort.
  destruct (Z.of_nat (length earlier) =? 0)%Z eqn:Hz; [lia|].
  replace (Z.of_nat (length earlier + 1) - 1)%Z with (Z.of_nat (length earlier)) by lia.
  field. apply inject_Z_nonzero. lia.
Qed.

Lemma record_route_history (self : RouteStabilitySensor.state) (route : list string) :
  RouteStabilitySensor.max_history self = 10%nat ->
  (length (RouteStabilitySensor.route_history self) <= 10)%nat ->
  let self' := RouteStabilitySensor.record_route self route in
  RouteStabilitySensor.max_history self' = 10%nat /\
  ((length (RouteStabilitySensor.route_history self) < 10)%nat ->
     RouteStabilitySensor.route_history self'
     = RouteStabilitySensor.route_history self ++ [route]) /\
  (length (RouteStabilitySensor.route_history self) = 10%nat ->
     RouteStabilitySensor.route_history self'
     = tail (RouteStabilitySensor.route_history self) ++ [route]) /\
  (length (RouteStabilitySensor.route_history self') <= 10)%nat /\
  exists earlier, RouteStabilitySensor.route_history self' = earlier ++ [route].
Proof.
  intros Hmax Hlen. destruct self as [history limit]. simpl in *. subst limit.
  unfold RouteStabilitySensor.record_route. simpl.
  rewrite length_app. simpl length.
  destruct (10 <? length history + 1)%nat eqn:Hfull.
  - apply Nat.ltb_lt in Hfull.
    destruct history as [|oldest history]; [simpl in Hfull; lia|]. simpl in *.
    split; [reflexivity|]. split; [lia|]. split; [reflexivity|].
    split; [rewrite length_app; simpl; lia|]. now exists history.
  - apply Nat.ltb_ge in Hfull.
    split; [reflexivity|]. split; [reflexivity|]. split; [lia|].
    split; [rewrite length_app; simpl; lia|]. now exists history.
Qed.

Lemma route_runs_bounded {W} (_get_route : RouteStabilitySensor.tracer W) (n : nat)
    (self : RouteStabilitySensor.state) (w : W) :
  RouteStabilitySensor.max_history self = 10%nat ->
  (length (RouteStabilitySensor.route_history self) <= 10)%nat ->
  let self' := snd (fst (route_runs _get_route n self w)) in
  RouteStabilitySensor.max_history self' = 10%nat /\
  (length (RouteStabilitySensor.route_history self') <= 10)%nat.
Proof.
  revert self w. induction n as [|n IH]; intros self w Hmax Hlen; simpl; [auto|].
  unfold RouteStabilitySensor.get_data, try_except, bind, total.
  destruct (_get_route w) as [[[|hop hops]|] w1]; unfold ret.
  - specialize (IH self w1 Hmax Hlen).
    destruct (route_runs _get_route n self w1) as [[reports self'] w']. exact IH.
  - destruct (record_route_history self (hop :: hops) Hmax Hlen)
      as (Hmax' & _ & _ & Hlen' & _).
    specialize (IH _ w1 Hmax' Hlen').
    destruct (route_runs _get_route n _ w1) as [[reports self'] w']. exact IH.
  - specialize (IH self w1 Hmax Hlen).
    destruct (route_runs _get_route n self w1) as [[reports self'] w']. exact IH.
Qed.

(** C3, as the code has it.  On a sensor whose history holds at most 10
    snapshots: when the trace gives no route ([None] or an empty hop list)
    the report is "offline" with the error "Failed to get route" and the
    sensor is unchanged; otherwise the snapshot is appended, the oldest
    one being dropped when 10 were already held, the reported
    [overall_stability] is 100 with fewer than 2 snapshots and else
    [100 * matches / (size - 1)], rounded to two decimal places, where
    [matches] counts the earlier snapshots equal to the current one, and
    [route_changes] is [size - 1].  From a new sensor, the history never
    holds more than 10 snapshots. *)
Theorem route_stability_step {W : Type}
    (_get_route : RouteStabilitySensor.tracer W)
    (self : RouteStabilitySensor.state) (w : W) :
  RouteStabilitySensor.max_history self = 10%nat ->
  (length (RouteStabilitySensor.route_history self) <= 10)%nat ->
  let route := fst (_get_route w) in
  let w' := snd (_get_route w) in
  (exists report self',
      RouteStabilitySensor.get_data _get_route self w = (Return (report, self'), w') /\
      (length (RouteStabilitySensor.route_history self') <= 10)%nat /\
      (route = None \/ route = Some [] ->
         self' = self /\
         report !! "status" = Some (VStr "offline") /\
         report !! "error" = Some (VStr "Failed to get route")) /\
      (forall current, route = Some current -> current <> [] ->
         ((length (RouteStabilitySensor.route_history self) < 10)%nat ->
            RouteStabilitySensor.route_history self'
            = RouteStabilitySensor.route_history self ++ [current]) /\
         (length (RouteStabilitySensor.route_history self) = 10%nat ->
            RouteStabilitySensor.route_history self'
            = tail (RouteStabilitySensor.route_history self) ++ [current]) /\
         exists earlier,
           RouteStabilitySensor.route_history self' = earlier ++ [current] /\
           let size := length (RouteStabilitySensor.route_history self') in
           report !! "overall_stability"
           = Some (VFloat (round2
                (if (size <? 2)%nat then 100
                 else 100 * inject_Z (occurrences current earlier)
                      / inject_Z (Z.of_nat size - 1)))) /\
           report !! "route_changes" = Some (VInt (Z.of_nat size - 1)) /\
           report !! "status" = Some (VStr "online") /\
           report !! "error" = Some VNone))
  /\ (forall (n : nat) (w0 : W),
        (length (RouteStabilitySensor.route_history
                   (snd (fst (route_runs _get_route n RouteStabilitySensor.init w0))))
         <= 10)%nat).
Proof.
  intros Hmax Hlen route w'. split.
  - subst route w'.
    unfold RouteStabilitySensor.get_data, try_except, bind, total.
    destruct (_get_route w) as [[[|hop hops]|] w1]; unfold ret; simpl fst; simpl snd.
    + exists (mk_dict [ ("overall_stability", VInt 0); ("route_changes", VInt 0);
                        ("current_route", VStr "Unknown"); ("status", VStr "offline");
                        ("error", VStr "Failed to get route") ]), self.
      split; [reflexivity|]. split; [exact Hlen|].
      split; [intros _; repeat split|]. intros current [= <-]. congruence.
    + destruct (record_route_history self (hop :: hops) Hmax Hlen)
        as (_ & Hroom & Hfull & Hlen' & earlier & Hhist).
      eexists _, _. split; [reflexivity|]. split; [exact Hlen'|].
      split; [intros [H|H]; discriminate H|].
      intros current [= <-] _.
      split; [exact Hroom|]. split; [exact Hfull|].
      exists earlier. split; [exact Hhist|].
      split; [|repeat split].
      unfold mk_dict. simpl list_to_map. rewrite lookup_insert_eq.
      f_equal. f_equal. apply round2_comp.
      destruct (RouteStabilitySensor.record_route self (hop :: hops))
        as [history limit].
      simpl in Hhist. subst history. apply calculate_stability_spec.
    + exists (mk_dict [ ("overall_stability", VInt 0); ("route_changes", VInt 0);
                        ("current_route", VStr "Unknown"); ("status", VStr "offline");
                        ("error", VStr "Failed to get route") ]), self.
      split; [reflexivity|]. split; [exact Hlen|].
      split; [intros _; repeat split|]. intros current [=].
  - intros n w0.
    apply (route_runs_bounded _get_route n RouteStabilitySensor.init w0);
      simpl; [reflexivity|lia].
Qed.

Lemma route_stability_step_witness :
  exists report self',
    RouteStabilitySensor.get_data replay
      {| RouteStabilitySensor.route_history :=
           [["192.0.2.1"; "198.51.100.7"]; ["192.0.2.1"; "203.0.113.9"]];
         RouteStabilitySensor.max_history := 10 |}
      [Some ["192.0.2.1"; "198.51.100.7"]]
    = (Return (report, self'), [])
    /\ (length (RouteStabilitySensor.route_history self') <= 10)%nat.
Proof.
  destruct (route_stability_step replay
              {| RouteStabilitySensor.route_history :=
                   [["192.0.2.1"; "198.51.100.7"]; ["192.0.2.1"; "203.0.113.9"]];
                 RouteStabilitySensor.max_history := 10 |}
              [Some ["192.0.2.1"; "198.51.100.7"]]
              eq_refl ltac:(simpl; lia))
    as [(report & self' & Hrun & Hlen & _) _].
  exists report, self'. split; [exact Hrun | exact Hlen].
Defined.

(** C3 as stated does not hold for the reported stability: after the
    snapshots A, B, B, A the current one matches one of three earlier
    ones, and the sensor reports 33.33, which is not [100 * 1 / (4 - 1)]. *)
Lemma route_stability_is_rounded :
  let A := ["192.0.2.1"; "198.51.100.7"] in
  let B := ["192.0.2.1"; "203.0.113.9"] in
  exists report,
    last (fst (fst (route_runs replay 4 RouteStabilitySensor.init
                      [Some A; Some B; Some B; Some A])))
    = Some (Return report) /\
    report !! "overall_stability" = Some (VFloat 33.33) /\
    report !! "route_changes" = Some (VInt 3) /\
    ~ 33.33 == 100 * inject_Z 1 / inject_Z (4 - 1).
Proof.
  intros A B. eexists. split; [reflexivity|]. repeat split. discriminate.
Qed.

(** A trace that ends normally but names no hop is handled like a failed
    one: nothing is appended. *)
Lemma empty_route_is_not_recorded (self : RouteStabilitySensor.state) :
  exists report,
    RouteStabilitySensor.get_data replay self [Some []] = (Return (report, self), []) /\
    report !! "status" = Some (VStr "offline") /\
    report !! "error" = Some (VStr "Failed to get route").
Proof. eexists. split; [reflexivity|]. split; reflexivity. Qed.

(** The two scenarios of the tracker: identical snapshots keep the score
    at 100, and A, B, A, B, A scores 50 on the fifth. *)
Lemma route_scenarios :
  let A := ["192.0.2.1"; "198.51.100.7"] in
  let B := ["192.0.2.1"; "203.0.113.9"] in
  (exists report,
      last (fst (fst (route_runs replay 4 RouteStabilitySensor.init
                        [Some A; Some A; Some A; Some A])))
      = Some (Return report) /\
      report !! "overall_stability" = Some (VFloat 100.00))
  /\ (exists report,
      last (fst (fst (route_runs replay 5 RouteStabilitySensor.init
                        [Some A; Some B; Some A; Some B; Some A])))
      = Some (Return report) /\
      report !! "overall_stability" = Some (VFloat 50.00) /\
      report !! "route_changes" = Some (VInt 4)).
Proof.
  intros A B. split; eexists; (split; [reflexivity|]); repeat split.
Qed.

(** ** Facts about the address-lookup provider chain *)

Section ProviderChain.
Context {W : Type}.
Implicit Types (self : gmap string (M W dict)) (w : W).

Lemma try_sources_failing self sources w last0 last w' :
  IPInfoManager.failing_run self sources w last0 last w' ->
  IPInfoManager.try_sources self sources last0 w
  = (Raise (Exception ("All IP info sources failed. Last error: "
                       +:+ IPInfoManager.str_last_error last)), w').
Proof.
  induction 1 as [w last|source rest get w e w1 last0 last w' Hget Hraise _ IH].
  - reflexivity.
  - cbn [IPInfoManager.try_sources]. unfold try_except, M in *.
    now rewrite Hget, Hraise.
Qed.

(** The error named in the message is the one raised by the provider
    tried last. *)
Lemma failing_run_last self tried final w last0 last w' :
  IPInfoManager.failing_run self (tried ++ [final]) w last0 last w' ->
  exists get w0 e,
    self !! final = Some get /\ get w0 = (Raise e, w') /\ last = Some e.
Proof.
  revert w last0. induction tried as [|source tried IH]; intros w last0 Hrun.
  - inversion Hrun as [|? ? get ? e w1 ? ? ? Hget Hraise Hrest]; subst.
    inversion Hrest; subst. now exists get, w, e.
  - inversion Hrun as [|? ? get ? e w1 ? ? ? Hget Hraise Hrest]; subst.
    now apply (IH w1 (Some e)).
Qed.

(** The chain raises nothing but its own aggregate error. *)
Lemma try_sources_raises self sources last0 w e w' :
  IPInfoManager.try_sources self sources last0 w = (Raise e, w') ->
  is_timeout e = false.
Proof.
  revert last0 w. induction sources as [|source rest IH]; intros last0 w;
    cbn [IPInfoManager.try_sources].
  - unfold raise. now intros [= <- _].
  - unfold try_except.
    destruct (self !! source) as [get|].
    + destruct (get w) as [[data|e0] w1]; [discriminate|]. apply IH.
    + unfold raise. apply IH.
Qed.

End ProviderChain.

Lemma get_ip_information_returns {W} (self : ISPHealthMonitor.monitor W) (w : W) :
  exists ip_info w1, ISPHealthMonitor.get_ip_information self w = (Return ip_info, w1).
Proof.
  unfold ISPHealthMonitor.get_ip_information, try_except.
  destruct (ISPHealthMonitor.wait_for _ _ w) as [[data|e] w1]; [now eauto|].
  unfold bind, total. destruct (ISPHealthMonitor.now self w1) as [timestamp w2].
  destruct (is_timeout e); unfold ret; eauto.
Qed.

(** C6. When every provider that the address-lookup chain tries raises,
    the chain raises the aggregate error "All IP info sources failed.
    Last error: ..." that quotes the error of the provider tried last; no
    default record is put in its place.  The caller turns it into the
    result of the address probe itself: status "error" with that message
    (or with "Request timed out" when its 30 second budget ran out
    first). *)
Theorem address_chain_exhaustion {W : Type}
    (self : ISPHealthMonitor.monitor W) (w w' : W) (last : option exn) :
  IPInfoManager.failing_run (ISPHealthMonitor.ip_info_manager self)
    (IPInfoManager.sources_to_try (ISPHealthMonitor.ip_info_manager self)
       (Some (ISPHealthMonitor.ip_info_source self)))
    w None last w' ->
  let message :=
    "All IP info sources failed. Last error: " +:+ IPInfoManager.str_last_error last in
  IPInfoManager.get_ip_info (ISPHealthMonitor.ip_info_manager self)
    (Some (ISPHealthMonitor.ip_info_source self)) w
  = (Raise (Exception message), w')
  /\ (forall tried final,
        IPInfoManager.sources_to_try (ISPHealthMonitor.ip_info_manager self)
          (Some (ISPHealthMonitor.ip_info_source self)) = tried ++ [final] ->
        exists get w0 e,
          ISPHealthMonitor.ip_info_manager self !! final = Some get /\
          get w0 = (Raise e, w') /\ last = Some e)
  /\ (ISPHealthMonitor.deadline self w = None ->
        ISPHealthMonitor.get_ip_information self w
        = (Return (mk_dict [ ("status", VStr "error");
                             ("error", VStr message);
                             ("timestamp", VStr (fst (ISPHealthMonitor.now self w'))) ]),
           snd (ISPHealthMonitor.now self w')))
  /\ (forall w1, ISPHealthMonitor.deadline self w = Some w1 ->
        ISPHealthMonitor.get_ip_information self w
        = (Return (mk_dict [ ("status", VStr "error");
                             ("error", VStr "Request timed out");
                             ("timestamp", VStr (fst (ISPHealthMonitor.now self w1))) ]),
           snd (ISPHealthMonitor.now self w1))).
Proof.
  intros Hrun message.
  assert (Hchain : IPInfoManager.get_ip_info (ISPHealthMonitor.ip_info_manager self)
                     (Some (ISPHealthMonitor.ip_info_source self)) w
                   = (Raise (Exception message), w')).
  { unfold IPInfoManager.get_ip_info. now apply try_sources_failing. }
  split; [exact Hchain|]. split; [|split].
  - intros tried final Heq. rewrite Heq in Hrun.
    now apply (failing_run_last _ tried final w None).
  - intros Hopen.
    unfold ISPHealthMonitor.get_ip_information, try_except, ISPHealthMonitor.wait_for.
    rewrite Hopen, Hchain. unfold bind, total.
    destruct (ISPHealthMonitor.now self w') as [timestamp w2]. reflexivity.
  - intros w1 Hclosed.
    unfold ISPHealthMonitor.get_ip_information, try_except, ISPHealthMonitor.wait_for.
    rewrite Hclosed. unfold bind, total.
    destruct (ISPHealthMonitor.now self w1) as [timestamp w2]. reflexivity.
Qed.

Lemma address_chain_exhaustion_witness :
  IPInfoManager.get_ip_info (ISPHealthMonitor.ip_info_manager failing_monitor)
    (Some "ipinfo") []
  = (Raise (Exception "All IP info sources failed. Last error: HTTP 500: down"),
     ["ipinfo"; "ipapi"])
  /\ ISPHealthMonitor.get_ip_information failing_monitor []
     = (Return (mk_dict
          [ ("status", VStr "error");
            ("error", VStr "All IP info sources failed. Last error: HTTP 500: down");
            ("timestamp", VStr "2024-05-01T12:00:00") ]),
        ["ipinfo"; "ipapi"]).
Proof.
  assert (Hrun : IPInfoManager.failing_run
                   (ISPHealthMonitor.ip_info_manager failing_monitor)
                   (IPInfoManager.sources_to_try
                      (ISPHealthMonitor.ip_info_manager failing_monitor)
                      (Some (ISPHealthMonitor.ip_info_source failing_monitor)))
                   [] None (Some (Exception "HTTP 500: down")) ["ipinfo"; "ipapi"]).
  { change (IPInfoManager.failing_run
              (ISPHealthMonitor.ip_info_manager failing_monitor)
              ["ipinfo"; "ipapi"]
              [] None (Some (Exception "HTTP 500: down")) ["ipinfo"; "ipapi"]).
    eapply IPInfoManager.failing_cons; [reflexivity|reflexivity|].
    eapply IPInfoManager.failing_cons; [reflexivity|reflexivity|].
    apply IPInfoManager.failing_nil. }
  destruct (address_chain_exhaustion failing_monitor [] _ _ Hrun)
    as (Hchain & _ & Hcaller & _).
  split; [exact Hchain | exact (Hcaller eq_refl)].
Defined.

(** ** Facts about the orchestrator *)

Section Orchestrator.
Context {W : Type}.
Implicit Types (sensors : list (string * M W dict)) (w : W).

Lemma collect_loop_spec sensors results w :
  ISPHealthMonitor.collect_loop sensors results w
  = (Return (written results (ISPHealthMonitor.answers sensors w)),
     ISPHealthMonitor.after_all sensors w).
Proof.
  revert results w. induction sensors as [|[name get_data] rest IH]; intros results w.
  - reflexivity.
  - cbn [ISPHealthMonitor.collect_loop ISPHealthMonitor.answers
         ISPHealthMonitor.after_all].
    unfold bind, try_except.
    destruct (get_data w) as [[data|e] w1]; simpl; now rewrite IH.
Qed.

Lemma answers_names sensors w :
  map fst (ISPHealthMonitor.answers sensors w) = map fst sensors.
Proof.
  revert w. induction sensors as [|[name get_data] rest IH]; intros w; simpl;
    [reflexivity | now rewrite IH].
Qed.

End Orchestrator.

Lemma written_dom (results : gmap string dict) (l : list (string * outcome dict)) :
  dom (written results l) = dom results ∪ list_to_set (map fst l).
Proof.
  revert results. induction l as [|[name o] l IH]; intros results; simpl.
  - set_solver.
  - unfold written in *. simpl. rewrite IH, dom_insert_L. set_solver.
Qed.

Lemma written_other (results : gmap string dict) (l : list (string * outcome dict))
    (name : string) :
  ~ In name (map fst l) -> written results l !! name = results !! name.
Proof.
  revert results. induction l as [|[name0 o] l IH]; intros results Hnot; simpl.
  - reflexivity.
  - unfold written in *. simpl in *. rewrite IH by tauto.
    apply lookup_insert_ne. intros ->. tauto.
Qed.

Lemma written_entry (results : gmap string dict) (l : list (string * outcome dict))
    (name : string) (o : outcome dict) :
  NoDup (map fst l) -> In (name, o) l ->
  written results l !! name = Some (ISPHealthMonitor.entry_of o).
Proof.
  revert results. induction l as [|[name0 o0] l IH]; intros results Hnodup Hin;
    [destruct Hin|].
  simpl in Hnodup. apply NoDup_cons in Hnodup as [Hfresh Hnodup].
  destruct Hin as [[= -> ->]|Hin].
  - change (written (<[name := ISPHealthMonitor.entry_of o]> results) l !! name
            = Some (ISPHealthMonitor.entry_of o)).
    rewrite written_other; [apply lookup_insert_eq|].
    intros H. apply Hfresh. now apply list_elem_of_In.
  - now apply IH.
Qed.

Lemma initialize_sensors_names {W} (config : ISPHealthMonitor.sensors_config)
    (classes : ISPHealthMonitor.sensor_classes W) :
  map fst (ISPHealthMonitor._initialize_sensors config classes) = enabled_metrics config.
Proof.
  destruct config as [[] [] [] [] [] [] []]; reflexivity.
Qed.

Lemma enabled_metrics_distinct (config : ISPHealthMonitor.sensors_config) :
  NoDup (enabled_metrics config) /\ ~ In "ip_info" (enabled_metrics config).
Proof.
  destruct config as [[] [] [] [] [] [] []];
    (split; [|rewrite <- list_elem_of_In]);
    refine (bool_decide_unpack _ _); vm_compute; exact I.
Qed.

(** C4. One collection cycle of a monitor set up for any choice of
    enabled sensors returns a report whose keys are "ip_info" and the
    names of the enabled sensors, each exactly once.  Every enabled sensor
    is run, in order, whatever the sensors before it did; a sensor that
    raises gets the entry with status "error" and the text of its
    exception, a sensor that returns gets what it returned. *)
Theorem collection_cycle_is_complete {W : Type}
    (now : W -> string * W) (deadline : W -> option W) (source : string)
    (manager : gmap string (M W dict))
    (config : ISPHealthMonitor.sensors_config)
    (classes : ISPHealthMonitor.sensor_classes W) (w : W) :
  let self :=
    {| ISPHealthMonitor.now := now;
       ISPHealthMonitor.deadline := deadline;
       ISPHealthMonitor.ip_info_source := source;
       ISPHealthMonitor.ip_info_manager := manager;
       ISPHealthMonitor.sensors :=
         ISPHealthMonitor._initialize_sensors config classes |} in
  exists ip_info w1 results,
    ISPHealthMonitor.get_ip_information self w = (Return ip_info, w1) /\
    ISPHealthMonitor.get_all_sensor_data self w
    = (Return results,
       ISPHealthMonitor.after_all (ISPHealthMonitor.sensors self) w1) /\
    ISPHealthMonitor.get_enabled_sensors self = enabled_metrics config /\
    map fst (ISPHealthMonitor.answers (ISPHealthMonitor.sensors self) w1)
    = enabled_metrics config /\
    dom results = {["ip_info"]} ∪ list_to_set (enabled_metrics config) /\
    size results = S (length (enabled_metrics config)) /\
    results !! "ip_info" = Some ip_info /\
    (forall name o,
        In (name, o) (ISPHealthMonitor.answers (ISPHealthMonitor.sensors self) w1) ->
        results !! name = Some (ISPHealthMonitor.entry_of o)) /\
    (forall name e,
        In (name, Raise e)
           (ISPHealthMonitor.answers (ISPHealthMonitor.sensors self) w1) ->
        results !! name
        = Some (mk_dict [ ("status", VStr "error"); ("error", VStr (str_exn e)) ])).
Proof.
  intros self.
  destruct (get_ip_information_returns self w) as (ip_info & w1 & Hip).
  set (l := ISPHealthMonitor.answers (ISPHealthMonitor.sensors self) w1).
  exists ip_info, w1, (written (<["ip_info" := ip_info]> ∅) l).
  assert (Hnames : map fst l = enabled_metrics config).
  { unfold l. rewrite answers_names. apply initialize_sensors_names. }
  destruct (enabled_metrics_distinct config) as [Hnodup Hfresh].
  split; [exact Hip|]. split; [|split; [|split; [|split; [|split; [|split; [|split]]]]]].
  - unfold ISPHealthMonitor.get_all_sensor_data, bind. rewrite Hip.
    apply collect_loop_spec.
  - apply initialize_sensors_names.
  - exact Hnames.
  - rewrite written_dom, Hnames, dom_insert_L. set_solver.
  - rewrite <- size_dom, written_dom, Hnames, dom_insert_L, dom_empty_L.
    rewrite union_empty_r_L, size_union.
    + rewrite size_singleton, size_list_to_set by exact Hnodup. reflexivity.
    + apply disjoint_singleton_l. rewrite elem_of_list_to_set, list_elem_of_In.
      exact Hfresh.
  - rewrite written_other by now rewrite Hnames. apply lookup_insert_eq.
  - intros name o Hin. apply written_entry; [now rewrite Hnames | exact Hin].
  - intros name e Hin.
    now rewrite (written_entry _ l name (Raise e)) by (now rewrite ?Hnames).
Qed.

(** A cycle in which the second of three sensors raises: the sensor after
    it still runs, and the report has an entry for each of them. *)
Lemma cycle_with_a_failing_sensor :
  exists results,
    ISPHealthMonitor.get_all_sensor_data mixed_monitor []
    = (Return results, ["ipapi"; "latency"; "jitter"; "throughput"]) /\
    dom results = {["ip_info"; "latency"; "jitter"; "throughput"]} /\
    results !! "jitter"
    = Some (mk_dict [("status", VStr "error"); ("error", VStr "no samples")]) /\
    results !! "throughput" = Some (mk_dict [("status", VStr "offline")]) /\
    results !! "ip_info" = Some (mk_dict [("ip", VStr "203.0.113.7")]).
Proof.
  eexists. split; [reflexivity|].
  split; [vm_compute; reflexivity|]. repeat split.
Qed.

(** ** Facts about the coordinator *)

Lemma get_all_sensor_data_returns {W} (self : ISPHealthMonitor.monitor W) (w : W) :
  exists results w', ISPHealthMonitor.get_all_sensor_data self w = (Return results, w').
Proof.
  destruct (get_ip_information_returns self w) as (ip_info & w1 & Hip).
  unfold ISPHealthMonitor.get_all_sensor_data, bind. rewrite Hip, collect_loop_spec.
  eauto.
Qed.

(** The collection itself never raises, so the [try] block of the update
    raises exactly when the set-up does. *)
Lemma update_body_raises {W} (now : W -> string * W) (entry_data : dict)
    (setup : M W (ISPHealthMonitor.monitor W)) (w w1 : W) (e : exn) :
  ISPHealthDataUpdateCoordinator.update_body now entry_data setup w = (Raise e, w1)
  <-> setup w = (Raise e, w1).
Proof.
  unfold ISPHealthDataUpdateCoordinator.update_body, bind.
  destruct (setup w) as [[monitor|e0] w0].
  - destruct (get_all_sensor_data_returns monitor w0) as (results & w' & ->).
    unfold total. destruct (now w') as [last_update w2]. unfold ret.
    split; discriminate.
  - split; intros [= -> ->]; reflexivity.
Qed.

Lemma mock_data_returns {W} (now : W -> string * W) (entry_data : dict) (w : W) :
  exists last_update t_ip t_dns t_lat t_loss t_jit t_thr t_rel t_route w',
    ISPHealthDataUpdateCoordinator._get_mock_data now entry_data w
    = (Return (mk_dict
         [ ("last_update", VStr last_update);
           ("update_interval",
              dict_get_or entry_data ISPHealthDataUpdateCoordinator.CONF_UPDATE_INTERVAL
                (VInt 60));
           ("sensors",
              VDict (ISPHealthDataUpdateCoordinator.mock_sensors
                       t_ip t_dns t_lat t_loss t_jit t_thr t_rel t_route)) ]), w').
Proof.
  unfold ISPHealthDataUpdateCoordinator._get_mock_data, bind, total, ret.
  destruct (now w) as [t0 w0]. destruct (now w0) as [t1 w1].
  destruct (now w1) as [t2 w2]. destruct (now w2) as [t3 w3].
  destruct (now w3) as [t4 w4]. destruct (now w4) as [t5 w5].
  destruct (now w5) as [t6 w6]. destruct (now w6) as [t7 w7].
  destruct (now w7) as [t8 w8].
  now exists t0, t1, t2, t3, t4, t5, t6, t7, t8, w8.
Qed.

Lemma mock_entries_online (last_update : string) (update_interval : value)
    (t_ip t_dns t_lat t_loss t_jit t_thr t_rel t_route : string) :
  let data :=
    mk_dict [ ("last_update", VStr last_update);
              ("update_interval", update_interval);
              ("sensors",
                 VDict (ISPHealthDataUpdateCoordinator.mock_sensors
                          t_ip t_dns t_lat t_loss t_jit t_thr t_rel t_route)) ] in
  Forall (fun name =>
            exists entry,
              ISPHealthDataUpdateCoordinator.metric_entry data name = Some entry /\
              entry !! "status" = Some (VStr "online"))
         ISPHealthDataUpdateCoordinator.SENSOR_TYPES
  /\ (exists entry,
        ISPHealthDataUpdateCoordinator.metric_entry data "ip_info" = Some entry /\
        entry !! "ip" = Some (VStr "192.168.1.1") /\
        entry !! "source" = Some (VStr "mock"))
  /\ (exists entry,
        ISPHealthDataUpdateCoordinator.metric_entry data "latency" = Some entry /\
        entry !! "average" = Some (VFloat 25.5))
  /\ (exists entry,
        ISPHealthDataUpdateCoordinator.metric_entry data "packet_loss" = Some entry /\
        entry !! "average" = Some (VFloat 0.0))
  /\ (forall name entry,
        ISPHealthDataUpdateCoordinator.metric_entry data name = Some entry ->
        entry !! "error" = None).
Proof.
  intros data. split; [|split; [|split; [|split]]].
  - repeat constructor; eexists; (split; [reflexivity|reflexivity]).
  - eexists. split; [reflexivity|]. split; reflexivity.
  - eexists. split; reflexivity.
  - eexists. split; reflexivity.
  - intros name entry. unfold ISPHealthDataUpdateCoordinator.metric_entry.
    change (data !! "sensors") with
      (Some (VDict (ISPHealthDataUpdateCoordinator.mock_sensors
                      t_ip t_dns t_lat t_loss t_jit t_thr t_rel t_route))).
    cbv beta iota.
    unfold ISPHealthDataUpdateCoordinator.mock_sensors, mk_dict.
    cbn [list_to_map foldr uncurry fst snd].
    repeat (rewrite lookup_insert; case_decide;
            [intros [= <-]; reflexivity|]).
    rewrite lookup_empty. discriminate.
Qed.

(** C8. Whenever the [try] block of an update cycle raises, the
    coordinator returns, without an error, the dict built by
    [_get_mock_data]: every one of the eight metrics is present with
    status "online" and carries made-up values (address 192.168.1.1 from
    source "mock", latency 25.5, no packet loss), and no entry mentions an
    error.  The update therefore never raises. *)
Theorem update_failure_returns_mock_data {W : Type}
    (now : W -> string * W) (entry_data : dict)
    (setup : M W (ISPHealthMonitor.monitor W)) (w w1 : W) (err : exn) :
  ISPHealthDataUpdateCoordinator.update_body now entry_data setup w = (Raise err, w1) ->
  (exists data w2,
      ISPHealthDataUpdateCoordinator._async_update_data now entry_data setup w
      = (Return data, w2) /\
      ISPHealthDataUpdateCoordinator._get_mock_data now entry_data w1
      = (Return data, w2) /\
      Forall (fun name =>
                exists entry,
                  ISPHealthDataUpdateCoordinator.metric_entry data name = Some entry /\
                  entry !! "status" = Some (VStr "online"))
             ISPHealthDataUpdateCoordinator.SENSOR_TYPES /\
      (exists entry,
          ISPHealthDataUpdateCoordinator.metric_entry data "ip_info" = Some entry /\
          entry !! "ip" = Some (VStr "192.168.1.1") /\
          entry !! "source" = Some (VStr "mock")) /\
      (exists entry,
          ISPHealthDataUpdateCoordinator.metric_entry data "latency" = Some entry /\
          entry !! "average" = Some (VFloat 25.5)) /\
      (exists entry,
          ISPHealthDataUpdateCoordinator.metric_entry data "packet_loss" = Some entry /\
          entry !! "average" = Some (VFloat 0.0)) /\
      (forall name entry,
          ISPHealthDataUpdateCoordinator.metric_entry data name = Some entry ->
          entry !! "error" = None))
  /\ (forall (setup0 : M W (ISPHealthMonitor.monitor W)) (w0 : W),
        exists data w',
          ISPHealthDataUpdateCoordinator._async_update_data now entry_data setup0 w0
          = (Return data, w')).
Proof.
  intros Hraise. split.
  - destruct (mock_data_returns now entry_data w1)
      as (t0 & t1 & t2 & t3 & t4 & t5 & t6 & t7 & t8 & w2 & Hmock).
    eexists _, w2. split; [|split; [exact Hmock|]].
    + unfold ISPHealthDataUpdateCoordinator._async_update_data, try_except.
      now rewrite Hraise.
    + apply mock_entries_online.
  - intros setup0 w0.
    unfold ISPHealthDataUpdateCoordinator._async_update_data, try_except.
    destruct (ISPHealthDataUpdateCoordinator.update_body now entry_data setup0 w0)
      as [[data|e] w']; [now eauto|].
    destruct (mock_data_returns now entry_data w')
      as (t0 & t1 & t2 & t3 & t4 & t5 & t6 & t7 & t8 & w2 & Hmock).
    eauto.
Qed.

Lemma update_failure_returns_mock_data_witness :
  exists data,
    ISPHealthDataUpdateCoordinator._async_update_data
      (fun history => ("2024-05-01T12:00:00", history)) ∅
      (raise (ValueError "1 validation error for Config")) ([] : list string)
    = (Return data, [])
    /\ exists entry,
        ISPHealthDataUpdateCoordinator.metric_entry data "latency" = Some entry /\
        entry !! "average" = Some (VFloat 25.5).
Proof.
  destruct (update_failure_returns_mock_data
              (fun history : list string => ("2024-05-01T12:00:00", history)) ∅
              (raise (ValueError "1 validation error for Config")) [] []
              (ValueError "1 validation error for Config") eq_refl)
    as [(data & w2 & Hrun & Hmock & _ & _ & Hlat & _) _].
  exists data. split; [|exact Hlat].
  rewrite Hrun. f_equal.
  cbv [ISPHealthDataUpdateCoordinator._get_mock_data bind total ret] in Hmock.
  now injection Hmock.
Defined.

(** ** Facts about the normalizers *)

(** C9, as the code has it.  A normalizer reads the raw names of its
    provider, so on a record that is already normalized it finds only the
    fields whose canonical name is also the raw name: ip-api.com keeps
    city, country and timezone, ipinfo.io keeps ip, hostname, city, region,
    country and timezone; every other field becomes [None] and the source
    is the constant of the provider.  A normalized record is therefore a
    fixed point exactly when those other fields are [None] already, and a
    record normalized twice is a fixed point (the time stamp aside). *)
Theorem renormalizing_keeps_shared_fields
    (py_float : string -> outcome Q) (t0 t1 t2 : string) (raw : dict) :
  (let r := IPAPIProvider.normalize_data t0 raw in
   IPAPIProvider.normalize_data t1 r
   = mk_dict [ ("ip", VNone); ("hostname", VNone);
               ("city", dict_get r "city");
               ("region", VNone);
               ("country", dict_get r "country");
               ("latitude", VNone); ("longitude", VNone);
               ("organization", VNone); ("postal_code", VNone);
               ("timezone", dict_get r "timezone");
               ("source", VStr "ip-api.com");
               ("timestamp", VStr t1) ]
   /\ (sans_timestamp (IPAPIProvider.normalize_data t1 r) = sans_timestamp r <->
       dict_get r "ip" = VNone /\ dict_get r "hostname" = VNone /\
       dict_get r "region" = VNone /\ dict_get r "latitude" = VNone /\
       dict_get r "longitude" = VNone /\ dict_get r "organization" = VNone /\
       dict_get r "postal_code" = VNone)
   /\ sans_timestamp (IPAPIProvider.normalize_data t2 (IPAPIProvider.normalize_data t1 r))
      = sans_timestamp (IPAPIProvider.normalize_data t1 r))
  /\ (forall r, IPInfoIOProvider.normalize_data py_float t0 raw = Return r ->
      let r' :=
        mk_dict [ ("ip", dict_get r "ip"); ("hostname", dict_get r "hostname");
                  ("city", dict_get r "city");
                  ("region", dict_get r "region");
                  ("country", dict_get r "country");
                  ("latitude", VNone); ("longitude", VNone);
                  ("organization", VNone); ("postal_code", VNone);
                  ("timezone", dict_get r "timezone");
                  ("source", VStr "ipinfo.io");
                  ("timestamp", VStr t1) ] in
      IPInfoIOProvider.normalize_data py_float t1 r = Return r' /\
      (sans_timestamp r' = sans_timestamp r <->
       dict_get r "latitude" = VNone /\ dict_get r "longitude" = VNone /\
       dict_get r "organization" = VNone /\ dict_get r "postal_code" = VNone) /\
      exists r'',
        IPInfoIOProvider.normalize_data py_float t2 r' = Return r'' /\
        sans_timestamp r'' = sans_timestamp r').
Proof.
  split.
  - cbv zeta. split; [reflexivity|]. split; [|reflexivity].
    split.
    + intros H.
      pose proof (f_equal (fun m => dict_get m "ip") H) as H1.
      pose proof (f_equal (fun m => dict_get m "hostname") H) as H2.
      pose proof (f_equal (fun m => dict_get m "region") H) as H3.
      pose proof (f_equal (fun m => dict_get m "latitude") H) as H4.
      pose proof (f_equal (fun m => dict_get m "longitude") H) as H5.
      pose proof (f_equal (fun m => dict_get m "organization") H) as H6.
      pose proof (f_equal (fun m => dict_get m "postal_code") H) as H7.
      repeat split; symmetry; assumption.
    + intros (H1 & H2 & H3 & H4 & H5 & H6 & H7).
      change (dict_get (IPAPIProvider.normalize_data t0 raw) "ip")
        with (dict_get raw "query") in H1.
      change (dict_get (IPAPIProvider.normalize_data t0 raw) "hostname")
        with (dict_get raw "reverse") in H2.
      change (dict_get (IPAPIProvider.normalize_data t0 raw) "region")
        with (dict_get raw "regionName") in H3.
      change (dict_get (IPAPIProvider.normalize_data t0 raw) "latitude")
        with (dict_get raw "lat") in H4.
      change (dict_get (IPAPIProvider.normalize_data t0 raw) "longitude")
        with (dict_get raw "lon") in H5.
      change (dict_get (IPAPIProvider.normalize_data t0 raw) "organization")
        with (dict_get raw "isp") in H6.
      change (dict_get (IPAPIProvider.normalize_data t0 raw) "postal_code")
        with (dict_get raw "zip") in H7.
      unfold IPAPIProvider.normalize_data at 2 3.
      rewrite H1, H2, H3, H4, H5, H6, H7. reflexivity.
  - intros r Hr r'.
    unfold IPInfoIOProvider.normalize_data in Hr.
    destruct (dict_get_or raw "loc" (VStr EmptyString)) as [| | | | |text| |]; try discriminate.
    set (coordinates := match split_comma text with
                        | [a; b] => _
                        | _ => _
                        end) in Hr.
    destruct coordinates as [[lat lon]|e]; [|discriminate].
    injection Hr as <-.
    split; [reflexivity|]. split; [|eexists; split; reflexivity].
    split.
    + intros H.
      pose proof (f_equal (fun m => dict_get m "latitude") H) as H1.
      pose proof (f_equal (fun m => dict_get m "longitude") H) as H2.
      pose proof (f_equal (fun m => dict_get m "organization") H) as H3.
      pose proof (f_equal (fun m => dict_get m "postal_code") H) as H4.
      repeat split; symmetry; assumption.
    + intros (H1 & H2 & H3 & H4).
      change (lat = VNone) in H1. change (lon = VNone) in H2.
      change (dict_get raw "org" = VNone) in H3.
      change (dict_get raw "postal" = VNone) in H4.
      subst r'. rewrite H1, H2, H3, H4. reflexivity.
Qed.

(** C9 as stated does not hold: normalizing an already normalized record
    loses the address (ip-api.com) or the organization (ipinfo.io). *)
Lemma normalize_is_not_idempotent :
  (let raw := mk_dict [ ("status", VStr "success"); ("query", VStr "203.0.113.7");
                        ("city", VStr "Lyon"); ("isp", VStr "Example Net") ] in
   let r := IPAPIProvider.normalize_data "2024-05-01T12:00:00" raw in
   r !! "ip" = Some (VStr "203.0.113.7") /\
   IPAPIProvider.normalize_data "2024-05-01T12:00:00" r !! "ip" = Some VNone /\
   sans_timestamp (IPAPIProvider.normalize_data "2024-05-01T12:00:00" r)
   <> sans_timestamp r)
  /\ (let raw := mk_dict [ ("ip", VStr "203.0.113.7"); ("org", VStr "AS64500 Example") ] in
      let parse := fun _ : string => Raise (ValueError "could not convert") in
      exists r r',
        IPInfoIOProvider.normalize_data parse "2024-05-01T12:00:00" raw = Return r /\
        IPInfoIOProvider.normalize_data parse "2024-05-01T12:00:00" r = Return r' /\
        r !! "organization" = Some (VStr "AS64500 Example") /\
        r' !! "organization" = Some VNone /\
        sans_timestamp r' <> sans_timestamp r).
Proof.
  split.
  - intros raw r. split; [reflexivity|]. split; [reflexivity|].
    intros H. apply (f_equal (fun m => m !! "ip")) in H. discriminate H.
  - intros raw parse. eexists _, _.
    split; [reflexivity|]. split; [reflexivity|].
    split; [reflexivity|]. split; [reflexivity|].
    intros H. apply (f_equal (fun m => m !! "organization")) in H. discriminate H.
Qed.

(** * Further properties of the code *)

(** ** More about rounding *)

Lemma round_half_even_cases (x : Q) :
  (round_half_even x = Qfloor x /\ x - inject_Z (Qfloor x) <= 1 # 2)
  \/ (round_half_even x = (Qfloor x + 1)%Z /\ 1 # 2 <= x - inject_Z (Qfloor x)).
Proof.
  unfold round_half_even.
  destruct (x - inject_Z (Qfloor x) ?= 1 # 2) eqn:Hc.
  - apply Qeq_alt in Hc. destruct (Z.even (Qfloor x)); [left|right]; split; auto; lra.
  - apply Qlt_alt in Hc. left. split; auto. lra.
  - apply Qgt_alt in Hc. right. split; auto. lra.
Qed.

Lemma round_half_even_ge (x : Q) (n : Z) :
  inject_Z n <= x -> (n <= round_half_even x)%Z.
Proof.
  intros H. apply Qfloor_resp_le in H. rewrite Qfloor_Z in H.
  destruct (round_half_even_cases x) as [[-> _]|[-> _]]; lia.
Qed.

Lemma round_half_even_le (x : Q) (n : Z) :
  x <= inject_Z n -> (round_half_even x <= n)%Z.
Proof.
  intros H. pose proof (Qfloor_resp_le _ _ H) as Hf. rewrite Qfloor_Z in Hf.
  destruct (round_half_even_cases x) as [[-> _]|[-> Hfrac]]; [lia|].
  assert (Hlt : inject_Z (Qfloor x) < inject_Z n) by lra.
  rewrite <- Zlt_Qlt in Hlt. lia.
Qed.

Lemma round2_bounds (x : Q) (lo hi : Z) :
  inject_Z lo <= x <= inject_Z hi -> inject_Z lo <= round2 x <= inject_Z hi.
Proof.
  intros [Hlo Hhi]. unfold round2.
  assert (H1 : (lo * 100 <= round_half_even (x * 100))%Z).
  { apply round_half_even_ge. rewrite inject_Z_mult. change (inject_Z 100) with 100. lra. }
  assert (H2 : (round_half_even (x * 100) <= hi * 100)%Z).
  { apply round_half_even_le. rewrite inject_Z_mult. change (inject_Z 100) with 100. lra. }
  unfold Qle, inject_Z. simpl. lia.
Qed.

(** ** More about the sampling sensors *)

Lemma successes_count {W} (_ping_host : ping_host W) (n : nat) (w : W) :
  (length (successes (fst (ping_outcomes _ping_host n w))) <= n)%nat.
Proof.
  pose proof (successes_length (fst (ping_outcomes _ping_host n w))) as H.
  now rewrite ping_outcomes_length in H.
Qed.

(** X1. The packet-loss sensor, for a sample count [k >= 1], reports a
    loss between 0 and 100, and its status is "online" exactly when more
    than half of the [k] pings succeeded, "offline" otherwise. *)
Theorem packet_loss_majority {W : Type} (_ping_host : ping_host W) (k : Z) (w : W) :
  (1 <= k)%Z ->
  let succeeded :=
    Z.of_nat (length (successes (fst (ping_outcomes _ping_host (Z.to_nat k) w)))) in
  exists report average,
    fst (PacketLossSensor.get_data _ping_host k w) = Return report /\
    (0 <= succeeded <= k)%Z /\
    report !! "average" = Some (VFloat average) /\
    0 <= average <= 100 /\
    (report !! "status" = Some (VStr "online") <-> (k < 2 * succeeded)%Z) /\
    (report !! "status" = Some (VStr "offline") <-> (2 * succeeded <= k)%Z).
Proof.
  intros Hk succeeded.
  pose proof (packet_loss_report _ping_host k w Hk) as Hrun. cbv zeta in Hrun.
  fold succeeded in Hrun.
  set (packet_loss := inject_Z (k - succeeded) / inject_Z k * 100) in Hrun.
  assert (Hs : (0 <= succeeded <= k)%Z).
  { subst succeeded. pose proof (successes_count _ping_host (Z.to_nat k) w). lia. }
  assert (Hk0 : 0 < inject_Z k).
  { change 0 with (inject_Z 0). rewrite <- Zlt_Qlt. lia. }
  assert (Hloss : packet_loss * inject_Z k == inject_Z (k - succeeded) * 100).
  { unfold packet_loss. field. lra. }
  assert (Hnum : 0 <= inject_Z (k - succeeded) <= inject_Z k).
  { change 0 with (inject_Z 0). rewrite <- !Zle_Qle. lia. }
  assert (Hrange : 0 <= packet_loss <= 100) by (split; nra).
  assert (Hhalf : packet_loss < 50 <-> (k < 2 * succeeded)%Z).
  { assert (Hsub : inject_Z (k - succeeded) == inject_Z k - inject_Z succeeded).
    { unfold Z.sub. rewrite inject_Z_plus, inject_Z_opp. ring. }
    split.
    - intros Hlt. apply Z.lt_nge. intros Hge.
      assert (H2 : 2 * inject_Z succeeded <= inject_Z k).
      { change 2 with (inject_Z 2). rewrite <- inject_Z_mult, <- Zle_Qle. lia. }
      nra.
    - intros Hlt.
      assert (H2 : inject_Z k < 2 * inject_Z succeeded).
      { change 2 with (inject_Z 2). rewrite <- inject_Z_mult, <- Zlt_Qlt. lia. }
      nra. }
  eexists _, _. rewrite Hrun. split; [reflexivity|]. split; [exact Hs|].
  split; [reflexivity|]. split.
  - apply (round2_bounds packet_loss 0 100). exact Hrange.
  - unfold mk_dict. simpl list_to_map.
    rewrite lookup_insert_ne by done. rewrite lookup_insert_eq.
    destruct (Qlt_le_dec packet_loss 50) as [Hlt|Hge].
    + pose proof (proj1 Hhalf Hlt) as Hmore. split; split.
      * intros _. exact Hmore.
      * reflexivity.
      * discriminate.
      * intros Hle. lia.
    + assert (Hless : (2 * succeeded <= k)%Z).
      { apply Z.le_ngt. intros Hc. apply Hhalf in Hc. lra. }
      split; split.
      * discriminate.
      * intros Hc. lia.
      * intros _. exact Hless.
      * reflexivity.
Qed.

Lemma packet_loss_majority_witness :
  exists report average,
    fst (PacketLossSensor.get_data replay 4 [Some 9.1; None; Some 8.7; None])
    = Return report /\
    report !! "average" = Some (VFloat average) /\
    0 <= average <= 100 /\
    report !! "status" = Some (VStr "offline").
Proof.
  destruct (packet_loss_majority replay 4 [Some 9.1; None; Some 8.7; None] ltac:(lia))
    as (report & average & Hrun & _ & Havg & Hrange & _ & Hoff).
  exists report, average. repeat split; try assumption; try apply Hrange.
  apply Hoff. vm_compute. discriminate.
Defined.






(** X2. The reported average of the latency sensor can lie above the
    reported maximum.  Three samples of 0.045 ms add up, from left to
    right in binary64, to a double whose third is just above 0.045: the
    average is reported as 0.05, while the minimum and the maximum, the
    sample itself, are reported as 0.04. *)
Theorem latency_average_above_maximum :
  exists report,
    Binary64.LatencySensor.get_data replay 3
      (Binary64.decimals [Some 0.045; Some 0.045; Some 0.045])
    = (Return report, []) /\
    report !! "average" = Some (VDouble (Binary64.of_Q 0.05)) /\
    report !! "min" = Some (VDouble (Binary64.of_Q 0.04)) /\
    report !! "max" = Some (VDouble (Binary64.of_Q 0.04)) /\
    report !! "status" = Some (VStr "online") /\
    Binary64.ltb (Binary64.of_Q 0.04) (Binary64.of_Q 0.05) = true.
Proof.
  exists (mk_dict [ ("average", VDouble (Binary64.of_Q 0.05));
                    ("min", VDouble (Binary64.of_Q 0.04));
                    ("max", VDouble (Binary64.of_Q 0.04));
                    ("status", VStr "online"); ("error", VNone) ]).
  split; [now vm_compute|]. repeat split; reflexivity.
Qed.

(** X3. With a sample count of zero or less no ping is sent.  The latency
    sensor then reports "All ping attempts failed" and the jitter sensor
    "Insufficient data for jitter calculation", both offline; the
    packet-loss sensor reports 100 and offline, through its exception
    handler ("division by zero") when the count is zero. *)
Theorem samplers_without_samples {W : Type} (_ping_host : ping_host W) (count : Z) (w : W) :
  (count <= 0)%Z ->
  LatencySensor.get_data _ping_host count w
  = (Return (mk_dict [ ("average", VInt 0); ("min", VInt 0); ("max", VInt 0);
                       ("status", VStr "offline");
                       ("error", VStr "All ping attempts failed") ]), w)
  /\ JitterSensor.get_data _ping_host count w
     = (Return (mk_dict [ ("average", VInt 0); ("status", VStr "offline");
                          ("error", VStr "Insufficient data for jitter calculation") ]),
        w)
  /\ (count = 0%Z ->
      PacketLossSensor.get_data _ping_host count w
      = (Return (mk_dict [ ("average", VInt 100); ("status", VStr "offline");
                           ("error", VStr "division by zero") ]), w))
  /\ ((count < 0)%Z ->
      PacketLossSensor.get_data _ping_host count w
      = (Return (mk_dict [ ("average", VFloat 100.00); ("status", VStr "offline");
                           ("error", VNone) ]), w)).
Proof.
  intros Hcount.
  assert (Hn : Z.to_nat count = 0%nat) by lia.
  split; [|split; [|split]].
  - unfold LatencySensor.get_data, try_except, bind. rewrite Hn. reflexivity.
  - unfold JitterSensor.get_data, try_except, bind. rewrite Hn. reflexivity.
  - intros ->. reflexivity.
  - intros Hneg.
    unfold PacketLossSensor.get_data, try_except, bind. rewrite Hn.
    cbn [PacketLossSensor.count_loop ret]. rewrite Z.sub_0_r.
    unfold lift, py_div.
    assert (Hnz : Qeq_bool (inject_Z count) 0 = false).
    { destruct count; try lia. reflexivity. }
    rewrite Hnz. unfold ret.
    assert (Hloss : inject_Z count / inject_Z count * 100 == 100).
    { field. apply inject_Z_nonzero. lia. }
    rewrite (round2_comp _ _ Hloss).
    destruct (Qlt_le_dec (inject_Z count / inject_Z count * 100) 50) as [Hlt|_];
      [rewrite Hloss in Hlt; lra | reflexivity].
Qed.

Lemma samplers_without_samples_witness :
  PacketLossSensor.get_data replay 0 [Some 9.1; Some 8.7]
  = (Return (mk_dict [ ("average", VInt 100); ("status", VStr "offline");
                       ("error", VStr "division by zero") ]), [Some 9.1; Some 8.7])
  /\ LatencySensor.get_data replay (-2) [Some 9.1; Some 8.7]
     = (Return (mk_dict [ ("average", VInt 0); ("min", VInt 0); ("max", VInt 0);
                          ("status", VStr "offline");
                          ("error", VStr "All ping attempts failed") ]),
        [Some 9.1; Some 8.7]).
Proof.
  split.
  - exact (proj1 (proj2 (proj2 (samplers_without_samples replay 0 [Some 9.1; Some 8.7]
                                   ltac:(lia)))) eq_refl).
  - exact (proj1 (samplers_without_samples replay (-2) [Some 9.1; Some 8.7] ltac:(lia))).
Defined.

(** *** The order of the samples *)






(** ** More about the route tracker *)

Lemma last_ten_short {A} (l : list A) : (length l <= 10)%nat -> last_ten l = l.
Proof.
  intros H. unfold last_ten. replace (length l - 10)%nat with 0%nat by lia.
  apply drop_0.
Qed.

Lemma last_ten_length {A} (l : list A) : (length (last_ten l) <= 10)%nat.
Proof. unfold last_ten. rewrite length_drop. lia. Qed.

Lemma last_ten_app {A} (l k : list A) : last_ten (last_ten l ++ k) = last_ten (l ++ k).
Proof.
  destruct (Nat.le_gt_cases (length l) 10) as [Hle|Hgt].
  - now rewrite (last_ten_short l Hle).
  - unfold last_ten at 1 3. rewrite !length_app.
    unfold last_ten. rewrite length_drop.
    rewrite (drop_app l k).
    replace (length l + length k - 10 - length l)%nat with (length k - 10)%nat by lia.
    rewrite (drop_app (drop _ l) k), drop_drop, length_drop.
    f_equal; f_equal; lia.
Qed.

Lemma record_route_window (self : RouteStabilitySensor.state) (route : list string) :
  RouteStabilitySensor.max_history self = 10%nat ->
  (length (RouteStabilitySensor.route_history self) <= 10)%nat ->
  RouteStabilitySensor.route_history (RouteStabilitySensor.record_route self route)
  = last_ten (RouteStabilitySensor.route_history self ++ [route]).
Proof.
  intros Hmax Hlen.
  destruct (record_route_history self route Hmax Hlen) as (_ & Hroom & Hfull & _ & _).
  destruct (Nat.eq_dec (length (RouteStabilitySensor.route_history self)) 10) as [Heq|Hne].
  - rewrite (Hfull Heq). unfold last_ten. rewrite length_app, Heq. simpl.
    destruct (RouteStabilitySensor.route_history self); [discriminate|reflexivity].
  - rewrite Hroom by lia. symmetry. apply last_ten_short.
    rewrite length_app. simpl. lia.
Qed.

Lemma route_runs_window {W} (_get_route : RouteStabilitySensor.tracer W) (n : nat)
    (self : RouteStabilitySensor.state) (w : W) :
  RouteStabilitySensor.max_history self = 10%nat ->
  (length (RouteStabilitySensor.route_history self) <= 10)%nat ->
  RouteStabilitySensor.route_history (snd (fst (route_runs _get_route n self w)))
  = last_ten (RouteStabilitySensor.route_history self
              ++ kept_routes (fst (trace_outcomes _get_route n w)))
  /\ snd (route_runs _get_route n self w) = snd (trace_outcomes _get_route n w)
  /\ length (fst (fst (route_runs _get_route n self w))) = n.
Proof.
  revert self w. induction n as [|n IH]; intros self w Hmax Hlen.
  - simpl. rewrite app_nil_r. split; [|split]; try reflexivity.
    symmetry. now apply last_ten_short.
  - cbn [route_runs trace_outcomes].
    unfold RouteStabilitySensor.get_data, try_except, bind, total.
    destruct (_get_route w) as [[[|hop hops]|] w1]; unfold ret.
    + specialize (IH self w1 Hmax Hlen).
      destruct (route_runs _get_route n self w1) as [[reports self'] w'].
      destruct (trace_outcomes _get_route n w1) as [outcomes w''].
      simpl in *. destruct IH as (H1 & H2 & H3). now rewrite H3.
    + destruct (record_route_history self (hop :: hops) Hmax Hlen)
        as (Hmax' & _ & _ & Hlen' & _).
      specialize (IH _ w1 Hmax' Hlen').
      rewrite (record_route_window self (hop :: hops) Hmax Hlen) in IH.
      destruct (route_runs _get_route n _ w1) as [[reports self'] w'].
      destruct (trace_outcomes _get_route n w1) as [outcomes w''].
      simpl in *. destruct IH as (H1 & H2 & H3).
      split; [|split; [exact H2 | now rewrite H3]].
      rewrite H1, last_ten_app, <- app_assoc. reflexivity.
    + specialize (IH self w1 Hmax Hlen).
      destruct (route_runs _get_route n self w1) as [[reports self'] w'].
      destruct (trace_outcomes _get_route n w1) as [outcomes w''].
      simpl in *. destruct IH as (H1 & H2 & H3). now rewrite H3.
Qed.

(** X6. After any number of invocations on a new sensor, the route history
    is exactly the last ten (or fewer) of the routes obtained so far that
    named at least one hop, oldest first; failed and empty traces leave no
    mark, and every invocation produces a report. *)
Theorem route_history_is_a_window {W : Type}
    (_get_route : RouteStabilitySensor.tracer W) (n : nat) (w : W) :
  let run := route_runs _get_route n RouteStabilitySensor.init w in
  let routes := kept_routes (fst (trace_outcomes _get_route n w)) in
  RouteStabilitySensor.route_history (snd (fst run))
  = drop (length routes - 10) routes
  /\ snd run = snd (trace_outcomes _get_route n w)
  /\ length (fst (fst run)) = n.
Proof.
  intros run routes.
  destruct (route_runs_window _get_route n RouteStabilitySensor.init w eq_refl)
    as (H1 & H2 & H3); [simpl; lia|].
  split; [exact H1 | split; assumption].
Qed.

Lemma occurrences_bound (route : list string) (snapshots : list (list string)) :
  (0 <= occurrences route snapshots <= Z.of_nat (length snapshots))%Z
  /\ (occurrences route snapshots = Z.of_nat (length snapshots)
      <-> forall previous, In previous snapshots -> previous = route).
Proof.
  induction snapshots as [|s l [IHb IHe]].
  - split; [simpl; unfold occurrences; simpl; lia|].
    split; [intros _ previous []|reflexivity].
  - change (s :: l) with ([s] ++ l). unfold occurrences in *.
    rewrite filter_app, !length_app. rewrite filter_cons, filter_nil.
    case_decide as Hs; simpl length.
    + split; [lia|]. split.
      * intros H previous [<-|Hin]; [now symmetry|]. apply IHe; [lia|exact Hin].
      * intros H.
        pose proof (proj2 IHe (fun previous Hin => H previous (or_intror Hin))) as He.
        lia.
    + split; [lia|]. split.
      * intros H. lia.
      * intros H. exfalso. apply Hs. symmetry. apply H. now left.
Qed.

(** A successful, non-empty trace: the report and the sensor afterwards. *)
Lemma route_step_report {W} (_get_route : RouteStabilitySensor.tracer W)
    (self : RouteStabilitySensor.state) (w : W) (current : list string) :
  fst (_get_route w) = Some current -> current <> [] ->
  let self' := RouteStabilitySensor.record_route self current in
  RouteStabilitySensor.get_data _get_route self w
  = (Return
       (mk_dict
          [ ("overall_stability",
               VFloat (round2 (RouteStabilitySensor._calculate_stability self')));
            ("route_changes",
               VInt (Z.of_nat (length (RouteStabilitySensor.route_history self')) - 1));
            ("current_route", VList (map VStr current));
            ("status", VStr "online");
            ("error", VNone) ], self'),
     snd (_get_route w)).
Proof.
  intros Hroute Hne self'.
  unfold RouteStabilitySensor.get_data, try_except, bind, total.
  destruct (_get_route w) as [route w1]. simpl in Hroute. subst route.
  destruct current as [|hop hops]; [congruence|]. reflexivity.
Qed.

(** X7. After a successful trace the reported stability lies between 0
    and 100, and it is 100 exactly when every earlier snapshot still in
    the history equals the current route. *)
Theorem stability_full_iff_route_unchanged {W : Type}
    (_get_route : RouteStabilitySensor.tracer W)
    (self : RouteStabilitySensor.state) (w : W) (current : list string) :
  RouteStabilitySensor.max_history self = 10%nat ->
  (length (RouteStabilitySensor.route_history self) <= 10)%nat ->
  fst (_get_route w) = Some current -> current <> [] ->
  exists report self' earlier stability,
    fst (RouteStabilitySensor.get_data _get_route self w) = Return (report, self') /\
    RouteStabilitySensor.route_history self' = earlier ++ [current] /\
    report !! "overall_stability" = Some (VFloat stability) /\
    0 <= stability <= 100 /\
    (stability == 100 <-> forall previous, In previous earlier -> previous = current).
Proof.
  intros Hmax Hlen Hroute Hne.
  rewrite (route_step_report _get_route self w current Hroute Hne).
  destruct (record_route_history self current Hmax Hlen)
    as (_ & _ & _ & Hlen' & earlier & Hhist).
  destruct (RouteStabilitySensor.record_route self current) as [history limit] eqn:Hrec.
  simpl in Hhist, Hlen'. subst history.
  pose proof (calculate_stability_spec earlier current limit) as Hspec.
  rewrite length_app in Hspec, Hlen'. simpl length in Hspec, Hlen'.
  destruct (occurrences_bound current earlier) as [[Hm0 Hm1] Hall].
  set (m := occurrences current earlier) in *.
  set (s := RouteStabilitySensor._calculate_stability _) in *.
  exists (mk_dict
            [ ("overall_stability", VFloat (round2 s));
              ("route_changes", VInt (Z.of_nat (length (earlier ++ [current])) - 1));
              ("current_route", VList (map VStr current));
              ("status", VStr "online"); ("error", VNone) ]),
         {| RouteStabilitySensor.route_history := earlier ++ [current];
            RouteStabilitySensor.max_history := limit |},
         earlier, (round2 s).
  split; [reflexivity|]. split; [reflexivity|]. split; [reflexivity|].
  destruct (length earlier + 1 <? 2)%nat eqn:Hshort.
  - apply Nat.ltb_lt in Hshort.
    assert (He : earlier = []) by (destruct earlier; [reflexivity|simpl in Hshort; lia]).
    rewrite (round2_comp s 100 Hspec). split; [split; discriminate|].
    split; [intros _ previous Hin; rewrite He in Hin; destruct Hin | reflexivity].
  - apply Nat.ltb_ge in Hshort.
    replace (Z.of_nat (length earlier + 1) - 1)%Z with (Z.of_nat (length earlier))
      in Hspec by lia.
    set (t := Z.of_nat (length earlier)) in *.
    assert (Ht : (1 <= t <= 9)%Z) by lia.
    assert (Htq : 0 < inject_Z t).
    { change 0 with (inject_Z 0). rewrite <- Zlt_Qlt. lia. }
    assert (Hmq : 0 <= inject_Z m <= inject_Z t).
    { change 0 with (inject_Z 0). rewrite <- !Zle_Qle. lia. }
    assert (Hst : s * inject_Z t == 100 * inject_Z m).
    { rewrite Hspec. field. lra. }
    assert (Hrange : 0 <= s <= 100) by (split; nra).
    split; [apply (round2_bounds s 0 100 Hrange)|].
    rewrite <- Hall. split.
    + intros Hfull.
      destruct (Z.eq_dec m t) as [Heq|Hneq]; [exact Heq|exfalso].
      assert (Hm : inject_Z m + 1 <= inject_Z t).
      { change 1 with (inject_Z 1). rewrite <- inject_Z_plus, <- Zle_Qle. lia. }
      assert (Ht9 : inject_Z t <= 9).
      { change 9 with (inject_Z 9). rewrite <- Zle_Qle. lia. }
      assert (Hs89 : s <= inject_Z 89).
      { change (inject_Z 89) with 89. nra. }
      assert (Hs0 : inject_Z 0 <= s) by (change (inject_Z 0) with 0; lra).
      pose proof (round2_bounds s 0 89 (conj Hs0 Hs89)) as [_ Hup].
      change (inject_Z 89) with 89 in Hup. lra.
    + intros Heq. rewrite (round2_comp s 100); [reflexivity|].
      rewrite Hspec, Heq. field. lra.
Qed.

Lemma stability_full_iff_route_unchanged_witness :
  exists report self' earlier stability,
    fst (RouteStabilitySensor.get_data replay
           {| RouteStabilitySensor.route_history :=
                [["192.0.2.1"; "198.51.100.7"]; ["192.0.2.1"; "203.0.113.9"]];
              RouteStabilitySensor.max_history := 10 |}
           [Some ["192.0.2.1"; "203.0.113.9"]])
    = Return (report, self') /\
    RouteStabilitySensor.route_history self' = earlier ++ [["192.0.2.1"; "203.0.113.9"]] /\
    report !! "overall_stability" = Some (VFloat stability) /\
    0 <= stability <= 100.
Proof.
  destruct (stability_full_iff_route_unchanged replay
              {| RouteStabilitySensor.route_history :=
                   [["192.0.2.1"; "198.51.100.7"]; ["192.0.2.1"; "203.0.113.9"]];
                 RouteStabilitySensor.max_history := 10 |}
              [Some ["192.0.2.1"; "203.0.113.9"]] ["192.0.2.1"; "203.0.113.9"]
              eq_refl ltac:(simpl; lia) eq_refl ltac:(discriminate))
    as (report & self' & earlier & stability & H1 & H2 & H3 & H4 & _).
  now exists report, self', earlier, stability.
Defined.

Lemma occurrences_replicate (route : list string) (n : nat) :
  occurrences route (replicate n route) = Z.of_nat n.
Proof.
  destruct (occurrences_bound route (replicate n route)) as [_ Hall].
  rewrite length_replicate in Hall. apply Hall.
  intros previous Hin. apply list_elem_of_In, elem_of_replicate in Hin. tauto.
Qed.

Lemma record_route_replicate (route : list string) (m : nat) :
  (m <= 10)%nat ->
  RouteStabilitySensor.record_route
    {| RouteStabilitySensor.route_history := replicate m route;
       RouteStabilitySensor.max_history := 10 |} route
  = {| RouteStabilitySensor.route_history := replicate (Nat.min (m + 1) 10) route;
       RouteStabilitySensor.max_history := 10 |}.
Proof.
  intros Hm. unfold RouteStabilitySensor.record_route. simpl.
  rewrite length_app, length_replicate. simpl length. f_equal.
  destruct (10 <? m + 1)%nat eqn:Hfull.
  - apply Nat.ltb_lt in Hfull. assert (m = 10%nat) as -> by lia. reflexivity.
  - apply Nat.ltb_ge in Hfull. rewrite Nat.min_l by lia.
    now rewrite Nat.add_1_r, replicate_S_end.
Qed.

Lemma stability_of_replicate (route : list string) (m : nat) :
  RouteStabilitySensor._calculate_stability
    {| RouteStabilitySensor.route_history := replicate (S m) route;
       RouteStabilitySensor.max_history := 10 |} == 100.
Proof.
  rewrite replicate_S_end, calculate_stability_spec.
  rewrite length_app, length_replicate. simpl length.
  destruct (m + 1 <? 2)%nat eqn:Hshort; [reflexivity|].
  apply Nat.ltb_ge in Hshort. rewrite occurrences_replicate.
  replace (Z.of_nat (m + 1) - 1)%Z with (Z.of_nat m) by lia.
  field. apply inject_Z_nonzero. lia.
Qed.

Lemma stable_route_reports {W} (_get_route : RouteStabilitySensor.tracer W)
    (route : list string) (n m i : nat) (w : W) :
  (forall w0, fst (_get_route w0) = Some route) -> route <> [] ->
  (m <= 10)%nat -> (i < n)%nat ->
  exists report,
    fst (fst (route_runs _get_route n
                {| RouteStabilitySensor.route_history := replicate m route;
                   RouteStabilitySensor.max_history := 10 |} w)) !! i
    = Some (Return report) /\
    report !! "overall_stability" = Some (VFloat 100.00) /\
    report !! "route_changes" = Some (VInt (Z.of_nat (Nat.min (m + i + 1) 10) - 1)) /\
    report !! "status" = Some (VStr "online").
Proof.
  intros Hsame Hne. revert m i w.
  induction n as [|n IH]; intros m i w Hm Hi; [lia|].
  cbn [route_runs].
  rewrite (route_step_report _get_route _ w route (Hsame w) Hne). cbv zeta.
  rewrite (record_route_replicate route m Hm).
  set (m' := Nat.min (m + 1) 10).
  assert (Hm' : (m' <= 10)%nat) by (unfold m'; lia).
  destruct i as [|i].
  - destruct (route_runs _get_route n _ (snd (_get_route w))) as [[reports self'] w'].
    simpl. eexists. split; [reflexivity|].
    split; [|split; [|reflexivity]].
    + unfold mk_dict. simpl list_to_map. rewrite lookup_insert_eq. f_equal. f_equal.
      assert (Hs : exists j, m' = S j) by (exists (m' - 1)%nat; unfold m'; lia).
      destruct Hs as [j ->].
      now rewrite (round2_comp _ 100 (stability_of_replicate route j)).
    + unfold mk_dict. simpl list_to_map.
      rewrite lookup_insert_ne by done. rewrite lookup_insert_eq.
      simpl RouteStabilitySensor.route_history. rewrite length_replicate.
      rewrite Nat.add_0_r. reflexivity.
  - destruct (IH m' i (snd (_get_route w)) Hm' ltac:(lia))
      as (report & Hlook & Hst & Hch & Hon).
    destruct (route_runs _get_route n _ (snd (_get_route w))) as [[reports self'] w'].
    simpl in *. exists report. split; [exact Hlook|]. split; [exact Hst|].
    split; [|exact Hon]. rewrite Hch. f_equal. f_equal. unfold m'. lia.
Qed.

(** X8. While the route does not change, every report of the sensor,
    from the first on, gives a stability of 100; yet [route_changes] is
    not zero: it is the number of earlier snapshots held, growing from 0
    to 9. *)
Theorem stable_route_still_counts_changes {W : Type}
    (_get_route : RouteStabilitySensor.tracer W) (route : list string) (n i : nat) (w : W) :
  (forall w0, fst (_get_route w0) = Some route) -> route <> [] -> (i < n)%nat ->
  exists report,
    fst (fst (route_runs _get_route n RouteStabilitySensor.init w)) !! i
    = Some (Return report) /\
    report !! "overall_stability" = Some (VFloat 100.00) /\
    report !! "route_changes" = Some (VInt (Z.of_nat (Nat.min i 9))) /\
    report !! "status" = Some (VStr "online").
Proof.
  intros Hsame Hne Hi.
  destruct (stable_route_reports _get_route route n 0 i w Hsame Hne ltac:(lia) Hi)
    as (report & Hlook & Hst & Hch & Hon).
  exists report. split; [exact Hlook|]. split; [exact Hst|]. split; [|exact Hon].
  rewrite Hch. f_equal. f_equal. lia.
Qed.

Lemma stable_route_still_counts_changes_witness :
  exists report,
    fst (fst (route_runs (fun w : nat => (Some ["192.0.2.1"; "198.51.100.7"], S w)) 12
                RouteStabilitySensor.init 0%nat)) !! 11%nat
    = Some (Return report) /\
    report !! "overall_stability" = Some (VFloat 100.00) /\
    report !! "route_changes" = Some (VInt 9).
Proof.
  destruct (stable_route_still_counts_changes
              (fun w : nat => (Some ["192.0.2.1"; "198.51.100.7"], S w))
              ["192.0.2.1"; "198.51.100.7"] 12 11 0%nat
              (fun _ => eq_refl) ltac:(discriminate) ltac:(lia))
    as (report & H1 & H2 & H3 & _).
  now exists report.
Defined.

(** X9. A sensor object used once, straight after its construction,
    reports either "offline" with "Failed to get route" or, for any route
    at all, a stability of 100 with 0 route changes: one snapshot has
    nothing to be compared with. *)
Theorem first_report_is_always_stable {W : Type}
    (_get_route : RouteStabilitySensor.tracer W) (w : W) :
  exists report,
    first_report _get_route w = (Return report, snd (_get_route w)) /\
    ((report !! "status" = Some (VStr "offline") /\
      report !! "error" = Some (VStr "Failed to get route") /\
      (fst (_get_route w) = None \/ fst (_get_route w) = Some []))
     \/ (report !! "status" = Some (VStr "online") /\
         report !! "overall_stability" = Some (VFloat 100.00) /\
         report !! "route_changes" = Some (VInt 0) /\
         exists route, fst (_get_route w) = Some route /\ route <> [] /\
                       report !! "current_route" = Some (VList (map VStr route)))).
Proof.
  unfold first_report, bind, RouteStabilitySensor.get_data, try_except, bind, total.
  destruct (_get_route w) as [[[|hop hops]|] w1]; unfold ret; simpl fst; simpl snd.
  - eexists. split; [reflexivity|]. left. repeat split. now right.
  - eexists. split; [reflexivity|]. right.
    split; [reflexivity|]. split; [reflexivity|]. split; [reflexivity|].
    exists (hop :: hops). repeat split. discriminate.
  - eexists. split; [reflexivity|]. left. repeat split. now left.
Qed.

(** ** More about the DNS sensors *)

(** X10. The DNS configuration sensor always returns a report that names
    a primary server, the first one the detector chain returned, and
    this server is never one the exclusion predicate discards.  The
    secondary is the second server or the text "None".  The status says
    only whether the test resolution worked: "online", or "offline" with
    "DNS resolution failed". *)
Theorem dns_report_names_a_usable_server {W : Type}
    (self : DNSConfigSensor.detectors W) (_test_dns_resolution : DNSConfigSensor.resolver W)
    (w : W) :
  exists servers source w1 report primary others,
    DNSConfigSensor._get_system_dns_servers self w = (Return (servers, source), w1) /\
    DNSConfigSensor.get_data self _test_dns_resolution w
    = (Return report, snd (_test_dns_resolution w1)) /\
    servers = primary :: others /\
    DNSConfigSensor._is_container_dns primary = false /\
    report !! "primary_dns" = Some (VStr primary) /\
    report !! "secondary_dns"
    = Some (VStr (match others with second :: _ => second | [] => "None" end)) /\
    report !! "all_dns_servers" = Some (VList (map VStr servers)) /\
    report !! "source" = Some (VStr source) /\
    (fst (_test_dns_resolution w1) = true ->
       report !! "status" = Some (VStr "online") /\ report !! "error" = Some VNone) /\
    (fst (_test_dns_resolution w1) = false ->
       report !! "status" = Some (VStr "offline") /\
       report !! "error" = Some (VStr "DNS resolution failed")).
Proof.
  destruct (chain_returns (DNSConfigSensor.methods self) w)
    as (servers & source & w1 & Hrun & Hne & Hall).
  destruct servers as [|primary others]; [congruence|].
  exists (primary :: others), source, w1.
  unfold DNSConfigSensor.get_data, try_except, bind.
  unfold DNSConfigSensor._get_system_dns_servers. rewrite Hrun.
  unfold total. destruct (_test_dns_resolution w1) as [ok w2]. unfold ret.
  eexists _, primary, others. split; [reflexivity|]. split; [reflexivity|].
  split; [reflexivity|]. split; [now inversion Hall|].
  split; [reflexivity|]. split; [destruct others; reflexivity|].
  split; [reflexivity|]. split; [reflexivity|].
  simpl fst. split; intros ->; split; reflexivity.
Qed.

Lemma common_servers_pass :
  DNSConfigSensor.filtered ["8.8.8.8"; "1.1.1.1"; "9.9.9.9"]
  = ["8.8.8.8"; "1.1.1.1"; "9.9.9.9"].
Proof. reflexivity. Qed.

Lemma system_chain_never_exhausted {W} (self : DNSConfigSensor.detectors W) (w w' : W) :
  ~ DNSConfigSensor.all_rejected (DNSConfigSensor.methods self) w w'.
Proof.
  unfold DNSConfigSensor.methods. intros H.
  repeat match goal with
         | Hr : DNSConfigSensor.all_rejected (_ :: _) _ _ |- _ =>
             inversion Hr; subst; clear Hr
         end.
  match goal with
  | Hc : DNSConfigSensor._get_common_dns_servers _ = (?o, _),
    Hy : DNSConfigSensor.yields_nothing ?o |- _ =>
      unfold DNSConfigSensor._get_common_dns_servers, ret in Hc;
      injection Hc as <- _; simpl in Hy; discriminate Hy
  end.
Qed.

(** X11. In the sensor's own chain the last method cannot fail, so the
    fallback below the loop is never reached: the source is always the
    name of one of the six methods, never "public_fallback".  When the
    five external methods all yield nothing, the servers are the three of
    [_get_common_dns_servers], under that name. *)
Theorem system_chain_last_resort {W : Type} (self : DNSConfigSensor.detectors W)
    (w w' : W) :
  DNSConfigSensor.all_rejected (take 5 (DNSConfigSensor.methods self)) w w' ->
  DNSConfigSensor._get_system_dns_servers self w
  = (Return (["8.8.8.8"; "1.1.1.1"; "9.9.9.9"], "_get_common_dns_servers"), w')
  /\ (forall w0 : W, exists servers source w1,
        DNSConfigSensor._get_system_dns_servers self w0 = (Return (servers, source), w1) /\
        In source (map fst (DNSConfigSensor.methods self)) /\
        source <> "public_fallback").
Proof.
  intros Hrej. split.
  - exact (chain_accepts (take 5 (DNSConfigSensor.methods self))
             "_get_common_dns_servers" DNSConfigSensor._get_common_dns_servers []
             w w' ["8.8.8.8"; "1.1.1.1"; "9.9.9.9"] w' Hrej eq_refl
             ltac:(discriminate)).
  - intros w0. unfold DNSConfigSensor._get_system_dns_servers.
    destruct (chain_cases (DNSConfigSensor.methods self) w0)
      as [(ms1 & name & call & ms2 & w1 & raw & w2 & Hms & Hrej0 & Hcall & Hne)
         |(w1 & Hrej0)].
    + exists (DNSConfigSensor.filtered raw), name, w2. split.
      * rewrite Hms. now apply (chain_accepts _ _ _ _ _ w1).
      * assert (Hin : In name (map fst (DNSConfigSensor.methods self))).
        { rewrite Hms, map_app. apply in_or_app. right. now left. }
        split; [exact Hin|]. intros ->. simpl in Hin.
        repeat destruct Hin as [Hin|Hin]; try discriminate. exact Hin.
    + exfalso. exact (system_chain_never_exhausted self w0 w1 Hrej0).
Qed.

Lemma system_chain_last_resort_witness :
  DNSConfigSensor._get_system_dns_servers
    {| DNSConfigSensor._get_supervisor_dns := snd (logged "supervisor" (Return []));
       DNSConfigSensor._get_docker_host_dns := snd (logged "docker" (Return []));
       DNSConfigSensor._get_gateway_dns := snd (logged "gateway" (Return ["192.168.1.1"]));
       DNSConfigSensor._get_systemd_resolve_dns :=
         snd (logged "systemd" (Raise (Exception "not found")));
       DNSConfigSensor._get_resolv_conf_dns := snd (logged "resolv" (Return ["127.0.0.1"]))
    |} []
  = (Return (["8.8.8.8"; "1.1.1.1"; "9.9.9.9"], "_get_common_dns_servers"),
     ["supervisor"; "docker"; "gateway"; "systemd"; "resolv"]).
Proof.
  refine (proj1 (system_chain_last_resort _ [] _ _)).
  eapply DNSConfigSensor.rejected_cons; [reflexivity|reflexivity|].
  eapply DNSConfigSensor.rejected_cons; [reflexivity|reflexivity|].
  eapply DNSConfigSensor.rejected_cons; [reflexivity|reflexivity|].
  eapply DNSConfigSensor.rejected_cons; [reflexivity|exact I|].
  eapply DNSConfigSensor.rejected_cons; [reflexivity|reflexivity|].
  apply DNSConfigSensor.rejected_nil.
Defined.

Lemma query_loop_spec {W} (_test_dns_query : DNSReliabilitySensor.dns_query W)
    (domains : list string) (acc : Z) (w : W) :
  DNSReliabilitySensor.query_loop _test_dns_query domains acc w
  = (Return (acc + count_true (fst (query_outcomes _test_dns_query domains w)))%Z,
     snd (query_outcomes _test_dns_query domains w)).
Proof.
  revert acc w. induction domains as [|domain rest IH]; intros acc w; simpl.
  - unfold ret, count_true. simpl. now rewrite Z.add_0_r.
  - unfold bind, total. destruct (_test_dns_query domain w) as [answered w1].
    destruct answered; rewrite IH;
      destruct (query_outcomes _test_dns_query rest w1) as [outcomes w']; simpl;
      unfold count_true; rewrite filter_cons; case_decide; try done; simpl length;
      f_equal; f_equal; lia.
Qed.

(** X12. The DNS reliability sensor queries its three test domains, all
    of them whatever the earlier answers, and reports the number of
    answered queries out of 3 with the rate 0, 33.33, 66.67 or 100.  Its
    status is "online" exactly when at least two of the three queries
    were answered. *)
Theorem dns_reliability_majority {W : Type}
    (_test_dns_query : DNSReliabilitySensor.dns_query W) (w : W) :
  let answers := fst (query_outcomes _test_dns_query
                        ["google.com"; "cloudflare.com"; "github.com"] w) in
  let answered := count_true answers in
  exists report,
    DNSReliabilitySensor.get_data _test_dns_query w
    = (Return report,
       snd (query_outcomes _test_dns_query
              ["google.com"; "cloudflare.com"; "github.com"] w)) /\
    length answers = 3%nat /\
    report !! "successful_queries" = Some (VInt answered) /\
    report !! "total_queries" = Some (VInt 3) /\
    (exists rate,
        [0.00; 33.33; 66.67; 100.00] !! Z.to_nat answered = Some rate /\
        report !! "overall_success_rate" = Some (VFloat rate)) /\
    (report !! "status" = Some (VStr "online") <-> (2 <= answered)%Z) /\
    (report !! "status" = Some (VStr "offline") <-> (answered < 2)%Z) /\
    report !! "error" = Some VNone.
Proof.
  intros answers answered. subst answers answered.
  unfold DNSReliabilitySensor.get_data, try_except, bind.
  rewrite query_loop_spec.
  change DNSReliabilitySensor.test_domains
    with ["google.com"; "cloudflare.com"; "github.com"].
  cbn [query_outcomes].
  destruct (_test_dns_query "google.com" w) as [a1 w1].
  destruct (_test_dns_query "cloudflare.com" w1) as [a2 w2].
  destruct (_test_dns_query "github.com" w2) as [a3 w3].
  cbn [fst snd]. rewrite Z.add_0_l.
  destruct a1, a2, a3;
    match goal with
    | |- context [count_true ?l] =>
        let n := eval vm_compute in (count_true l) in
        change (count_true l) with n
    end;
    (eexists; split; [reflexivity|]; split; [reflexivity|];
     split; [reflexivity|]; split; [reflexivity|];
     split; [eexists; split; reflexivity|];
     split; [|split; [|reflexivity]]);
    (split; intros H; first [ reflexivity | discriminate H | lia ]).
Qed.

(** ** More about the address-lookup chain *)

Lemma listed_spec (sources : list string) (source : string) :
  IPInfoManager.listed sources source = true <-> In source sources.
Proof.
  unfold IPInfoManager.listed. rewrite existsb_exists. split.
  - intros (x & Hin & Heq). apply String.eqb_eq in Heq. now subst.
  - intros Hin. exists source. split; [exact Hin|apply String.eqb_refl].
Qed.

Section SourceOrder.
Context {W : Type} (self : gmap string (M W dict)).

Lemma extend_all (order sources : list string) :
  NoDup sources ->
  (forall s, In s sources -> IPInfoManager.available self s = true) ->
  let result := fold_left (extend_sources self) order sources in
  NoDup result /\
  (forall s, In s result -> IPInfoManager.available self s = true) /\
  (exists added, result = sources ++ added /\ forall s, In s added -> In s order) /\
  (forall s, In s order -> IPInfoManager.available self s = true -> In s result).
Proof.
  revert sources. induction order as [|source order IH]; intros sources Hnd Hav; simpl.
  - split; [exact Hnd|]. split; [exact Hav|]. split; [|intros s []].
    exists []. split; [now rewrite app_nil_r|intros s []].
  - assert (Hstep : NoDup (extend_sources self sources source) /\
                    (forall s, In s (extend_sources self sources source) ->
                               IPInfoManager.available self s = true) /\
                    (exists added, extend_sources self sources source = sources ++ added /\
                                   forall s, In s added -> s = source) /\
                    (IPInfoManager.available self source = true ->
                     In source (extend_sources self sources source))).
    { unfold extend_sources.
      destruct (IPInfoManager.available self source) eqn:Ha; simpl.
      - destruct (IPInfoManager.listed sources source) eqn:Hl; simpl.
        + apply listed_spec in Hl. split; [exact Hnd|]. split; [exact Hav|].
          split; [|auto]. exists []. split; [now rewrite app_nil_r|intros s []].
        + split.
          * apply NoDup_app. split; [exact Hnd|]. split.
            -- intros x Hx Hx'. apply list_elem_of_In in Hx.
               apply list_elem_of_In in Hx' as [<-|[]].
               apply listed_spec in Hx. congruence.
            -- apply NoDup_singleton.
          * split.
            -- intros s Hs. apply in_app_or in Hs as [Hs|[<-|[]]]; auto.
            -- split; [|intros _; apply in_or_app; right; now left].
               exists [source]. split; [reflexivity|]. intros s [<-|[]]. reflexivity.
      - split; [exact Hnd|]. split; [exact Hav|]. split; [|discriminate].
        exists []. split; [now rewrite app_nil_r|intros s []]. }
    destruct Hstep as (Hnd' & Hav' & (added0 & Heq0 & Hadded0) & Hin0).
    destruct (IH (extend_sources self sources source) Hnd' Hav')
      as (H1 & H2 & (added & Heq & Hadded) & H4).
    split; [exact H1|]. split; [exact H2|]. split.
    + exists (added0 ++ added). split.
      * rewrite Heq, Heq0. now rewrite app_assoc.
      * intros s Hs. apply in_app_or in Hs as [Hs|Hs];
          [left; symmetry; now apply Hadded0 | right; now apply Hadded].
    + intros s [<-|Hs] Ha.
      * rewrite Heq. apply in_or_app. left. now apply Hin0.
      * now apply H4.
Qed.

End SourceOrder.

(** X13. The providers the manager will try: each at most once, only
    providers that exist, the preferred one first when it exists, then
    every existing provider of the fallback order ipapi, ipinfo,
    ipgeolocation; a provider that is neither preferred nor in that order
    is never tried. *)
Theorem sources_to_try_is_sound {W : Type} (self : gmap string (M W dict))
    (preferred_source : option string) :
  let sources := IPInfoManager.sources_to_try self preferred_source in
  NoDup sources /\
  (forall s, In s sources -> is_Some (self !! s)) /\
  (forall s, In s ["ipapi"; "ipinfo"; "ipgeolocation"] -> is_Some (self !! s) ->
             In s sources) /\
  (forall s, In s sources ->
             In s ["ipapi"; "ipinfo"; "ipgeolocation"] \/ preferred_source = Some s) /\
  (forall p, preferred_source = Some p -> p <> EmptyString -> is_Some (self !! p) ->
             head sources = Some p) /\
  (length sources <= 4)%nat.
Proof.
  intros sources.
  assert (Hav : forall s, IPInfoManager.available self s = true <-> is_Some (self !! s)).
  { intros s. unfold IPInfoManager.available.
    destruct (self !! s); split; intros H; try reflexivity; try discriminate; eauto.
    destruct H as [x Hx]. discriminate. }
  set (start := match preferred_source with
                | Some source =>
                    if negb (String.eqb source EmptyString)
                       && IPInfoManager.available self source
                    then [source] else []
                | None => []
                end).
  assert (Hstart : NoDup start /\
                   (forall s, In s start -> IPInfoManager.available self s = true) /\
                   (forall s, In s start -> preferred_source = Some s) /\
                   (forall p, preferred_source = Some p -> p <> EmptyString ->
                              is_Some (self !! p) -> start = [p]) /\
                   (length start <= 1)%nat).
  { unfold start. destruct preferred_source as [p|].
    - destruct (String.eqb p EmptyString) eqn:He; simpl.
      + apply String.eqb_eq in He.
        split; [constructor|]. split; [intros s []|]. split; [intros s []|].
        split; [|simpl; lia]. intros q [= <-] Hq. congruence.
      + destruct (IPInfoManager.available self p) eqn:Ha.
        * split; [apply NoDup_singleton|]. split; [intros s [<-|[]]; exact Ha|].
          split; [intros s [<-|[]]; reflexivity|]. split; [|simpl; lia].
          now intros q [= <-] _ _.
        * split; [constructor|]. split; [intros s []|]. split; [intros s []|].
          split; [|simpl; lia].
          intros q [= <-] _ Hq. apply Hav in Hq. congruence.
    - split; [constructor|]. split; [intros s []|]. split; [intros s []|].
      split; [discriminate|simpl; lia]. }
  destruct Hstart as (Hnd & Hsa & Hsp & Hhead & Hlen).
  destruct (extend_all self IPInfoManager.fallback_order start Hnd Hsa)
    as (H1 & H2 & (added & Heq & Hadded) & H4).
  change (fold_left _ IPInfoManager.fallback_order start) with sources in *.
  split; [exact H1|]. split; [intros s Hs; apply Hav; now apply H2|].
  split; [intros s Hs Hsome; apply H4; [exact Hs|now apply Hav]|].
  split; [|split].
  - intros s Hs. rewrite Heq in Hs. apply in_app_or in Hs as [Hs|Hs];
      [right; now apply Hsp | left; now apply Hadded].
  - intros p Hp Hne Hsome. rewrite Heq, (Hhead p Hp Hne Hsome). reflexivity.
  - assert (Hadd : (length added <= 3)%nat).
    { assert (Hnd_added : NoDup added).
      { rewrite Heq in H1. now apply NoDup_app in H1 as (_ & _ & H1). }
      change 3%nat with (length IPInfoManager.fallback_order).
      apply NoDup_incl_length; [now apply NoDup_ListNoDup|exact Hadded]. }
    rewrite Heq, length_app. lia.
Qed.

Lemma try_sources_first_success {W} (self : gmap string (M W dict))
    (tried rest : list string) (source : string) (get : M W dict)
    (w w1 w2 : W) (last0 last : option exn) (data : dict) :
  IPInfoManager.failing_run self tried w last0 last w1 ->
  self !! source = Some get -> get w1 = (Return data, w2) ->
  IPInfoManager.try_sources self (tried ++ source :: rest) last0 w = (Return data, w2).
Proof.
  intros Hrun Hget Hdata.
  induction Hrun as [w last|s tried' g w e w' last0 last w1 Hg Hraise _ IH].
  - cbn [app IPInfoManager.try_sources]. unfold try_except, M in *.
    now rewrite Hget, Hdata.
  - cbn [app IPInfoManager.try_sources]. unfold try_except, M in *.
    rewrite Hg, Hraise. now apply IH.
Qed.

(** X14. The address lookup falls back from one provider to the next: when
    the providers tried before [source] all raise and [source] returns a
    record, the chain returns that record and contacts no later provider,
    and the caller hands the record on unchanged.  If the 30 second
    budget of the caller runs out first, the result is the error entry
    "Request timed out" instead. *)
Theorem address_chain_first_success {W : Type} (self : ISPHealthMonitor.monitor W)
    (tried rest : list string) (source : string) (get : M W dict)
    (w w1 w2 : W) (last : option exn) (data : dict) :
  IPInfoManager.sources_to_try (ISPHealthMonitor.ip_info_manager self)
    (Some (ISPHealthMonitor.ip_info_source self)) = tried ++ source :: rest ->
  IPInfoManager.failing_run (ISPHealthMonitor.ip_info_manager self) tried w None last w1 ->
  ISPHealthMonitor.ip_info_manager self !! source = Some get ->
  get w1 = (Return data, w2) ->
  IPInfoManager.get_ip_info (ISPHealthMonitor.ip_info_manager self)
    (Some (ISPHealthMonitor.ip_info_source self)) w = (Return data, w2)
  /\ (ISPHealthMonitor.deadline self w = None ->
      ISPHealthMonitor.get_ip_information self w = (Return data, w2))
  /\ (forall w', ISPHealthMonitor.deadline self w = Some w' ->
      ISPHealthMonitor.get_ip_information self w
      = (Return (mk_dict [ ("status", VStr "error");
                           ("error", VStr "Request timed out");
                           ("timestamp", VStr (fst (ISPHealthMonitor.now self w'))) ]),
         snd (ISPHealthMonitor.now self w'))).
Proof.
  intros Hsources Hrun Hget Hdata.
  assert (Hchain : IPInfoManager.get_ip_info (ISPHealthMonitor.ip_info_manager self)
                     (Some (ISPHealthMonitor.ip_info_source self)) w = (Return data, w2)).
  { unfold IPInfoManager.get_ip_info. rewrite Hsources.
    now apply (try_sources_first_success _ tried rest source get w w1 w2 None last). }
  split; [exact Hchain|]. split.
  - intros Hopen.
    unfold ISPHealthMonitor.get_ip_information, try_except, ISPHealthMonitor.wait_for.
    now rewrite Hopen, Hchain.
  - intros w' Hclosed.
    unfold ISPHealthMonitor.get_ip_information, try_except, ISPHealthMonitor.wait_for.
    rewrite Hclosed. unfold bind, total.
    destruct (ISPHealthMonitor.now self w') as [timestamp w3]. reflexivity.
Qed.

Lemma address_chain_first_success_witness :
  ISPHealthMonitor.get_ip_information recovering_monitor []
  = (Return (mk_dict [ ("ip", VStr "203.0.113.7"); ("source", VStr "ip-api.com") ]),
     ["ipinfo"; "ipapi"]).
Proof.
  refine (proj1 (proj2 (address_chain_first_success recovering_monitor
                          ["ipinfo"] [] "ipapi"
                          (logged_provider "ipapi"
                             (Return (mk_dict [ ("ip", VStr "203.0.113.7");
                                                ("source", VStr "ip-api.com") ])))
                          [] ["ipinfo"] ["ipinfo"; "ipapi"]
                          (Some (Exception "Request timed out")) _ _ _ _ _)) eq_refl).
  - reflexivity.
  - eapply IPInfoManager.failing_cons; [reflexivity|reflexivity|].
    apply IPInfoManager.failing_nil.
  - reflexivity.
  - reflexivity.
Defined.

(** ** More about the coordinator *)

(** X15. When the set-up of an update cycle succeeds, the coordinator
    returns what the monitor collected, not the mock data: reading a
    metric back from the returned dict gives exactly the entry the monitor
    produced for it (nothing for a metric it did not collect), and
    [update_interval] is the value of the configuration entry, 60 when
    the entry has none. *)
Theorem update_success_reports_collection {W : Type}
    (now : W -> string * W) (entry_data : dict)
    (setup : M W (ISPHealthMonitor.monitor W)) (w w1 : W)
    (monitor : ISPHealthMonitor.monitor W) :
  setup w = (Return monitor, w1) ->
  exists results w2 data,
    ISPHealthMonitor.get_all_sensor_data monitor w1 = (Return results, w2) /\
    ISPHealthDataUpdateCoordinator._async_update_data now entry_data setup w
    = (Return data, snd (now w2)) /\
    (forall name, ISPHealthDataUpdateCoordinator.metric_entry data name = results !! name) /\
    data !! "last_update" = Some (VStr (fst (now w2))) /\
    data !! "update_interval"
    = Some (default (VInt 60) (entry_data !! "update_interval")).
Proof.
  intros Hsetup.
  destruct (get_all_sensor_data_returns monitor w1) as (results & w2 & Hcollect).
  exists results, w2.
  unfold ISPHealthDataUpdateCoordinator._async_update_data, try_except,
    ISPHealthDataUpdateCoordinator.update_body, bind.
  rewrite Hsetup, Hcollect. unfold total. destruct (now w2) as [last_update w3].
  unfold ret. eexists. split; [reflexivity|]. split; [reflexivity|].
  split; [|split; reflexivity].
  intros name. unfold ISPHealthDataUpdateCoordinator.metric_entry.
  unfold mk_dict. simpl list_to_map. rewrite lookup_insert_eq.
  rewrite lookup_fmap. now destruct (results !! name).
Qed.

Lemma update_success_reports_collection_witness :
  exists data,
    fst (ISPHealthDataUpdateCoordinator._async_update_data
           (fun history => ("2024-05-01T12:00:05", history)) ∅
           (ret mixed_monitor) ([] : list string)) = Return data /\
    ISPHealthDataUpdateCoordinator.metric_entry data "jitter"
    = Some (mk_dict [("status", VStr "error"); ("error", VStr "no samples")]) /\
    ISPHealthDataUpdateCoordinator.metric_entry data "dns_config" = None /\
    data !! "update_interval" = Some (VInt 60).
Proof.
  destruct (update_success_reports_collection
              (fun history : list string => ("2024-05-01T12:00:05", history)) ∅
              (ret mixed_monitor) [] [] mixed_monitor eq_refl)
    as (results & w2 & data & Hcollect & Hrun & Hentry & _ & Hinterval).
  exists data. rewrite Hrun. split; [reflexivity|].
  rewrite !Hentry.
  assert (Hr : results = fst (let (o, _) := ISPHealthMonitor.get_all_sensor_data
                                mixed_monitor [] in
                              (match o with Return r => r | Raise _ => ∅ end, tt))).
  { now rewrite Hcollect. }
  rewrite Hr. split; [reflexivity|]. split; [reflexivity|exact Hinterval].
Defined.

(** ** The providers an installation ends up with *)

(** X16. Which providers an installation contacts, and with which
    credentials, follows from the two entries [ip_info_source] and
    [ip_info_token] alone.  When both are strings the configuration built
    by the coordinator passes validation, the monitor always has the
    providers ipinfo and ipapi, and it has ipgeolocation only when that is
    the selected source and the token is not empty.  The token reaches the
    selected provider only; the others are built with the empty string.
    The order of the attempts is the selected provider first when it
    exists, then ipapi, ipinfo, ipgeolocation: selecting ipgeolocation
    without a token, or an unknown source, silently gives ipapi, ipinfo. *)
Theorem provider_order_by_source {W : Type} (classes : IPInfoManager.provider_classes W)
    (entry_data : dict) (s t : string) :
  dict_get_or entry_data "ip_info_source" (VStr "ipapi") = VStr s ->
  dict_get_or entry_data "ip_info_token" (VStr EmptyString) = VStr t ->
  exists validated,
    Config.ip_info_config (ISPHealthDataUpdateCoordinator.ip_info_config entry_data)
    = Return validated /\
    let providers := monitor_providers classes validated in
    let given (source : string) := VStr (if String.eqb s source then t else EmptyString) in
    providers !! "ipinfo"
    = Some (IPInfoManager.IPInfoIOProvider_get_ip_info classes
              (mk_dict [ ("token", given "ipinfo"); ("api_key", VNone) ])) /\
    providers !! "ipapi"
    = Some (IPInfoManager.IPAPIProvider_get_ip_info classes
              (mk_dict [ ("token", given "ipapi"); ("api_key", VNone) ])) /\
    providers !! "ipgeolocation"
    = (if String.eqb s "ipgeolocation" && negb (String.eqb t EmptyString)
       then Some (IPInfoManager.IPGeolocationProvider_get_ip_info classes
                    (mk_dict [ ("token", VNone); ("api_key", VStr t) ]))
       else None) /\
    (forall source, source <> "ipinfo" -> source <> "ipapi" -> source <> "ipgeolocation" ->
       providers !! source = None) /\
    IPInfoManager.sources_to_try providers (Some s)
    = (if String.eqb s "ipinfo" then ["ipinfo"; "ipapi"]
       else if String.eqb s "ipgeolocation" && negb (String.eqb t EmptyString)
            then ["ipgeolocation"; "ipapi"; "ipinfo"]
            else ["ipapi"; "ipinfo"]).
Proof.
  intros Hsource Htoken.
  unfold ISPHealthDataUpdateCoordinator.ip_info_config.
  rewrite Hsource, Htoken. unfold eq_str.
  set (given := fun source : string => VStr (if String.eqb s source then t else EmptyString)).
  assert (Hgiven : forall source,
             (if String.eqb s source then VStr t else VStr EmptyString) = given source).
  { intros source. unfold given. now destruct (String.eqb s source). }
  rewrite !Hgiven.
  exists (list_to_map
            [ ("ipinfo", {| IPInfoConfig.token := given "ipinfo"; IPInfoConfig.api_key := VNone |});
              ("ipapi", {| IPInfoConfig.token := given "ipapi"; IPInfoConfig.api_key := VNone |});
              ("ipgeolocation", {| IPInfoConfig.token := VNone;
                                   IPInfoConfig.api_key := given "ipgeolocation" |}) ]).
  split; [reflexivity|].
  cbv zeta.
  assert (Hinfo : monitor_providers classes
                    (list_to_map
                       [ ("ipinfo", {| IPInfoConfig.token := given "ipinfo";
                                       IPInfoConfig.api_key := VNone |});
                         ("ipapi", {| IPInfoConfig.token := given "ipapi";
                                      IPInfoConfig.api_key := VNone |});
                         ("ipgeolocation", {| IPInfoConfig.token := VNone;
                                              IPInfoConfig.api_key := given "ipgeolocation" |}) ])
                  = let base : IPInfoManager.providers W :=
                      <["ipapi" := IPInfoManager.IPAPIProvider_get_ip_info classes
                                     (mk_dict [ ("token", given "ipapi"); ("api_key", VNone) ])]>
                        (<["ipinfo" := IPInfoManager.IPInfoIOProvider_get_ip_info classes
                                         (mk_dict [ ("token", given "ipinfo");
                                                    ("api_key", VNone) ])]> ∅) in
                    if String.eqb s "ipgeolocation" && negb (String.eqb t EmptyString)
                    then <["ipgeolocation" :=
                             IPInfoManager.IPGeolocationProvider_get_ip_info classes
                               (mk_dict [ ("token", VNone); ("api_key", VStr t) ])]> base
                    else base).
  { unfold monitor_providers, IPInfoManager._initialize_providers.
    simpl list_to_map. rewrite !fmap_insert, fmap_empty.
    unfold IPInfoConfig.model_dump. cbn [IPInfoConfig.token IPInfoConfig.api_key].
    set (c1 := mk_dict [("token", given "ipinfo"); ("api_key", VNone)]).
    set (c2 := mk_dict [("token", given "ipapi"); ("api_key", VNone)]).
    set (c3 := mk_dict [("token", VNone); ("api_key", given "ipgeolocation")]).
    set (m := <["ipinfo" := c1]> (<["ipapi" := c2]> (<["ipgeolocation" := c3]> ∅))).
    assert (H1 : m !! "ipinfo" = Some c1) by (unfold m; now rewrite lookup_insert_eq).
    assert (H2 : m !! "ipapi" = Some c2).
    { unfold m. now rewrite lookup_insert_ne, lookup_insert_eq by discriminate. }
    assert (H3 : m !! "ipgeolocation" = Some c3).
    { unfold m. now rewrite !lookup_insert_ne, lookup_insert_eq by discriminate. }
    rewrite H1, H2, H3. cbv zeta.
    assert (H4 : dict_get c3 "api_key" = given "ipgeolocation").
    { unfold dict_get, c3, mk_dict. simpl list_to_map.
      now rewrite lookup_insert_ne, lookup_insert_eq by discriminate. }
    rewrite H4. unfold c3, given.
    destruct (String.eqb s "ipgeolocation"); cbn [value_truthy andb negb].
    - destruct (String.eqb t EmptyString); reflexivity.
    - reflexivity. }
  rewrite Hinfo. clear Hinfo. cbv zeta.
  set (base := <["ipapi" := _]> (<["ipinfo" := _]> ∅)).
  assert (Hb1 : base !! "ipinfo" = Some (IPInfoManager.IPInfoIOProvider_get_ip_info classes
              (mk_dict [ ("token", given "ipinfo"); ("api_key", VNone) ]))).
  { unfold base. now rewrite lookup_insert_ne, lookup_insert_eq by discriminate. }
  assert (Hb2 : base !! "ipapi" = Some (IPInfoManager.IPAPIProvider_get_ip_info classes
              (mk_dict [ ("token", given "ipapi"); ("api_key", VNone) ]))).
  { unfold base. now rewrite lookup_insert_eq. }
  assert (Hb3 : forall source, source <> "ipinfo" -> source <> "ipapi" ->
                               base !! source = None).
  { intros source H1 H2. unfold base.
    now rewrite !lookup_insert_ne, lookup_empty by congruence. }
  set (geo := String.eqb s "ipgeolocation" && negb (String.eqb t EmptyString)).
  set (P := if geo then <["ipgeolocation" := _]> base else base).
  assert (H1 : P !! "ipinfo" = base !! "ipinfo").
  { unfold P. destruct geo; [now rewrite lookup_insert_ne by discriminate|reflexivity]. }
  assert (H2 : P !! "ipapi" = base !! "ipapi").
  { unfold P. destruct geo; [now rewrite lookup_insert_ne by discriminate|reflexivity]. }
  assert (H3 : P !! "ipgeolocation"
               = if geo
                 then Some (IPInfoManager.IPGeolocationProvider_get_ip_info classes
                              (mk_dict [ ("token", VNone); ("api_key", VStr t) ]))
                 else None).
  { unfold P. destruct geo; [now rewrite lookup_insert_eq|now apply Hb3]. }
  assert (H4 : forall source, source <> "ipinfo" -> source <> "ipapi" ->
                 source <> "ipgeolocation" -> P !! source = None).
  { intros source Hn1 Hn2 Hn3. unfold P.
    destruct geo; [rewrite lookup_insert_ne by congruence|]; now apply Hb3. }
  rewrite H1, H2, Hb1, Hb2 in *.
  split; [reflexivity|]. split; [reflexivity|]. split; [exact H3|]. split; [exact H4|].
  assert (Ha1 : IPInfoManager.available P "ipinfo" = true).
  { unfold IPInfoManager.available. now rewrite H1. }
  assert (Ha2 : IPInfoManager.available P "ipapi" = true).
  { unfold IPInfoManager.available. now rewrite H2. }
  assert (Ha3 : IPInfoManager.available P "ipgeolocation" = geo).
  { unfold IPInfoManager.available. rewrite H3. now destruct geo. }
  clearbody P. clear H1 H2 H3 Hb1 Hb2 Hb3 base.
  unfold IPInfoManager.sources_to_try, IPInfoManager.fallback_order.
  cbn [fold_left].
  destruct (String.eqb s "ipinfo") eqn:Hinfo.
  - apply String.eqb_eq in Hinfo. subst s. rewrite Ha1, Ha2, Ha3.
    unfold geo. reflexivity.
  - destruct (String.eqb s "ipapi") eqn:Hapi.
    + apply String.eqb_eq in Hapi. subst s. rewrite Ha1, Ha2, Ha3.
      unfold geo. reflexivity.
    + destruct (String.eqb s "ipgeolocation") eqn:Hgeo.
      * apply String.eqb_eq in Hgeo. subst s. rewrite Ha1, Ha2, Ha3.
        unfold geo. cbn [String.eqb Ascii.eqb Bool.eqb andb].
        now destruct (String.eqb t EmptyString).
      * apply String.eqb_neq in Hinfo, Hapi, Hgeo.
        assert (Ha4 : IPInfoManager.available P s = false).
        { unfold IPInfoManager.available. now rewrite H4. }
        rewrite Ha4, andb_false_r, Ha1, Ha2, Ha3.
        unfold geo. reflexivity.
Qed.

Lemma provider_order_by_source_witness :
  let classes : IPInfoManager.provider_classes (list string) :=
    {| IPInfoManager.IPInfoIOProvider_get_ip_info := fun _ => raise (Exception "HTTP 429: ");
       IPInfoManager.IPAPIProvider_get_ip_info := fun _ => raise (Exception "HTTP 429: ");
       IPInfoManager.IPGeolocationProvider_get_ip_info :=
         fun _ => raise (Exception "HTTP 401: ") |} in
  let entry_data := mk_dict [ ("ip_info_source", VStr "ipgeolocation") ] in
  exists validated,
    Config.ip_info_config (ISPHealthDataUpdateCoordinator.ip_info_config entry_data)
    = Return validated /\
    monitor_providers classes validated !! "ipgeolocation" = None /\
    IPInfoManager.sources_to_try (monitor_providers classes validated) (Some "ipgeolocation")
    = ["ipapi"; "ipinfo"].
Proof.
  intros classes entry_data.
  destruct (provider_order_by_source classes entry_data "ipgeolocation" EmptyString
              eq_refl eq_refl)
    as (validated & Hvalid & _ & _ & Hgeo & _ & Horder).
  exists validated. split; [exact Hvalid|]. split; [exact Hgeo|exact Horder].
Defined.

(** ** The configuration an update cycle starts from *)

Lemma mk_dict_cons_eq (k : string) (v : value) (l : list (string * value)) :
  mk_dict ((k, v) :: l) !! k = Some v.
Proof. unfold mk_dict. cbn [list_to_map foldr]. apply lookup_insert_eq. Qed.

Lemma mk_dict_cons_ne (k k' : string) (v : value) (l : list (string * value)) :
  k <> k' -> mk_dict ((k', v) :: l) !! k = mk_dict l !! k.
Proof. intros Hk. unfold mk_dict. cbn [list_to_map foldr]. now apply lookup_insert_ne. Qed.

Lemma normalize_sensor_idempotent (sensor_type : string) (sensor_data : value) :
  ISPHealthDataUpdateCoordinator.normalize_sensor sensor_type
    (ISPHealthDataUpdateCoordinator.normalize_sensor sensor_type sensor_data)
  = ISPHealthDataUpdateCoordinator.normalize_sensor sensor_type sensor_data.
Proof.
  unfold ISPHealthDataUpdateCoordinator.normalize_sensor.
  destruct sensor_data as [| | | | | | |d]; try reflexivity.
  destruct (d !! "interval") eqn:Hd.
  - now rewrite Hd.
  - now rewrite lookup_insert_eq.
Qed.

Lemma normalize_sensor_shape (sensor_type : string) (sensor_data : value) :
  exists d, ISPHealthDataUpdateCoordinator.normalize_sensor sensor_type sensor_data = VDict d
            /\ is_Some (d !! "interval").
Proof.
  unfold ISPHealthDataUpdateCoordinator.normalize_sensor.
  destruct sensor_data as [| | | | | | |d];
    try (eexists; split; [reflexivity|]; unfold mk_dict; simpl list_to_map;
         rewrite lookup_insert_ne, lookup_insert_eq by discriminate; eauto).
  destruct (d !! "interval") eqn:Hd.
  - exists d. split; [reflexivity|]. rewrite Hd. eauto.
  - eexists. split; [reflexivity|]. rewrite lookup_insert_eq. eauto.
Qed.

Lemma normalize_sensors_lookup (sensors_config : dict) (k : string) :
  ISPHealthDataUpdateCoordinator.normalize_sensors sensors_config !! k
  = ISPHealthDataUpdateCoordinator.normalize_sensor k <$> sensors_config !! k.
Proof.
  unfold ISPHealthDataUpdateCoordinator.normalize_sensors.
  rewrite map_lookup_imap. now destruct (sensors_config !! k).
Qed.

Lemma normalize_sensors_idempotent (sensors_config : dict) :
  ISPHealthDataUpdateCoordinator.normalize_sensors
    (ISPHealthDataUpdateCoordinator.normalize_sensors sensors_config)
  = ISPHealthDataUpdateCoordinator.normalize_sensors sensors_config.
Proof.
  apply map_eq. intros k. rewrite !normalize_sensors_lookup.
  destruct (sensors_config !! k); [|reflexivity].
  cbn [fmap option_fmap option_map]. now rewrite normalize_sensor_idempotent.
Qed.

Lemma normalize_sensors_fixed (sensors_config : dict) :
  (forall k v, sensors_config !! k = Some v ->
     exists d, v = VDict d /\ is_Some (d !! "interval")) ->
  ISPHealthDataUpdateCoordinator.normalize_sensors sensors_config = sensors_config.
Proof.
  intros Hall. apply map_eq. intros k. rewrite normalize_sensors_lookup.
  destruct (sensors_config !! k) as [v|] eqn:Hk; [|reflexivity].
  destruct (Hall k v Hk) as (d & -> & [i Hi]).
  cbn [fmap option_fmap option_map]. unfold ISPHealthDataUpdateCoordinator.normalize_sensor.
  now rewrite Hi.
Qed.

(** X17. Building the configuration of a cycle rewrites the sensors stored
    in the entry, and doing so is stable: when
    [_create_config_from_entry] succeeds, calling it again on the entry
    data it left behind gives the same configuration and changes nothing
    more.  In the configuration every given sensor is kept, each as a dict
    that holds an interval; a dict that already had one is passed on
    unchanged, and a bare flag [b] becomes a dict with [enabled] = [b]. *)
Theorem config_from_entry_is_stable (entry_data config_data entry_data' : dict) :
  ISPHealthDataUpdateCoordinator._create_config_from_entry entry_data
  = Return (config_data, entry_data') ->
  ISPHealthDataUpdateCoordinator._create_config_from_entry entry_data'
  = Return (config_data, entry_data')
  /\ exists given sensors,
       dict_get_or entry_data "sensors" (VDict ∅) = VDict given /\
       config_data !! "sensors" = Some (VDict sensors) /\
       (is_Some (entry_data !! "sensors") ->
        entry_data' !! "sensors" = Some (VDict sensors)) /\
       dom sensors = dom given /\
       (forall k v, sensors !! k = Some v ->
          exists d, v = VDict d /\ is_Some (d !! "interval")) /\
       (forall k d, given !! k = Some (VDict d) -> is_Some (d !! "interval") ->
          sensors !! k = Some (VDict d)) /\
       (forall k b, given !! k = Some (VBool b) ->
          exists d, sensors !! k = Some (VDict d) /\ d !! "enabled" = Some (VBool b)).
Proof.
  unfold ISPHealthDataUpdateCoordinator._create_config_from_entry.
  destruct (dict_get_or entry_data "sensors" (VDict ∅)) as [| | | | | | |given] eqn:Hgiven;
    try discriminate.
  intros H. injection H as Hconfig Hentry.
  set (sensors := ISPHealthDataUpdateCoordinator.normalize_sensors given) in *.
  assert (Hother : forall k dflt, k <> "sensors" ->
            dict_get_or entry_data' k dflt = dict_get_or entry_data k dflt).
  { intros k dflt Hk. rewrite <- Hentry. unfold dict_get_or.
    destruct (entry_data !! "sensors"); [|reflexivity].
    now rewrite lookup_insert_ne by congruence. }
  assert (Hsensors : dict_get_or entry_data' "sensors" (VDict ∅) = VDict sensors).
  { rewrite <- Hentry. unfold dict_get_or in *.
    destruct (entry_data !! "sensors") eqn:Hs.
    - now rewrite lookup_insert_eq.
    - rewrite Hs. cbn [default] in *. injection Hgiven as <-.
      subst sensors. reflexivity. }
  split.
  - rewrite Hsensors.
    unfold ISPHealthDataUpdateCoordinator.ip_info_config,
      ISPHealthDataUpdateCoordinator.CONF_UPDATE_INTERVAL.
    rewrite !Hother by discriminate.
    subst sensors. rewrite normalize_sensors_idempotent.
    f_equal. f_equal; [exact Hconfig|].
    rewrite <- Hentry.
    destruct (entry_data !! "sensors") eqn:Hs.
    + rewrite lookup_insert_eq. now rewrite insert_insert_eq.
    + now rewrite Hs.
  - exists given, sensors. split; [reflexivity|].
    split.
    { rewrite <- Hconfig. unfold mk_dict. simpl list_to_map.
      now rewrite !lookup_insert_ne, lookup_insert_eq by discriminate. }
    split.
    { intros [v Hv]. rewrite <- Hentry, Hv. now rewrite lookup_insert_eq. }
    split.
    { apply set_eq. intros k. rewrite !elem_of_dom. subst sensors.
      rewrite normalize_sensors_lookup. rewrite fmap_is_Some. reflexivity. }
    split.
    { intros k v Hk. subst sensors. rewrite normalize_sensors_lookup in Hk.
      destruct (given !! k) as [v0|]; [|discriminate].
      injection Hk as <-. apply normalize_sensor_shape. }
    split.
    { intros k d Hk [i Hi]. subst sensors. rewrite normalize_sensors_lookup, Hk.
      cbn [fmap option_fmap option_map].
      unfold ISPHealthDataUpdateCoordinator.normalize_sensor. now rewrite Hi. }
    intros k b Hk. subst sensors. rewrite normalize_sensors_lookup, Hk.
    cbn [fmap option_fmap option_map ISPHealthDataUpdateCoordinator.normalize_sensor].
    eexists. split; [reflexivity|]. unfold mk_dict. simpl list_to_map.
    now rewrite lookup_insert_eq.
Qed.

Lemma config_from_entry_is_stable_witness :
  let entry_data :=
    mk_dict [ ("ip_info_source", VStr "ipinfo");
              ("sensors", VDict (mk_dict
                 [ ("latency", VBool false);
                   ("jitter", VDict (mk_dict [ ("enabled", VBool true) ])) ])) ] in
  let sensors :=
    mk_dict [ ("latency", VDict (mk_dict [ ("enabled", VBool false); ("interval", VInt 60) ]));
              ("jitter", VDict (mk_dict [ ("enabled", VBool true); ("interval", VInt 120) ])) ] in
  let config_data :=
    mk_dict [ ("update_interval", VInt 60);
              ("ip_info_source", VStr "ipinfo");
              ("ip_info_config",
                 VDict (VDict <$> ISPHealthDataUpdateCoordinator.ip_info_config entry_data));
              ("sensors", VDict sensors) ] in
  let entry_data' :=
    mk_dict [ ("ip_info_source", VStr "ipinfo"); ("sensors", VDict sensors) ] in
  ISPHealthDataUpdateCoordinator._create_config_from_entry entry_data
  = Return (config_data, entry_data')
  /\ ISPHealthDataUpdateCoordinator._create_config_from_entry entry_data'
     = Return (config_data, entry_data').
Proof.
  intros entry_data sensors config_data entry_data'.
  assert (H : ISPHealthDataUpdateCoordinator._create_config_from_entry entry_data
              = Return (config_data, entry_data')) by (vm_compute; reflexivity).
  split; [exact H|].
  exact (proj1 (config_from_entry_is_stable entry_data config_data entry_data' H)).
Defined.

Lemma flow_sensors_fixed (l : list (string * value)) :
  Forall (fun kv => exists d, snd kv = VDict d /\ is_Some (d !! "interval")) l ->
  ISPHealthDataUpdateCoordinator.normalize_sensors (mk_dict l) = mk_dict l.
Proof.
  intros Hl. apply normalize_sensors_fixed. intros k v Hk.
  unfold mk_dict in Hk. apply elem_of_list_to_map_2 in Hk.
  rewrite Forall_forall in Hl. apply (Hl (k, v)). first [exact Hk | now apply list_elem_of_In].
Qed.

Ltac has_interval :=
  eexists; split; [reflexivity|]; unfold mk_dict; simpl list_to_map;
  rewrite lookup_insert_ne, lookup_insert_eq by discriminate; eauto.

(** X18. The entries made by the set-up form and by the options form are
    already in the shape the coordinator wants: whatever the input, the
    sensors configuration names exactly the eight metrics, ip_info and
    dns_config are enabled, the coordinator leaves the configuration and
    the entry unchanged, and its table of default intervals is never
    used. *)
Theorem flow_entries_are_normal (user_input : dict) :
  let sensors := ISPHealthConfigFlow._create_sensors_config user_input in
  let options := ISPHealthOptionsFlowHandler._create_sensors_config user_input in
  let entry_data := ISPHealthConfigFlow.entry_data user_input in
  ISPHealthDataUpdateCoordinator.normalize_sensors sensors = sensors /\
  ISPHealthDataUpdateCoordinator.normalize_sensors options = options /\
  (exists config_data,
     ISPHealthDataUpdateCoordinator._create_config_from_entry entry_data
     = Return (config_data, entry_data) /\
     config_data !! "sensors" = Some (VDict sensors)) /\
  dom sensors = list_to_set ISPHealthDataUpdateCoordinator.SENSOR_TYPES /\
  dom options = list_to_set ISPHealthDataUpdateCoordinator.SENSOR_TYPES /\
  (forall core, In core ["ip_info"; "dns_config"] ->
     exists d d',
       sensors !! core = Some (VDict d) /\ d !! "enabled" = Some (VBool true) /\
       options !! core = Some (VDict d') /\ d' !! "enabled" = Some (VBool true)).
Proof.
  intros sensors options entry_data.
  assert (Hs : ISPHealthDataUpdateCoordinator.normalize_sensors sensors = sensors).
  { apply flow_sensors_fixed. repeat (constructor; [cbn [snd]; has_interval|]).
    constructor. }
  split; [exact Hs|]. split.
  { apply flow_sensors_fixed. repeat (constructor; [cbn [snd]; has_interval|]).
    constructor. }
  split.
  { unfold ISPHealthDataUpdateCoordinator._create_config_from_entry, entry_data,
      ISPHealthConfigFlow.entry_data, dict_get_or at 1.
    rewrite !lookup_insert_eq. cbn [default from_option id].
    pose proof Hs as Hs'. unfold sensors in Hs'. rewrite Hs'.
    eexists. split.
    - rewrite insert_insert_eq. reflexivity.
    - do 3 rewrite mk_dict_cons_ne by discriminate. now rewrite mk_dict_cons_eq. }
  split.
  { unfold sensors, ISPHealthConfigFlow._create_sensors_config, mk_dict.
    simpl list_to_map. rewrite !dom_insert_L, dom_empty_L. reflexivity. }
  split.
  { unfold options, ISPHealthOptionsFlowHandler._create_sensors_config, mk_dict.
    simpl list_to_map. rewrite !dom_insert_L, dom_empty_L. reflexivity. }
  intros core [<-|[<-|[]]].
  - do 2 eexists.
    split; [unfold sensors, ISPHealthConfigFlow._create_sensors_config, mk_dict;
            simpl list_to_map; now rewrite lookup_insert_eq|].
    split; [unfold mk_dict; simpl list_to_map; now rewrite lookup_insert_eq|].
    split; [unfold options, ISPHealthOptionsFlowHandler._create_sensors_config, mk_dict;
            simpl list_to_map; now rewrite lookup_insert_eq|].
    unfold mk_dict; simpl list_to_map; now rewrite lookup_insert_eq.
  - do 2 eexists.
    split; [unfold sensors, ISPHealthConfigFlow._create_sensors_config, mk_dict;
            simpl list_to_map; now rewrite lookup_insert_ne, lookup_insert_eq by discriminate|].
    split; [unfold mk_dict; simpl list_to_map; now rewrite lookup_insert_eq|].
    split; [unfold options, ISPHealthOptionsFlowHandler._create_sensors_config, mk_dict;
            simpl list_to_map; now rewrite lookup_insert_ne, lookup_insert_eq by discriminate|].
    unfold mk_dict; simpl list_to_map; now rewrite lookup_insert_eq.
Qed.

Lemma flow_interval (user_input : dict) (sensor_type key : string) (lo hi : Z)
    (entry : dict) :
  ISPHealthConfigFlow.intervals_valid user_input = true ->
  In (key, (lo, hi)) ISPHealthConfigFlow.interval_ranges ->
  exists z, user_input !! key = Some (VInt z) /\ (lo <= z <= hi)%Z.
Proof.
  unfold ISPHealthConfigFlow.intervals_valid. rewrite forallb_forall.
  intros Hvalid Hin. specialize (Hvalid _ Hin). cbn beta iota in Hvalid.
  destruct (user_input !! key) as [[| |z| | | | |]|]; try discriminate.
  exists z. split; [reflexivity|]. apply andb_prop in Hvalid as [H1 H2]. lia.
Qed.

Ltac flow_entry key :=
  do 2 eexists;
  split; [unfold ISPHealthConfigFlow._create_sensors_config;
          repeat (rewrite mk_dict_cons_ne by discriminate);
          apply mk_dict_cons_eq|];
  split; [rewrite mk_dict_cons_ne by discriminate; rewrite mk_dict_cons_eq;
          unfold dict_get_or; rewrite key; reflexivity|].


Ltac bounds_of name :=
  unfold SensorsConfig.validate_interval;
  let b := eval vm_compute in
             (list_to_map (M := gmap string (Z * Z)) SensorsConfig.interval_bounds !! name) in
  change (list_to_map SensorsConfig.interval_bounds !! name) with b;
  cbv beta iota; unfold SensorsConfig.Field.

Ltac bounds_hold name :=
  bounds_of name;
  match goal with
  | |- context [(?lo <=? ?z)%Z && (?z <=? ?hi)%Z] =>
      rewrite (proj2 (Z.leb_le lo z)) by lia; rewrite (proj2 (Z.leb_le z hi)) by lia
  end; reflexivity.

(** X19. The set-up form and the configuration classes disagree about one
    interval.  For every input the form lets through, the interval stored
    for each metric is the int of its form field, and the bounds that
    [SensorsConfig] puts on it accept that int, except for
    route_stability: the form allows 300 to 7200 seconds there, the class
    at most 3600, so a route stability interval above one hour is let
    through by the form and then refused when the configuration is
    built. *)
Theorem form_intervals_versus_config (user_input : dict) :
  ISPHealthConfigFlow.intervals_valid user_input = true ->
  forall sensor_type, In sensor_type ISPHealthDataUpdateCoordinator.SENSOR_TYPES ->
  exists entry z,
    ISPHealthConfigFlow._create_sensors_config user_input !! sensor_type
    = Some (VDict entry) /\
    entry !! "interval" = Some (VInt z) /\
    user_input !! (sensor_type +:+ "_interval") = Some (VInt z) /\
    (sensor_type <> "route_stability" \/ (z <= 3600)%Z ->
     SensorsConfig.validate_interval sensor_type z = Some (Return z)) /\
    (sensor_type = "route_stability" -> (3600 < z)%Z ->
     exists e, SensorsConfig.validate_interval sensor_type z = Some (Raise e)).
Proof.
  intros Hvalid sensor_type Hin.
  assert (Hfield : forall key lo hi,
            In (key, (lo, hi)) ISPHealthConfigFlow.interval_ranges ->
            exists z, user_input !! key = Some (VInt z) /\ (lo <= z <= hi)%Z).
  { intros key lo hi Hk. now apply (flow_interval user_input sensor_type key lo hi ∅). }
  cbn [In ISPHealthDataUpdateCoordinator.SENSOR_TYPES] in Hin.
  destruct Hin as [<-|[<-|[<-|[<-|[<-|[<-|[<-|[<-|[]]]]]]]]].
  - destruct (Hfield "ip_info_interval" 30%Z 600%Z) as (z & Hz & Hr);
      [cbn; tauto|]. flow_entry Hz. split; [exact Hz|].
    split; [intros _; bounds_hold "ip_info"|intros H; discriminate H].
  - destruct (Hfield "dns_config_interval" 30%Z 600%Z) as (z & Hz & Hr);
      [cbn; tauto|]. flow_entry Hz. split; [exact Hz|].
    split; [intros _; bounds_hold "dns_config"|intros H; discriminate H].
  - destruct (Hfield "latency_interval" 30%Z 600%Z) as (z & Hz & Hr);
      [cbn; tauto|]. flow_entry Hz. split; [exact Hz|].
    split; [intros _; bounds_hold "latency"|intros H; discriminate H].
  - destruct (Hfield "packet_loss_interval" 60%Z 1800%Z) as (z & Hz & Hr);
      [cbn; tauto|]. flow_entry Hz. split; [exact Hz|].
    split; [intros _; bounds_hold "packet_loss"|intros H; discriminate H].
  - destruct (Hfield "jitter_interval" 60%Z 1800%Z) as (z & Hz & Hr);
      [cbn; tauto|]. flow_entry Hz. split; [exact Hz|].
    split; [intros _; bounds_hold "jitter"|intros H; discriminate H].
  - destruct (Hfield "throughput_interval" 3600%Z 86400%Z) as (z & Hz & Hr);
      [cbn; tauto|]. flow_entry Hz. split; [exact Hz|].
    split; [intros _; bounds_hold "throughput"|intros H; discriminate H].
  - destruct (Hfield "dns_reliability_interval" 60%Z 1800%Z) as (z & Hz & Hr);
      [cbn; tauto|]. flow_entry Hz. split; [exact Hz|].
    split; [intros _; bounds_hold "dns_reliability"|intros H; discriminate H].
  - destruct (Hfield "route_stability_interval" 300%Z 7200%Z) as (z & Hz & Hr);
      [cbn; tauto|]. flow_entry Hz. split; [exact Hz|].
    split.
    + intros [H|H]; [congruence|]. bounds_hold "route_stability".
    + intros _ H. bounds_of "route_stability".
      rewrite (proj2 (Z.leb_le 30 z)) by lia.
      rewrite (proj2 (Z.leb_gt z 3600)) by lia. cbn [andb]. eauto.
Qed.

Lemma form_intervals_versus_config_witness :
  let user_input :=
    mk_dict [ ("update_interval", VInt 60);
              ("ip_info_interval", VInt 60);
              ("dns_config_interval", VInt 60);
              ("latency_interval", VInt 60);
              ("packet_loss_interval", VInt 120);
              ("jitter_interval", VInt 120);
              ("throughput_interval", VInt 3600);
              ("dns_reliability_interval", VInt 180);
              ("enable_route_stability", VBool true);
              ("route_stability_interval", VInt 7200) ] in
  ISPHealthConfigFlow.intervals_valid user_input = true /\
  exists e, SensorsConfig.validate_interval "route_stability" 7200 = Some (Raise e).
Proof.
  intros user_input.
  assert (Hvalid : ISPHealthConfigFlow.intervals_valid user_input = true)
    by (vm_compute; reflexivity).
  split; [exact Hvalid|].
  destruct (form_intervals_versus_config user_input Hvalid "route_stability")
    as (entry & z & _ & _ & Hz & _ & Hbad).
  { cbn. tauto. }
  assert (z = 7200%Z) as ->.
  { assert (Hk : user_input !! "route_stability_interval" = Some (VInt 7200))
      by (vm_compute; reflexivity).
    change ("route_stability" +:+ "_interval") with "route_stability_interval" in Hz.
    rewrite Hk in Hz. now injection Hz. }
  apply Hbad; [reflexivity|lia].
Defined.

(** ** What the entities show *)

Lemma bind_inv {W A B} (c : M W A) (k : A -> M W B) (w w' : W) (b : B) :
  bind c k w = (Return b, w') ->
  exists a w1, c w = (Return a, w1) /\ k a w1 = (Return b, w').
Proof.
  unfold bind. destruct (c w) as [[a|e] w1]; [eauto|discriminate].
Qed.

Lemma ret_inv {W A} (a b : A) (w w' : W) : ret a w = (Return b, w') -> b = a.
Proof. unfold ret. congruence. Qed.

Lemma try_except_returns {W A} (P : A -> Prop) (body : M W A) (handler : exn -> M W A)
    (w : W) :
  (forall a w', body w = (Return a, w') -> P a) ->
  (forall e w1, exists a w', handler e w1 = (Return a, w') /\ P a) ->
  exists a w', try_except body handler w = (Return a, w') /\ P a.
Proof.
  intros Hbody Hhandler. unfold try_except.
  destruct (body w) as [[a|e] w1] eqn:Hrun.
  - exists a, w1. split; [reflexivity|]. now apply (Hbody a w1).
  - apply Hhandler.
Qed.

Lemma try_except_inv {W A} (body : M W A) (handler : exn -> M W A) (w w' : W) (a : A) :
  try_except body handler w = (Return a, w') ->
  body w = (Return a, w')
  \/ exists e w1, body w = (Raise e, w1) /\ handler e w1 = (Return a, w').
Proof.
  unfold try_except. destruct (body w) as [[x|e] w1]; [now left|right; eauto].
Qed.

Lemma try_except_inv_raise {W A} (body : M W A) (handler : exn -> M W A) (w w' : W)
    (e : exn) :
  try_except body handler w = (Raise e, w') ->
  exists e0 w1, body w = (Raise e0, w1) /\ handler e0 w1 = (Raise e, w').
Proof.
  unfold try_except. destruct (body w) as [[x|e0] w1]; [discriminate|eauto].
Qed.

Lemma truthy_dict (d : dict) (k : string) (v : value) :
  d !! k = Some v -> value_truthy (VDict d) = true.
Proof.
  intros Hk. cbn [value_truthy]. apply truthy_true. intros Hempty.
  apply map_to_list_empty_iff in Hempty. subst d. now rewrite lookup_empty in Hk.
Qed.

(** The key each sensor type shows as its state. *)
Lemma state_of_report (t : string) (report data sensors : dict) :
  data !! "sensors" = Some (VDict sensors) ->
  sensors !! t = Some (VDict report) ->
  forall (key s : string) (v : value),
    In (t, key) [ ("dns_config", "primary_dns"); ("latency", "average");
                  ("packet_loss", "average"); ("jitter", "average");
                  ("throughput", "download_mbps");
                  ("dns_reliability", "overall_success_rate");
                  ("route_stability", "overall_stability") ] ->
    report !! "status" = Some (VStr s) -> s <> "error" ->
    report !! key = Some v ->
    ISPHealthSensor.native_value (Some data) t = ISPHealthSensor.Value v.
Proof.
  intros Hdata Hsensors key s v Hin Hstatus Hs Hkey.
  unfold ISPHealthSensor.native_value, ISPHealthSensor.sensor_data, dict_get_or.
  rewrite (truthy_dict data _ _ Hdata), Hdata. cbn [negb default from_option id].
  rewrite Hsensors. cbn [default from_option id].
  rewrite (truthy_dict report _ _ Hstatus). cbn [negb].
  unfold dict_get. rewrite Hstatus. cbn [default from_option id eq_str].
  apply String.eqb_neq in Hs. rewrite Hs.
  cbn [In] in Hin.
  destruct Hin as [H|[H|[H|[H|[H|[H|[H|[]]]]]]]]; injection H as <- <-;
    cbn [String.eqb Ascii.eqb Bool.eqb]; unfold dict_get_or; rewrite Hkey; reflexivity.
Qed.

Ltac lookup_mk :=
  first [ repeat (rewrite mk_dict_cons_ne by discriminate); apply mk_dict_cons_eq
        | repeat (rewrite lookup_insert_ne by discriminate); apply lookup_insert_eq ].

Ltac in_table := cbn [In]; repeat first [left; reflexivity | right].

(** A report that is a dict display with a status and the key of its
    sensor type. *)
Ltac show_report :=
  repeat match goal with
         | |- context [if ?b then _ else _] => destruct b
         end;
  (split;
   [ first [left; lookup_mk | right; lookup_mk]
   | intros data sensors Hdata Hsensors; eexists;
     (split;
      [ eapply (state_of_report _ _ _ _ Hdata Hsensors);
        [in_table | lookup_mk | discriminate | lookup_mk]
      | discriminate ]) ]).

Ltac run_inv H :=
  repeat first
    [ apply ret_inv in H; subst
    | apply bind_inv in H; destruct H as (? & ? & _ & H); cbv beta in H
    | match type of H with
      | (if ?b then _ else _) _ = _ => destruct b
      | (match ?x with _ => _ end) _ = _ => destruct x
      | (let (_, _) := ?x in _) _ = _ => destruct x
      end ].

(** X20. Every sensor class always has something to show.  Whatever the
    measurement does, each of the seven sensors returns a report (it never
    raises) whose status is online or offline, never error; and for data
    that hold this report the entity of that sensor type has a state that
    is not None: the sensors turn their own failures into numbers such as
    a latency of 0 or a loss of 100. *)
Theorem sensor_reports_have_a_state {W : Type}
    (self : DNSConfigSensor.detectors W) (_test_dns_resolution : DNSConfigSensor.resolver W)
    (_ping_host : ping_host W) (count : Z)
    (_run_speedtest : M W (option (Q * Q * Q)))
    (_test_dns_query : DNSReliabilitySensor.dns_query W)
    (_get_route : RouteStabilitySensor.tracer W) (route_sensor : RouteStabilitySensor.state) :
  forall (sensor_type : string) (get_data : M W dict) (w : W),
    In (sensor_type, get_data)
       [ ("dns_config", DNSConfigSensor.get_data self _test_dns_resolution);
         ("latency", LatencySensor.get_data _ping_host count);
         ("packet_loss", PacketLossSensor.get_data _ping_host count);
         ("jitter", JitterSensor.get_data _ping_host count);
         ("throughput", ThroughputSensor.get_data _run_speedtest);
         ("dns_reliability", DNSReliabilitySensor.get_data _test_dns_query);
         ("route_stability",
            let* (report, _) := RouteStabilitySensor.get_data _get_route route_sensor in
            ret report) ] ->
    exists report w',
      get_data w = (Return report, w') /\
      (report !! "status" = Some (VStr "online") \/
       report !! "status" = Some (VStr "offline")) /\
      forall data sensors,
        data !! "sensors" = Some (VDict sensors) ->
        sensors !! sensor_type = Some (VDict report) ->
        exists v, ISPHealthSensor.native_value (Some data) sensor_type
                  = ISPHealthSensor.Value v /\ v <> VNone.
Proof.
  intros sensor_type get_data w Hin. cbn [In] in Hin.
  destruct Hin as [H|[H|[H|[H|[H|[H|[H|[]]]]]]]]; injection H as <- <-.
  - apply try_except_returns.
    + intros report w' Hrun. run_inv Hrun; show_report.
    + intros e w1. do 2 eexists. split; [reflexivity|]. show_report.
  - apply try_except_returns.
    + intros report w' Hrun. run_inv Hrun; show_report.
    + intros e w1. do 2 eexists. split; [reflexivity|]. show_report.
  - apply try_except_returns.
    + intros report w' Hrun. run_inv Hrun; show_report.
    + intros e w1. do 2 eexists. split; [reflexivity|]. show_report.
  - apply try_except_returns.
    + intros report w' Hrun. run_inv Hrun; show_report.
    + intros e w1. do 2 eexists. split; [reflexivity|]. show_report.
  - apply try_except_returns.
    + intros report w' Hrun. run_inv Hrun; show_report.
    + intros e w1. do 2 eexists. split; [reflexivity|]. show_report.
  - apply try_except_returns.
    + intros report w' Hrun. run_inv Hrun; show_report.
    + intros e w1. do 2 eexists. split; [reflexivity|]. show_report.
  - unfold bind.
    destruct (RouteStabilitySensor.get_data _get_route route_sensor w)
      as [[[report self']|e] w'] eqn:Hrun.
    + exists report, w'. split; [reflexivity|].
      apply try_except_inv in Hrun as [Hrun|(e & w1 & _ & Hrun)].
      * run_inv Hrun; injection Hrun as -> ->; show_report.
      * run_inv Hrun; injection Hrun as -> ->; show_report.
    + exfalso. apply try_except_inv_raise in Hrun as (e0 & w1 & _ & Hrun).
      discriminate Hrun.
Qed.

Lemma sensor_reports_have_a_state_witness :
  exists report w',
    LatencySensor.get_data replay 3 [None; None; None] = (Return report, w') /\
    report !! "status" = Some (VStr "offline") /\
    exists v,
      ISPHealthSensor.native_value
        (Some (mk_dict [ ("sensors", VDict (mk_dict [ ("latency", VDict report) ])) ]))
        "latency"
      = ISPHealthSensor.Value v /\ v <> VNone.
Proof.
  destruct (sensor_reports_have_a_state
              {| DNSConfigSensor._get_supervisor_dns := ret [];
                 DNSConfigSensor._get_docker_host_dns := ret [];
                 DNSConfigSensor._get_gateway_dns := ret [];
                 DNSConfigSensor._get_systemd_resolve_dns := ret [];
                 DNSConfigSensor._get_resolv_conf_dns := ret [] |}
              (fun w => (true, w)) replay 3 (ret None) (fun _ w => (true, w))
              (fun w => (None, w)) RouteStabilitySensor.init
              "latency" (LatencySensor.get_data replay 3) [None; None; None])
    as (report & w' & Hrun & Hstatus & Hstate).
  { right. left. reflexivity. }
  exists report, w'. split; [exact Hrun|].
  assert (Hreport : report = fst (let (o, _) := LatencySensor.get_data replay 3
                                                  [None; None; None] in
                                  (match o with Return r => r | Raise _ => ∅ end, tt))).
  { now rewrite Hrun. }
  split; [rewrite Hreport; reflexivity|].
  apply (Hstate _ (mk_dict [("latency", VDict report)])); apply mk_dict_cons_eq.
Defined.

Lemma mk_dict_nil (k : string) : mk_dict [] !! k = None.
Proof. apply lookup_empty. Qed.

Ltac lookup_none :=
  repeat (rewrite mk_dict_cons_ne by discriminate); apply mk_dict_nil.

Lemma latency_attributes (report data sensors : dict) (status : value) :
  data !! "sensors" = Some (VDict sensors) ->
  sensors !! "latency" = Some (VDict report) ->
  report !! "timestamp" = None -> report !! "status" = Some status ->
  report !! "minimum" = None -> report !! "maximum" = None ->
  report !! "results" = None ->
  ISPHealthSensor.extra_state_attributes (Some data) "latency"
  = ISPHealthSensor.Value (mk_dict [ ("status", status); ("minimum", VNone);
                                     ("maximum", VNone); ("results", VList []) ]).
Proof.
  intros Hdata Hsensors Ht Hs Hmin Hmax Hres.
  unfold ISPHealthSensor.extra_state_attributes, ISPHealthSensor.sensor_data, dict_get_or.
  rewrite (truthy_dict data _ _ Hdata), Hdata. cbn [negb default from_option id].
  rewrite Hsensors. cbn [default from_option id].
  rewrite (truthy_dict report _ _ Hs). cbn [negb ISPHealthSensor.common].
  rewrite Ht, Hs.
  unfold ISPHealthSensor.specific. cbn [String.eqb Ascii.eqb Bool.eqb].
  unfold dict_get, dict_get_or. rewrite Hmin, Hmax, Hres. cbn [default from_option id].
  reflexivity.
Qed.

(** X21. The attributes of the latency entity never show the minimum and
    the maximum of a real measurement.  The sensor writes them under
    [min] and [max], the entity reads [minimum] and [maximum]: for every
    report of [LatencySensor.get_data] the attributes are the status,
    [minimum] = None, [maximum] = None and an empty [results], without a
    [last_update].  Only the mock data, which use the long names, fill
    these attributes. *)
Theorem latency_attributes_are_blank {W : Type} (_ping_host : ping_host W) (count : Z)
    (w : W) :
  (exists report w' status lo hi,
     LatencySensor.get_data _ping_host count w = (Return report, w') /\
     report !! "status" = Some status /\
     report !! "min" = Some lo /\ report !! "max" = Some hi /\
     forall data sensors,
       data !! "sensors" = Some (VDict sensors) ->
       sensors !! "latency" = Some (VDict report) ->
       ISPHealthSensor.extra_state_attributes (Some data) "latency"
       = ISPHealthSensor.Value (mk_dict [ ("status", status); ("minimum", VNone);
                                          ("maximum", VNone); ("results", VList []) ]))
  /\ (forall (now : W -> string * W) (entry_data : dict),
        exists data w' attrs,
          ISPHealthDataUpdateCoordinator._get_mock_data now entry_data w = (Return data, w') /\
          ISPHealthSensor.extra_state_attributes (Some data) "latency"
          = ISPHealthSensor.Value attrs /\
          attrs !! "minimum" = Some (VFloat 20.1) /\
          attrs !! "maximum" = Some (VFloat 30.9)).
Proof.
  split.
  - destruct (latency_report _ping_host count w) as [Hnone Hsome].
    destruct (successes (fst (ping_outcomes _ping_host (Z.to_nat count) w))) as [|x l] eqn:Hs.
    + rewrite (Hnone eq_refl). do 5 eexists.
      split; [reflexivity|]. split; [lookup_mk|]. split; [lookup_mk|]. split; [lookup_mk|].
      intros data sensors Hdata Hsensors.
      apply (latency_attributes _ _ _ _ Hdata Hsensors); first [lookup_none | lookup_mk].
    + destruct Hsome as (lo & hi & _ & _ & _ & Hrun); [discriminate|].
      rewrite Hrun. do 5 eexists.
      split; [reflexivity|]. split; [lookup_mk|]. split; [lookup_mk|]. split; [lookup_mk|].
      intros data sensors Hdata Hsensors.
      apply (latency_attributes _ _ _ _ Hdata Hsensors); first [lookup_none | lookup_mk].
  - intros now entry_data.
    destruct (mock_data_returns now entry_data w)
      as (last_update & t1 & t2 & t3 & t4 & t5 & t6 & t7 & t8 & w' & Hrun).
    rewrite Hrun. do 3 eexists. split; [reflexivity|].
    set (data := mk_dict _).
    assert (Hsensors : data !! "sensors"
                       = Some (VDict (ISPHealthDataUpdateCoordinator.mock_sensors
                                        t1 t2 t3 t4 t5 t6 t7 t8))) by (unfold data; lookup_mk).
    unfold ISPHealthSensor.extra_state_attributes, ISPHealthSensor.sensor_data, dict_get_or.
    rewrite (truthy_dict data _ _ Hsensors), Hsensors. clearbody data.
    split; [reflexivity|]. split; vm_compute; reflexivity.
Qed.

(** The data of a cycle whose set-up succeeded. *)
Lemma cycle_data {W} (now : W -> string * W) (entry_data : dict)
    (monitor : ISPHealthMonitor.monitor W) (w : W) :
  exists ip_info w1 data w',
    ISPHealthMonitor.get_ip_information monitor w = (Return ip_info, w1) /\
    ISPHealthDataUpdateCoordinator._async_update_data now entry_data (ret monitor) w
    = (Return data, w') /\
    data !! "sensors"
    = Some (VDict (VDict <$> written (<["ip_info" := ip_info]> ∅)
                               (ISPHealthMonitor.answers
                                  (ISPHealthMonitor.sensors monitor) w1))).
Proof.
  destruct (get_ip_information_returns monitor w) as (ip_info & w1 & Hip).
  exists ip_info, w1.
  unfold ISPHealthDataUpdateCoordinator._async_update_data, try_except,
    ISPHealthDataUpdateCoordinator.update_body, bind, ret,
    ISPHealthMonitor.get_all_sensor_data, bind.
  rewrite Hip, collect_loop_spec. unfold total.
  destruct (now _) as [last_update w3].
  do 2 eexists. split; [reflexivity|]. split; [reflexivity|]. apply mk_dict_cons_eq.
Qed.

Lemma metric_entry_lookup (data : dict) (results : gmap string dict) (name : string) :
  data !! "sensors" = Some (VDict (VDict <$> results)) ->
  ISPHealthDataUpdateCoordinator.metric_entry data name = results !! name.
Proof.
  intros Hdata. unfold ISPHealthDataUpdateCoordinator.metric_entry.
  rewrite Hdata, lookup_fmap. now destruct (results !! name).
Qed.

Lemma specific_has_no_status (t : string) (entry update : dict) :
  ISPHealthSensor.specific t entry = Some update -> update !! "status" = None.
Proof.
  unfold ISPHealthSensor.specific.
  repeat match goal with
         | |- context [if ?b then _ else _] => destruct b
         end; intros H; try discriminate H; injection H as <-;
    first [ lookup_none
          | repeat (rewrite lookup_insert_ne by discriminate); apply lookup_empty ].
Qed.

Lemma state_of_error (data : dict) (results : gmap string dict) (name : string)
    (entry : dict) :
  data !! "sensors" = Some (VDict (VDict <$> results)) ->
  results !! name = Some entry ->
  entry !! "status" = Some (VStr "error") ->
  ISPHealthSensor.native_value (Some data) name = ISPHealthSensor.Value VNone /\
  exists attrs,
    ISPHealthSensor.extra_state_attributes (Some data) name = ISPHealthSensor.Value attrs /\
    attrs !! "status" = Some (VStr "error").
Proof.
  intros Hdata Hname Hstatus.
  unfold ISPHealthSensor.native_value, ISPHealthSensor.extra_state_attributes,
    ISPHealthSensor.sensor_data, dict_get_or.
  rewrite (truthy_dict data _ _ Hdata), Hdata. cbn [negb default from_option id].
  rewrite lookup_fmap, Hname. cbn [fmap option_fmap option_map default from_option id].
  rewrite (truthy_dict entry _ _ Hstatus). cbn [negb ISPHealthSensor.common].
  unfold dict_get. rewrite Hstatus. cbn [default from_option id eq_str String.eqb
                                          Ascii.eqb Bool.eqb].
  split; [reflexivity|].
  destruct (ISPHealthSensor.specific name entry) as [update|] eqn:Hspecific.
  - eexists. split; [reflexivity|]. rewrite lookup_union.
    rewrite (specific_has_no_status _ _ _ Hspecific), lookup_insert_eq. reflexivity.
  - eexists. split; [reflexivity|]. apply lookup_insert_eq.
Qed.

Lemma state_of_missing (data : dict) (results : gmap string dict) (name : string) :
  data !! "sensors" = Some (VDict (VDict <$> results)) ->
  results !! name = None ->
  ISPHealthSensor.native_value (Some data) name = ISPHealthSensor.Value VNone /\
  ISPHealthSensor.extra_state_attributes (Some data) name = ISPHealthSensor.Value ∅.
Proof.
  intros Hdata Hname.
  unfold ISPHealthSensor.native_value, ISPHealthSensor.extra_state_attributes,
    ISPHealthSensor.sensor_data, dict_get_or.
  rewrite (truthy_dict data _ _ Hdata), Hdata. cbn [negb default from_option id].
  rewrite lookup_fmap, Hname. split; reflexivity.
Qed.

(** X22. What an entity shows after a cycle in which something failed.  For
    the data of any cycle whose set-up succeeded: an entity whose metric
    was not collected has the state None and no attributes; an entity
    whose entry has the status error has the state None while its
    attributes carry that status.  Such entries arise when a sensor
    raises, and for ip_info when every provider fails: then the ip_info
    entity has no state and the error text is kept in the data. *)
Theorem failed_metrics_show_no_state {W : Type} (now : W -> string * W)
    (entry_data : dict) (monitor : ISPHealthMonitor.monitor W) (w : W) :
  exists data w' w1,
    ISPHealthDataUpdateCoordinator._async_update_data now entry_data (ret monitor) w
    = (Return data, w') /\
    snd (ISPHealthMonitor.get_ip_information monitor w) = w1 /\
    (forall name,
       ISPHealthDataUpdateCoordinator.metric_entry data name = None ->
       ISPHealthSensor.native_value (Some data) name = ISPHealthSensor.Value VNone /\
       ISPHealthSensor.extra_state_attributes (Some data) name = ISPHealthSensor.Value ∅) /\
    (forall name entry,
       ISPHealthDataUpdateCoordinator.metric_entry data name = Some entry ->
       entry !! "status" = Some (VStr "error") ->
       ISPHealthSensor.native_value (Some data) name = ISPHealthSensor.Value VNone /\
       exists attrs,
         ISPHealthSensor.extra_state_attributes (Some data) name
         = ISPHealthSensor.Value attrs /\
         attrs !! "status" = Some (VStr "error")) /\
    (forall name e,
       NoDup (map fst (ISPHealthMonitor.sensors monitor)) ->
       In (name, Raise e) (ISPHealthMonitor.answers (ISPHealthMonitor.sensors monitor) w1) ->
       ISPHealthDataUpdateCoordinator.metric_entry data name
       = Some (ISPHealthMonitor.error_entry e) /\
       ISPHealthSensor.native_value (Some data) name = ISPHealthSensor.Value VNone) /\
    (forall e w2,
       ISPHealthMonitor.deadline monitor w = None ->
       IPInfoManager.get_ip_info (ISPHealthMonitor.ip_info_manager monitor)
         (Some (ISPHealthMonitor.ip_info_source monitor)) w = (Raise e, w2) ->
       ~ In "ip_info" (map fst (ISPHealthMonitor.sensors monitor)) ->
       ISPHealthSensor.native_value (Some data) "ip_info" = ISPHealthSensor.Value VNone /\
       exists entry,
         ISPHealthDataUpdateCoordinator.metric_entry data "ip_info" = Some entry /\
         entry !! "error" = Some (VStr (str_exn e))).
Proof.
  destruct (cycle_data now entry_data monitor w) as (ip_info & w1 & data & w' & Hip & Hrun & Hdata).
  exists data, w', w1. split; [exact Hrun|]. split; [now rewrite Hip|].
  set (results := written _ _) in Hdata.
  split.
  { intros name Hname. rewrite (metric_entry_lookup _ _ _ Hdata) in Hname.
    now apply (state_of_missing _ results). }
  split.
  { intros name entry Hname Hstatus. rewrite (metric_entry_lookup _ _ _ Hdata) in Hname.
    now apply (state_of_error _ results _ entry). }
  split.
  { intros name e Hnodup Hin.
    assert (Hentry : results !! name = Some (ISPHealthMonitor.error_entry e)).
    { unfold results. apply (written_entry _ _ name (Raise e)); [|exact Hin].
      now rewrite answers_names. }
    split; [now rewrite (metric_entry_lookup _ _ _ Hdata)|].
    apply (state_of_error _ results _ _ Hdata Hentry). apply mk_dict_cons_eq. }
  intros e w2 Hopen Hchain Hfresh.
  assert (Hinfo : exists timestamp,
             ip_info = mk_dict [ ("status", VStr "error"); ("error", VStr (str_exn e));
                                 ("timestamp", VStr timestamp) ]).
  { unfold ISPHealthMonitor.get_ip_information, try_except, ISPHealthMonitor.wait_for in Hip.
    rewrite Hopen, Hchain in Hip. unfold bind, total in Hip.
    destruct (ISPHealthMonitor.now monitor w2) as [timestamp w3].
    unfold IPInfoManager.get_ip_info in Hchain.
    rewrite (try_sources_raises _ _ _ _ _ _ Hchain) in Hip.
    exists timestamp. unfold ret in Hip. now injection Hip as <- _. }
  destruct Hinfo as (timestamp & ->).
  assert (Hentry : results !! "ip_info"
                   = Some (mk_dict [ ("status", VStr "error"); ("error", VStr (str_exn e));
                                     ("timestamp", VStr timestamp) ])).
  { unfold results. rewrite written_other; [apply lookup_insert_eq|].
    now rewrite answers_names. }
  split.
  - apply (state_of_error _ results _ _ Hdata Hentry). apply mk_dict_cons_eq.
  - eexists. split; [rewrite (metric_entry_lookup _ _ _ Hdata); exact Hentry|]. lookup_mk.
Qed.

Lemma failed_metrics_show_no_state_witness :
  exists data,
    fst (ISPHealthDataUpdateCoordinator._async_update_data
           (fun history => ("2024-05-01T12:00:05", history)) ∅
           (ret mixed_monitor) ([] : list string)) = Return data /\
    ISPHealthDataUpdateCoordinator.metric_entry data "jitter"
    = Some (ISPHealthMonitor.error_entry (Exception "no samples")) /\
    ISPHealthSensor.native_value (Some data) "jitter" = ISPHealthSensor.Value VNone /\
    ISPHealthSensor.native_value (Some data) "dns_config" = ISPHealthSensor.Value VNone.
Proof.
  destruct (failed_metrics_show_no_state
              (fun history : list string => ("2024-05-01T12:00:05", history)) ∅
              mixed_monitor [])
    as (data & w' & w1 & Hrun & Hw1 & Hmissing & _ & Hraised & _).
  exists data. rewrite Hrun. split; [reflexivity|].
  assert (Hjitter : ISPHealthDataUpdateCoordinator.metric_entry data "jitter"
                    = Some (ISPHealthMonitor.error_entry (Exception "no samples")) /\
                    ISPHealthSensor.native_value (Some data) "jitter"
                    = ISPHealthSensor.Value VNone).
  { apply Hraised.
    - apply (bool_decide_unpack _). vm_compute. exact I.
    - rewrite <- Hw1. right. left. reflexivity. }
  split; [exact (proj1 Hjitter)|]. split; [exact (proj2 Hjitter)|].
  apply Hmissing.
  assert (Hd : data = match fst (ISPHealthDataUpdateCoordinator._async_update_data
                                   (fun history => ("2024-05-01T12:00:05", history)) ∅
                                   (ret mixed_monitor) ([] : list string)) with
                      | Return d => d
                      | Raise _ => ∅
                      end) by now rewrite Hrun.
  rewrite Hd. reflexivity.
Defined.

(** ** The integration as a whole *)

Lemma answers_has {W} (sensors : list (string * M W dict)) (w : W) (name : string)
    (get_data : M W dict) :
  In (name, get_data) sensors ->
  exists wk, In (name, fst (get_data wk)) (ISPHealthMonitor.answers sensors w).
Proof.
  revert w. induction sensors as [|[name0 get0] rest IH]; intros w Hin; [destruct Hin|].
  cbn [ISPHealthMonitor.answers]. destruct Hin as [[= -> ->]|Hin].
  - exists w. now left.
  - destruct (IH (snd (get0 w)) Hin) as (wk & Hk). exists wk. now right.
Qed.

Lemma first_report_cases {W} (_get_route : RouteStabilitySensor.tracer W) (w : W) :
  exists report,
    fst (first_report _get_route w) = Return report /\
    ((report !! "status" = Some (VStr "offline") /\
      report !! "overall_stability" = Some (VInt 0) /\
      report !! "route_changes" = Some (VInt 0))
     \/ (report !! "status" = Some (VStr "online") /\
         report !! "overall_stability" = Some (VFloat 100.00) /\
         report !! "route_changes" = Some (VInt 0))).
Proof.
  unfold first_report, bind, RouteStabilitySensor.get_data, try_except, bind, total.
  destruct (_get_route w) as [[[|hop hops]|] w1]; unfold ret; simpl fst.
  - eexists. split; [reflexivity|]. left. repeat split.
  - eexists. split; [reflexivity|]. right. repeat split.
  - eexists. split; [reflexivity|]. left. repeat split.
Qed.

(** X23. In the integration the route stability metric cannot move.  Every
    update cycle constructs a new monitor, and with it a new route
    stability sensor whose history is empty, so no cycle ever compares
    two routes: when the sensor is enabled its entry is either offline
    with stability 0, or online with overall_stability 100.00 and
    route_changes 0, whatever the traces return and however often the
    route changed between cycles.  When it is disabled there is no
    entry. *)
Theorem integration_route_stability_is_constant {W : Type}
    (now : W -> string * W) (entry_data : dict) (deadline : W -> option W)
    (ip_info_source : string) (providers : IPInfoManager.providers W)
    (config : ISPHealthMonitor.sensors_config) (env : externals W) (w : W) :
  exists data w',
    ISPHealthDataUpdateCoordinator._async_update_data now entry_data
      (ret (new_monitor now deadline ip_info_source providers config env)) w
    = (Return data, w') /\
    (ISPHealthMonitor.route_stability config = false ->
     ISPHealthDataUpdateCoordinator.metric_entry data "route_stability" = None) /\
    (ISPHealthMonitor.route_stability config = true ->
     exists entry,
       ISPHealthDataUpdateCoordinator.metric_entry data "route_stability" = Some entry /\
       ((entry !! "status" = Some (VStr "offline") /\
         entry !! "overall_stability" = Some (VInt 0) /\
         entry !! "route_changes" = Some (VInt 0))
        \/ (entry !! "status" = Some (VStr "online") /\
            entry !! "overall_stability" = Some (VFloat 100.00) /\
            entry !! "route_changes" = Some (VInt 0)))).
Proof.
  destruct (cycle_data now entry_data
              (new_monitor now deadline ip_info_source providers config env) w)
    as (ip_info & w1 & data & w' & _ & Hrun & Hdata).
  exists data, w'. split; [exact Hrun|].
  rewrite (metric_entry_lookup _ _ _ Hdata).
  cbn [new_monitor ISPHealthMonitor.sensors].
  set (sensors := ISPHealthMonitor._initialize_sensors config (new_sensors env)).
  assert (Hnames : map fst (ISPHealthMonitor.answers sensors w1) = enabled_metrics config).
  { unfold sensors. now rewrite answers_names, initialize_sensors_names. }
  destruct (enabled_metrics_distinct config) as [Hnodup Hfresh].
  split.
  - intros Hoff. rewrite written_other.
    + now rewrite lookup_insert_ne by discriminate.
    + rewrite Hnames. clear -Hoff. destruct config as [[] [] [] [] [] [] []];
        cbn in Hoff; try discriminate Hoff; cbn; intuition discriminate.
  - intros Hon.
    assert (Hin : In ("route_stability", first_report (_get_route env)) sensors).
    { unfold sensors, ISPHealthMonitor._initialize_sensors. rewrite Hon.
      rewrite !in_app_iff. do 6 right. now left. }
    destruct (answers_has sensors w1 _ _ Hin) as (wk & Hk).
    destruct (first_report_cases (_get_route env) wk) as (report & Hreport & Hcases).
    rewrite Hreport in Hk.
    exists report. split; [|exact Hcases].
    rewrite (written_entry _ _ "route_stability" (Return report)); [reflexivity| |exact Hk].
    now rewrite Hnames.
Qed.

(** ** The entities that are set up *)

Lemma NoDup_keys_filter {A} (f : string * A -> bool) (l : list (string * A)) :
  List.NoDup (map fst l) -> List.NoDup (map fst (List.filter f l)).
Proof.
  induction l as [|[k a] l IH]; intros Hnodup; [constructor|].
  cbn [map fst] in Hnodup. apply List.NoDup_cons_iff in Hnodup as [Hfresh Hnodup].
  cbn [List.filter]. destruct (f (k, a)); [|now apply IH].
  cbn [map fst]. apply List.NoDup_cons_iff. split; [|now apply IH].
  intros Hin. apply Hfresh. apply List.in_map_iff in Hin as ([k' a'] & Hk & Hin).
  apply List.filter_In in Hin as [Hin _]. apply List.in_map_iff. now exists (k', a').
Qed.

Lemma add_if_absent (l : list string) (t : string) :
  let l' := if IPInfoManager.listed l t then l else l ++ [t] in
  (List.NoDup l -> List.NoDup l') /\ (forall x, In x l' <-> In x l \/ x = t).
Proof.
  cbv zeta. destruct (IPInfoManager.listed l t) eqn:Hl.
  - apply listed_spec in Hl. split; [tauto|]. intros x. split; [tauto|].
    intros [H| ->]; assumption.
  - assert (Hnot : ~ In t l).
    { intros Hin. apply listed_spec in Hin. congruence. }
    split.
    + intros Hnodup. apply List.NoDup_app; [exact Hnodup|repeat constructor; intros []|].
      intros x Hx [<-|[]]. tauto.
    + intros x. rewrite List.in_app_iff. cbn [In]. intuition.
Qed.

(** X24. Which entities are set up.  When the keys of the stored sensors
    configuration are distinct, no entity is created twice and every
    entity has a type of SENSOR_TYPES; the entities ip_info and dns_config
    are always created, also for a configuration that disables them or
    does not mention them; any other type gets an entity exactly when it
    is in SENSOR_TYPES and its configuration is a dict whose [enabled] is
    true or missing.  A bare flag instead of a dict counts as disabled. *)
Theorem entities_created (sensors_config : list (string * value)) :
  NoDup (map fst sensors_config) ->
  let entities := ISPHealthSensor.entity_types sensors_config in
  NoDup entities /\
  (forall t, In t entities -> In t ISPHealthDataUpdateCoordinator.SENSOR_TYPES) /\
  In "ip_info" entities /\ In "dns_config" entities /\
  (forall t, t <> "ip_info" -> t <> "dns_config" ->
     (In t entities <->
      In t ISPHealthDataUpdateCoordinator.SENSOR_TYPES /\
      exists c, In (t, VDict c) sensors_config /\
                value_truthy (dict_get_or c "enabled" (VBool true)) = true)).
Proof.
  intros Hnodup. apply NoDup_ListNoDup in Hnodup.
  unfold ISPHealthSensor.entity_types. cbn [fold_left].
  set (f := fun '(_, config) =>
              match config with
              | VDict c => value_truthy (dict_get_or c "enabled" (VBool true))
              | _ => false
              end).
  set (enabled := map fst (List.filter f sensors_config)).
  assert (Henabled : List.NoDup enabled) by now apply NoDup_keys_filter.
  assert (Hin : forall t, In t enabled <->
                  exists c, In (t, VDict c) sensors_config /\
                            value_truthy (dict_get_or c "enabled" (VBool true)) = true).
  { intros t. unfold enabled. rewrite List.in_map_iff. split.
    - intros ([t' v] & Ht & Hv). cbn in Ht. subst t'.
      apply List.filter_In in Hv as [Hv Hf]. destruct v; try discriminate Hf. eauto.
    - intros (c & Hc & Hf). exists (t, VDict c). split; [reflexivity|].
      apply List.filter_In. now split. }
  destruct (add_if_absent enabled "ip_info") as [Hn1 Hi1].
  set (l1 := if IPInfoManager.listed enabled "ip_info" then enabled
             else enabled ++ ["ip_info"]) in *.
  destruct (add_if_absent l1 "dns_config") as [Hn2 Hi2].
  set (l2 := if IPInfoManager.listed l1 "dns_config" then l1 else l1 ++ ["dns_config"]) in *.
  cbv zeta.
  assert (Hfinal : forall t,
            In t (List.filter (IPInfoManager.listed
                                 ISPHealthDataUpdateCoordinator.SENSOR_TYPES) l2)
            <-> In t l2 /\ In t ISPHealthDataUpdateCoordinator.SENSOR_TYPES).
  { intros t. rewrite List.filter_In. now rewrite listed_spec. }
  split; [apply NoDup_ListNoDup, List.NoDup_filter; auto|].
  split; [intros t Ht; now apply Hfinal in Ht|].
  split; [apply Hfinal; split; [apply Hi2; left; apply Hi1; now right|cbn; tauto]|].
  split; [apply Hfinal; split; [apply Hi2; now right|cbn; tauto]|].
  intros t H1 H2. rewrite Hfinal, Hi2, Hi1, Hin. tauto.
Qed.

Lemma entities_created_witness :
  let sensors_config :=
    [ ("dns_config", VDict (mk_dict [ ("enabled", VBool false) ]));
      ("latency", VDict (mk_dict [ ("interval", VInt 60) ]));
      ("jitter", VBool true);
      ("uptime", VDict (mk_dict [ ("enabled", VBool true) ])) ] in
  ISPHealthSensor.entity_types sensors_config = ["latency"; "ip_info"; "dns_config"]
  /\ NoDup (ISPHealthSensor.entity_types sensors_config).
Proof.
  intros sensors_config. split; [vm_compute; reflexivity|].
  apply (entities_created sensors_config).
  subst sensors_config. cbn [map fst].
  apply (bool_decide_unpack _). vm_compute. exact I.
Defined.

(** ** The parsers of the detection methods *)

Lemma append_cons (c : ascii) (s t : string) : String c s +:+ t = String c (s +:+ t).
Proof. reflexivity. Qed.

Lemma append_nil_r (s : string) : s +:+ EmptyString = s.
Proof. induction s as [|c s IH]; [reflexivity|now rewrite append_cons, IH]. Qed.

Lemma append_assoc (a b c : string) : (a +:+ b) +:+ c = a +:+ (b +:+ c).
Proof. induction a as [|x a IH]; [reflexivity|now rewrite !append_cons, IH]. Qed.

(** A str without white space. *)
Lemma split_words_word (w s acc : string) :
  (forall c, In c (String.list_ascii_of_string w) -> is_space c = false) ->
  split_words (w +:+ s) acc = split_words s (acc +:+ w).
Proof.
  revert acc. induction w as [|c w IH]; intros acc Hw.
  - change (EmptyString +:+ s) with s. now rewrite append_nil_r.
  - rewrite append_cons. cbn [split_words]. rewrite (Hw c) by now left.
    rewrite IH by (intros c' Hc'; apply Hw; now right).
    f_equal. now rewrite append_assoc.
Qed.

Lemma append_empty (a b : string) : a +:+ b = EmptyString -> a = EmptyString.
Proof. destruct a; [reflexivity|discriminate]. Qed.

Lemma eqb_append_char (acc : string) (c : ascii) :
  String.eqb (acc +:+ String c EmptyString) EmptyString = false.
Proof. apply String.eqb_neq. intros H. now destruct acc. Qed.

(** The words [str.split()] gives hold no white space and are not empty. *)
Lemma split_words_clean (s acc : string) :
  (forall c, In c (String.list_ascii_of_string acc) -> is_space c = false) ->
  Forall (fun w => w <> EmptyString /\
                   forall c, In c (String.list_ascii_of_string w) -> is_space c = false)
         (split_words s acc).
Proof.
  revert acc. induction s as [|c s IH]; intros acc Hacc; cbn [split_words].
  - destruct (String.eqb acc EmptyString) eqn:He; [constructor|].
    apply String.eqb_neq in He. repeat constructor; assumption.
  - destruct (is_space c) eqn:Hc.
    + destruct (String.eqb acc EmptyString) eqn:He.
      * apply IH. intros c' [].
      * apply String.eqb_neq in He. constructor; [now split|]. apply IH. intros c' [].
    + apply IH. intros c' Hc'.
      assert (Hl : String.list_ascii_of_string (acc +:+ String c EmptyString)
                   = String.list_ascii_of_string acc ++ [c]).
      { clear. induction acc as [|a acc IHa]; [reflexivity|].
        rewrite append_cons. cbn [String.list_ascii_of_string app]. now rewrite IHa. }
      rewrite Hl in Hc'. apply List.in_app_iff in Hc' as [Hc'|[<-|[]]]; auto.
Qed.

Lemma lstrip_clean (s : string) :
  (forall c, In c (String.list_ascii_of_string s) -> is_space c = false) -> lstrip s = s.
Proof.
  destruct s as [|c s]; intros Hs; [reflexivity|].
  cbn [lstrip]. now rewrite (Hs c) by now left.
Qed.

Lemma strip_clean (s : string) :
  (forall c, In c (String.list_ascii_of_string s) -> is_space c = false) -> strip s = s.
Proof.
  intros Hs. unfold strip. rewrite (lstrip_clean s Hs).
  rewrite lstrip_clean.
  - rewrite String.list_ascii_of_string_of_list_ascii, rev_involutive.
    apply String.string_of_list_ascii_of_string.
  - intros c. rewrite String.list_ascii_of_string_of_list_ascii, <- in_rev. apply Hs.
Qed.

Lemma py_split_clean (s : string) :
  Forall (fun w => w <> EmptyString /\ strip w = w) (py_split s).
Proof.
  unfold py_split. eapply Forall_impl; [apply (split_words_clean s EmptyString)|].
  - intros c [].
  - intros w [Hne Hw]. split; [exact Hne|now apply strip_clean].
Qed.

(** The second words of the lines that start with [nameserver]. *)
Lemma resolv_loop_spec (lines : list string) (acc : list string) :
  (forall line, In line lines -> startswith line "nameserver" = true ->
                (2 <= length (py_split line))%nat) ->
  DNSDetection.resolv_loop lines acc
  = Some (acc ++ DNSConfigSensor.filtered
                   (flat_map (fun line =>
                                if startswith line "nameserver"
                                then match py_split line with
                                     | _ :: dns_ip :: _ => [dns_ip]
                                     | _ => []
                                     end
                                else [])
                             lines)).
Proof.
  revert acc. induction lines as [|line rest IH]; intros acc Hok.
  - cbn. now rewrite app_nil_r.
  - cbn [DNSDetection.resolv_loop flat_map].
    assert (Hrest : forall l, In l rest -> startswith l "nameserver" = true ->
                              (2 <= length (py_split l))%nat).
    { intros l Hl. apply Hok. now right. }
    destruct (startswith line "nameserver") eqn:Hstart; [|now apply IH].
    specialize (Hok line (or_introl eq_refl) Hstart).
    pose proof (py_split_clean line) as Hclean.
    destruct (py_split line) as [|first [|second more]]; cbn in Hok; try lia.
    apply Forall_cons in Hclean as [_ Hclean]. apply Forall_cons in Hclean as [[_ Hs] _].
    cbv zeta. rewrite Hs. cbn [app].
    unfold DNSConfigSensor.filtered. rewrite filter_cons.
    destruct (DNSConfigSensor._is_container_dns second) eqn:Hc; cbn [negb].
    + rewrite decide_False by discriminate. now apply IH.
    + rewrite decide_True by reflexivity. rewrite IH by assumption.
      now rewrite <- app_assoc.
Qed.

Lemma resolv_loop_broken (lines : list string) (acc : list string) (line : string) :
  In line lines -> startswith line "nameserver" = true ->
  (length (py_split line) < 2)%nat ->
  DNSDetection.resolv_loop lines acc = None.
Proof.
  revert acc. induction lines as [|l rest IH]; intros acc Hin Hstart Hshort; [destruct Hin|].
  cbn [DNSDetection.resolv_loop].
  destruct Hin as [->|Hin].
  - rewrite Hstart. destruct (py_split line) as [|first [|second more]];
      cbn in Hshort; try lia; reflexivity.
  - destruct (startswith l "nameserver"); [|now apply IH].
    destruct (py_split l) as [|first [|second more]]; try reflexivity.
    cbv zeta. destruct (negb _); now apply IH.
Qed.

Lemma resolv_loop_outsiders (lines : list string) (acc servers : list string) :
  Forall (fun dns => DNSConfigSensor._is_container_dns dns = false) acc ->
  DNSDetection.resolv_loop lines acc = Some servers ->
  Forall (fun dns => DNSConfigSensor._is_container_dns dns = false) servers.
Proof.
  revert acc. induction lines as [|l rest IH]; intros acc Hacc; cbn [DNSDetection.resolv_loop].
  - now intros [= <-].
  - destruct (startswith l "nameserver"); [|now apply IH].
    destruct (py_split l) as [|first [|second more]]; try discriminate.
    cbv zeta. destruct (DNSConfigSensor._is_container_dns (strip second)) eqn:Hc; cbn [negb].
    + now apply IH.
    + apply IH. apply Forall_app. split; [exact Hacc|]. now repeat constructor.
Qed.

(** X25. Reading /etc/resolv.conf is all or nothing.  The method never
    raises and never returns an excluded address.  When every line that
    starts with [nameserver] has a second word, the result is the list of
    these second words, in order, without the excluded ones.  But one such
    line without a second word, anywhere in the file, makes the method
    return the empty list: the servers found on the other lines are lost,
    as they are when the file cannot be read. *)
Theorem resolv_conf_is_all_or_nothing {W : Type} (read_lines : M W (list string)) (w : W) :
  exists servers,
    DNSDetection._get_resolv_conf_dns read_lines w = (Return servers, snd (read_lines w)) /\
    Forall (fun dns => DNSConfigSensor._is_container_dns dns = false) servers /\
    (forall e, fst (read_lines w) = Raise e -> servers = []) /\
    (forall lines, fst (read_lines w) = Return lines ->
       ((exists line, In line lines /\ startswith line "nameserver" = true /\
                      (length (py_split line) < 2)%nat) ->
        servers = []) /\
       ((forall line, In line lines -> startswith line "nameserver" = true ->
                      (2 <= length (py_split line))%nat) ->
        servers = DNSConfigSensor.filtered
                    (flat_map (fun line =>
                                 if startswith line "nameserver"
                                 then match py_split line with
                                      | _ :: dns_ip :: _ => [dns_ip]
                                      | _ => []
                                      end
                                 else [])
                              lines))).
Proof.
  unfold DNSDetection._get_resolv_conf_dns.
  destruct (read_lines w) as [[lines|e] w'] eqn:Hread; cbn [fst snd].
  - eexists. split; [reflexivity|]. split.
    + destruct (DNSDetection.resolv_loop lines []) as [servers|] eqn:Hloop; cbn.
      * apply (resolv_loop_outsiders lines [] servers); [constructor|exact Hloop].
      * constructor.
    + split; [discriminate|]. intros lines' [= <-]. split.
      * intros (line & Hin & Hstart & Hshort).
        now rewrite (resolv_loop_broken lines [] line).
      * intros Hok. now rewrite resolv_loop_spec.
  - exists []. split; [reflexivity|]. split; [constructor|].
    split; [reflexivity|discriminate].
Qed.

Lemma resolv_conf_is_all_or_nothing_witness :
  DNSDetection._get_resolv_conf_dns
    (ret [ "nameserver 1.1.1.1" +:+ String LF EmptyString;
           "nameserver" +:+ String LF EmptyString;
           "nameserver 9.9.9.9" +:+ String LF EmptyString ]) tt
  = (Return [], tt)
  /\ DNSDetection._get_resolv_conf_dns
       (ret [ "# Generated by NetworkManager" +:+ String LF EmptyString;
              "nameserver 127.0.0.11" +:+ String LF EmptyString;
              "nameserver 1.1.1.1" +:+ String LF EmptyString;
              "nameserver 9.9.9.9" +:+ String LF EmptyString ]) tt
     = (Return ["1.1.1.1"; "9.9.9.9"], tt).
Proof.
  split.
  - destruct (resolv_conf_is_all_or_nothing
                (ret [ "nameserver 1.1.1.1" +:+ String LF EmptyString;
                       "nameserver" +:+ String LF EmptyString;
                       "nameserver 9.9.9.9" +:+ String LF EmptyString ]) tt)
      as (servers & Hrun & _ & _ & Hlines).
    rewrite Hrun. f_equal. f_equal.
    apply (proj1 (Hlines _ eq_refl)).
    exists ("nameserver" +:+ String LF EmptyString).
    split; [right; left; reflexivity|]. split; [reflexivity|]. vm_compute. lia.
  - destruct (resolv_conf_is_all_or_nothing
                (ret [ "# Generated by NetworkManager" +:+ String LF EmptyString;
                       "nameserver 127.0.0.11" +:+ String LF EmptyString;
                       "nameserver 1.1.1.1" +:+ String LF EmptyString;
                       "nameserver 9.9.9.9" +:+ String LF EmptyString ]) tt)
      as (servers & Hrun & _ & _ & Hlines).
    rewrite Hrun. f_equal. f_equal.
    rewrite (proj2 (Hlines _ eq_refl)); [vm_compute; reflexivity|].
    intros line [<-|[<-|[<-|[<-|[]]]]]; vm_compute; intros; try discriminate; lia.
Defined.

Lemma gateway_loop_cases (lines : list string) :
  DNSDetection.gateway_loop lines = []
  \/ exists gateway line,
       DNSDetection.gateway_loop lines = [gateway] /\
       DNSConfigSensor._is_container_dns gateway = false /\
       In line lines /\ str_contains "default via" line = true /\
       nth_error (py_split line) 2 = Some gateway.
Proof.
  induction lines as [|line rest IH]; [now left|].
  cbn [DNSDetection.gateway_loop].
  assert (Hrest : DNSDetection.gateway_loop rest = []
                  \/ exists gateway line0,
                       DNSDetection.gateway_loop rest = [gateway] /\
                       DNSConfigSensor._is_container_dns gateway = false /\
                       In line0 (line :: rest) /\ str_contains "default via" line0 = true /\
                       nth_error (py_split line0) 2 = Some gateway).
  { destruct IH as [IH|(g & l & H1 & H2 & H3 & H4 & H5)]; [now left|].
    right. exists g, l. split; [exact H1|]. split; [exact H2|].
    split; [now right|]. split; assumption. }
  destruct (str_contains "default via" line) eqn:Hvia; [|exact Hrest].
  destruct (py_split line) as [|p0 [|p1 [|gateway more]]] eqn:Hparts; try exact Hrest.
  destruct (DNSConfigSensor._is_container_dns gateway) eqn:Hc; cbn [negb]; [exact Hrest|].
  right. exists gateway, line. split; [reflexivity|]. split; [exact Hc|].
  split; [now left|]. split; [exact Hvia|now rewrite Hparts].
Qed.

Lemma gateway_loop_first (before after : list string) (line gateway : string) :
  (forall l g, In l before -> str_contains "default via" l = true ->
               nth_error (py_split l) 2 = Some g ->
               DNSConfigSensor._is_container_dns g = true) ->
  str_contains "default via" line = true ->
  nth_error (py_split line) 2 = Some gateway ->
  DNSConfigSensor._is_container_dns gateway = false ->
  DNSDetection.gateway_loop (before ++ line :: after) = [gateway].
Proof.
  intros Hbefore Hvia Hnth Hc.
  induction before as [|l before IH]; cbn [app DNSDetection.gateway_loop].
  - rewrite Hvia.
    destruct (py_split line) as [|p0 [|p1 [|g more]]]; try discriminate.
    injection Hnth as ->. now rewrite Hc.
  - assert (Hrest : DNSDetection.gateway_loop (before ++ line :: after) = [gateway]).
    { apply IH. intros l0 g Hl0. apply Hbefore. now right. }
    destruct (str_contains "default via" l) eqn:Hl; [|exact Hrest].
    destruct (py_split l) as [|p0 [|p1 [|g more]]] eqn:Hparts; try exact Hrest.
    rewrite (Hbefore l g); [exact Hrest|now left|exact Hl|now rewrite Hparts].
Qed.

Lemma gateway_loop_excluded (lines : list string) :
  (forall line gateway, In line lines -> str_contains "default via" line = true ->
                        nth_error (py_split line) 2 = Some gateway ->
                        DNSConfigSensor._is_container_dns gateway = true) ->
  DNSDetection.gateway_loop lines = [].
Proof.
  induction lines as [|line rest IH]; intros Hprivate; [reflexivity|].
  cbn [DNSDetection.gateway_loop].
  assert (Hrest : DNSDetection.gateway_loop rest = []).
  { apply IH. intros l g Hl. apply Hprivate. now right. }
  destruct (str_contains "default via" line) eqn:Hvia; [|exact Hrest].
  destruct (py_split line) as [|p0 [|p1 [|gateway more]]] eqn:Hparts; try exact Hrest.
  rewrite (Hprivate line gateway); [exact Hrest|now left|exact Hvia|now rewrite Hparts].
Qed.

(** X26. The gateway method returns the first public gateway.  It never
    raises.  After return code 0 it goes through the lines of
    [ip route show default] and returns, alone in a list, the third word
    of the first line that holds [default via] and whose third word is not
    an excluded address; the lines before it whose gateway is excluded,
    such as 192.168.1.1 or 10.0.0.1, are passed over.  When no line is
    such a line it returns nothing, and so it does after a return code
    other than 0 or when the call fails.  The Docker host method, which
    ends in the gateway method, can only return what that one returns. *)
Theorem gateway_method_rejects_private_gateways {W : Type}
    (ip_route : M W (Z * string)) (w : W) :
  (exists servers,
     DNSDetection._get_gateway_dns ip_route w = (Return servers, snd (ip_route w)) /\
     (forall stdout before line after gateway,
        fst (ip_route w) = Return (0%Z, stdout) ->
        split_char LF stdout = before ++ line :: after ->
        (forall l g,
           In l before -> str_contains "default via" l = true ->
           nth_error (py_split l) 2 = Some g ->
           DNSConfigSensor._is_container_dns g = true) ->
        str_contains "default via" line = true ->
        nth_error (py_split line) 2 = Some gateway ->
        DNSConfigSensor._is_container_dns gateway = false ->
        servers = [gateway]) /\
     (forall stdout,
        fst (ip_route w) = Return (0%Z, stdout) ->
        (forall line gateway,
           In line (split_char LF stdout) ->
           str_contains "default via" line = true ->
           nth_error (py_split line) 2 = Some gateway ->
           DNSConfigSensor._is_container_dns gateway = true) ->
        servers = []) /\
     (servers = []
      \/ exists gateway stdout line,
           servers = [gateway] /\
           DNSConfigSensor._is_container_dns gateway = false /\
           fst (ip_route w) = Return (0%Z, stdout) /\
           In line (split_char LF stdout) /\
           str_contains "default via" line = true /\
           nth_error (py_split line) 2 = Some gateway) /\
     (forall returncode stdout,
        fst (ip_route w) = Return (returncode, stdout) -> returncode <> 0%Z ->
        servers = []) /\
     (forall e, fst (ip_route w) = Raise e -> servers = []))
  /\ (forall nslookup : M W (Z * string),
        exists servers w',
          DNSDetection._get_docker_host_dns nslookup ip_route w = (Return servers, w') /\
          (servers = [] \/
           fst (DNSDetection._get_gateway_dns ip_route (snd (nslookup w))) = Return servers)).
Proof.
  split.
  - unfold DNSDetection._get_gateway_dns.
    destruct (ip_route w) as [[[returncode stdout]|e] w'] eqn:Hrun; cbn [fst snd].
    + eexists. split; [reflexivity|].
      destruct (returncode =? 0)%Z eqn:Hcode.
      * apply Z.eqb_eq in Hcode. subst returncode.
        split; [|split; [|split; [|split]]].
        { intros out before line after gateway [= <-] Hlines Hbefore Hvia Hnth Hc.
          rewrite Hlines. now apply gateway_loop_first. }
        { intros out [= <-] Hprivate. now apply gateway_loop_excluded. }
        { destruct (gateway_loop_cases (split_char LF stdout))
            as [->|(g & line & -> & Hc & Hin & Hvia & Hnth)]; [now left|].
          right. exists g, stdout, line. split; [reflexivity|]. split; [exact Hc|].
          split; [reflexivity|]. split; [exact Hin|]. split; assumption. }
        { intros rc out [= <- _] Hrc. congruence. }
        { discriminate. }
      * split; [|split; [|split; [|split]]].
        { intros out before line after gateway [= -> _]. discriminate Hcode. }
        { intros out [= -> _]. discriminate Hcode. }
        { now left. }
        { reflexivity. }
        { discriminate. }
    + exists []. split; [reflexivity|].
      split; [discriminate|]. split; [discriminate|]. split; [now left|].
      split; [discriminate|reflexivity].
  - intros nslookup. unfold DNSDetection._get_docker_host_dns.
    destruct (nslookup w) as [[[returncode stdout]|e] w1]; cbn [snd].
    + destruct (returncode =? 0)%Z.
      * unfold DNSDetection._get_gateway_dns.
        destruct (ip_route w1) as [[[rc out]|e] w2]; do 2 eexists;
          (split; [reflexivity|]); now right.
      * do 2 eexists. split; [reflexivity|]. now left.
    + do 2 eexists. split; [reflexivity|]. now left.
Qed.

Lemma gateway_method_rejects_private_gateways_witness :
  DNSDetection._get_gateway_dns
    (ret (0%Z, "default via 192.168.1.1 dev eth0 proto dhcp metric 100"
               +:+ String LF "default via 203.0.113.1 dev eth1 metric 200"
               +:+ String LF EmptyString))
    tt
  = (Return ["203.0.113.1"], tt)
  /\ DNSDetection._get_gateway_dns
       (ret (0%Z, "default via 192.168.1.1 dev eth0 proto dhcp metric 100"
                  +:+ String LF EmptyString))
       tt
     = (Return [], tt).
Proof.
  split.
  - destruct (gateway_method_rejects_private_gateways
                (ret (0%Z, "default via 192.168.1.1 dev eth0 proto dhcp metric 100"
                           +:+ String LF "default via 203.0.113.1 dev eth1 metric 200"
                           +:+ String LF EmptyString)) tt)
      as [(servers & Hrun & Hfirst & _) _].
    rewrite Hrun. f_equal. f_equal.
    apply (Hfirst _ ["default via 192.168.1.1 dev eth0 proto dhcp metric 100"]
             "default via 203.0.113.1 dev eth1 metric 200" [EmptyString] "203.0.113.1"
             eq_refl).
    + now vm_compute.
    + intros l g [<-|[]] _. vm_compute. intros [= <-]. reflexivity.
    + reflexivity.
    + reflexivity.
    + reflexivity.
  - destruct (gateway_method_rejects_private_gateways
                (ret (0%Z, "default via 192.168.1.1 dev eth0 proto dhcp metric 100"
                           +:+ String LF EmptyString)) tt)
      as [(servers & Hrun & _ & Hprivate & _) _].
    rewrite Hrun. f_equal. f_equal. apply (Hprivate _ eq_refl).
    intros line gateway [<-|[<-|[]]] _; vm_compute; intros [= <-]; reflexivity.
Defined.

Lemma supervisor_servers_outsiders (payload : value) :
  Forall (fun dns => DNSConfigSensor._is_container_dns dns = false)
         (DNSDetection.supervisor_servers payload).
Proof.
  unfold DNSDetection.supervisor_servers.
  destruct (match match payload with VDict p => dict_get p "data" | _ => VNone end with
            | VDict d => _ | _ => VNone end) as [| | | | | |l|]; try constructor.
  destruct (truthy l); [|constructor].
  induction l as [|v l IH]; [constructor|].
  cbn [omap list_omap]. destruct v as [| | | | |s| |]; try exact IH.
  destruct (DNSConfigSensor._is_container_dns s) eqn:Hs; cbn [negb]; [exact IH|].
  now constructor.
Qed.

Lemma supervisor_servers_from (d : dict) (l : list value) :
  dict_get d "servers" = VList l -> l <> [] ->
  DNSDetection.supervisor_servers (VDict (mk_dict [ ("data", VDict d) ]))
  = omap (fun s => match s with
                   | VStr s => if negb (DNSConfigSensor._is_container_dns s) then Some s
                               else None
                   | _ => None
                   end) l.
Proof.
  intros Hservers Hne. unfold DNSDetection.supervisor_servers.
  unfold dict_get at 1. rewrite mk_dict_cons_eq. cbn [default from_option id].
  rewrite Hservers. cbn [value_truthy].
  destruct l as [|v l]; [congruence|]. reflexivity.
Qed.

(** X27. What the Supervisor method returns.  It never raises and never
    returns an excluded address.  Without a token (unset or empty) it
    returns nothing and sends no request; after a status other than 200,
    or when the request or the decoding fails, it returns nothing.  When
    the answer holds a list under [data.servers] that is not empty, the
    result is made of the strs of that list that are not excluded; the
    list [upstream_servers] is then not looked at, even if every entry of
    [servers] was dropped. *)
Theorem supervisor_answer_is_filtered {W : Type} (SUPERVISOR_TOKEN : option string)
    (get_json : M W (Z * value)) (w : W) :
  exists servers w',
    DNSDetection._get_supervisor_dns SUPERVISOR_TOKEN get_json w = (Return servers, w') /\
    Forall (fun dns => DNSConfigSensor._is_container_dns dns = false) servers /\
    (SUPERVISOR_TOKEN = None \/ SUPERVISOR_TOKEN = Some EmptyString ->
     servers = [] /\ w' = w) /\
    (forall token, SUPERVISOR_TOKEN = Some token -> token <> EmptyString ->
       w' = snd (get_json w) /\
       (forall e, fst (get_json w) = Raise e -> servers = []) /\
       (forall status payload,
          fst (get_json w) = Return (status, payload) ->
          (status <> 200%Z -> servers = []) /\
          (status = 200%Z -> servers = DNSDetection.supervisor_servers payload)))
  /\ (forall (d : dict) (l : list value),
        dict_get d "servers" = VList l -> l <> [] ->
        DNSDetection.supervisor_servers (VDict (mk_dict [ ("data", VDict d) ]))
        = omap (fun s => match s with
                         | VStr s =>
                             if negb (DNSConfigSensor._is_container_dns s) then Some s
                             else None
                         | _ => None
                         end) l)
  /\ (forall payload, match payload with VDict _ => False | _ => True end ->
        DNSDetection.supervisor_servers payload = []).
Proof.
  unfold DNSDetection._get_supervisor_dns.
  destruct SUPERVISOR_TOKEN as [token|].
  - destruct (String.eqb token EmptyString) eqn:Htoken.
    + apply String.eqb_eq in Htoken. subst token.
      exists [], w. split; [reflexivity|]. split; [constructor|].
      split; [now intros _|]. split; [intros t [= <-] Ht; congruence|].
      split; [apply supervisor_servers_from|]. now intros [].
    + apply String.eqb_neq in Htoken.
      destruct (get_json w) as [[[status payload]|e] w'] eqn:Hget; cbn [fst snd].
      * do 2 eexists. split; [reflexivity|]. split.
        { destruct (status =? 200)%Z; [apply supervisor_servers_outsiders|constructor]. }
        split; [intros [H|[= H]]; congruence|].
        split.
        { intros t _ _. split; [reflexivity|]. split; [discriminate|].
          intros s p [= <- <-]. split; intros Hs.
          - apply Z.eqb_neq in Hs. now rewrite Hs.
          - apply Z.eqb_eq in Hs. now rewrite Hs. }
        split; [apply supervisor_servers_from|]. now intros [].
      * exists [], w'. split; [reflexivity|]. split; [constructor|].
        split; [intros [H|[= H]]; congruence|].
        split; [intros t _ _; split; [reflexivity|]; split; [reflexivity|discriminate]|].
        split; [apply supervisor_servers_from|]. now intros [].
  - exists [], w. split; [reflexivity|]. split; [constructor|].
    split; [now intros _|]. split; [discriminate|].
    split; [apply supervisor_servers_from|]. now intros [].
Qed.

Lemma supervisor_answer_is_filtered_witness :
  DNSDetection.supervisor_servers
    (VDict (mk_dict
       [ ("result", VStr "ok");
         ("data", VDict (mk_dict
            [ ("servers", VList [ VStr "192.168.1.1" ]);
              ("upstream_servers", VList [ VStr "9.9.9.9" ]) ])) ]))
  = []
  /\ DNSDetection._get_supervisor_dns (Some EmptyString)
       (fun history : list string => (Raise (Exception "unreachable"), history ++ ["GET"])) []
     = (Return [], []).
Proof.
  split; [vm_compute; reflexivity|].
  destruct (supervisor_answer_is_filtered (Some EmptyString)
              (fun history : list string =>
                 (Raise (Exception "unreachable"), history ++ ["GET"])) [])
    as (servers & w' & Hrun & _ & Hnone & _).
  destruct (Hnone (or_intror eq_refl)) as [-> ->]. exact Hrun.
Defined.

Lemma split_char_first (sep : ascii) (a b : string) :
  ~ In sep (String.list_ascii_of_string a) ->
  split_char sep (a +:+ String sep b) = a :: split_char sep b.
Proof.
  induction a as [|c a IH]; intros Hsep.
  - change (EmptyString +:+ String sep b) with (String sep b).
    cbn [split_char]. now rewrite Ascii.eqb_refl.
  - rewrite append_cons. cbn [split_char].
    destruct (Ascii.eqb c sep) eqn:Hc.
    + apply Ascii.eqb_eq in Hc. subst c. exfalso. apply Hsep. now left.
    + rewrite IH; [reflexivity|]. intros Hin. apply Hsep. now right.
Qed.

Lemma split_char_last (sep : ascii) (a : string) :
  ~ In sep (String.list_ascii_of_string a) -> split_char sep a = [a].
Proof.
  induction a as [|c a IH]; intros Hsep; [reflexivity|].
  cbn [split_char]. destruct (Ascii.eqb c sep) eqn:Hc.
  - apply Ascii.eqb_eq in Hc. subst c. exfalso. apply Hsep. now left.
  - rewrite IH; [reflexivity|]. intros Hin. apply Hsep. now right.
Qed.

Lemma systemd_loop_entries (lines : list string) (acc : list string) :
  Forall (fun dns => dns <> EmptyString /\ DNSConfigSensor._is_container_dns dns = false) acc ->
  Forall (fun dns => dns <> EmptyString /\ DNSConfigSensor._is_container_dns dns = false)
         (DNSDetection.systemd_loop lines acc).
Proof.
  revert acc. induction lines as [|line rest IH]; intros acc Hacc; [exact Hacc|].
  cbn [DNSDetection.systemd_loop].
  destruct (str_contains "DNS Servers:" line || str_contains "Current DNS Server:" line);
    [|now apply IH].
  destruct (split_char ":" line) as [|first [|second more]]; try now apply IH.
  cbv zeta.
  destruct (String.eqb (strip second) EmptyString) eqn:He; cbn [negb andb]; [now apply IH|].
  destruct (DNSConfigSensor._is_container_dns (strip second)) eqn:Hc; cbn [negb];
    [now apply IH|].
  apply IH. apply Forall_app. split; [exact Hacc|].
  apply String.eqb_neq in He. now repeat constructor.
Qed.

(** X28. The systemd method reads a server up to the second colon of its
    line.  On a line that holds [DNS Servers:] or [Current DNS Server:]
    the entry recorded is the text between the first and the second colon
    of the line, stripped; what follows a second colon is dropped, so of
    an IPv6 address only the first group is kept.  A line with one colon
    gives everything after it as one entry, also when it names several
    servers.  Entries are never empty or excluded; after a return code
    other than 0, or when the call fails, the method returns nothing. *)
Theorem systemd_reads_up_to_the_second_colon {W : Type}
    (systemd_resolve : M W (Z * string)) (w : W) :
  (exists servers,
     DNSDetection._get_systemd_resolve_dns systemd_resolve w
     = (Return servers, snd (systemd_resolve w)) /\
     Forall (fun dns => dns <> EmptyString /\ DNSConfigSensor._is_container_dns dns = false)
            servers /\
     (forall e, fst (systemd_resolve w) = Raise e -> servers = []) /\
     (forall returncode stdout,
        fst (systemd_resolve w) = Return (returncode, stdout) ->
        (returncode <> 0%Z -> servers = []) /\
        (returncode = 0%Z ->
         servers = DNSDetection.systemd_loop (split_char LF stdout) [])))
  /\ (forall (label server : string) (more : option string) (acc : list string),
        ~ In ":"%char (String.list_ascii_of_string label) ->
        ~ In ":"%char (String.list_ascii_of_string server) ->
        let line := match more with
                    | Some tail => label +:+ ":" +:+ server +:+ ":" +:+ tail
                    | None => label +:+ ":" +:+ server
                    end in
        (str_contains "DNS Servers:" line || str_contains "Current DNS Server:" line) = true ->
        DNSDetection.systemd_loop [line] acc
        = if negb (String.eqb (strip server) EmptyString)
             && negb (DNSConfigSensor._is_container_dns (strip server))
          then acc ++ [strip server] else acc).
Proof.
  split.
  - unfold DNSDetection._get_systemd_resolve_dns.
    destruct (systemd_resolve w) as [[[returncode stdout]|e] w'] eqn:Hrun; cbn [fst snd].
    + eexists. split; [reflexivity|]. split.
      * destruct (returncode =? 0)%Z; [apply systemd_loop_entries|]; constructor.
      * split; [discriminate|]. intros rc out [= <- <-]. split; intros Hrc.
        -- apply Z.eqb_neq in Hrc. now rewrite Hrc.
        -- apply Z.eqb_eq in Hrc. now rewrite Hrc.
    + exists []. split; [reflexivity|]. split; [constructor|].
      split; [reflexivity|discriminate].
  - intros label server more acc Hlabel Hserver line Hmatch.
    cbn [DNSDetection.systemd_loop]. rewrite Hmatch.
    assert (Hsplit : exists pieces, split_char ":" line = label :: server :: pieces).
    { unfold line. destruct more as [tail'|].
      - change (label +:+ ":" +:+ server +:+ ":" +:+ tail')
          with (label +:+ String ":" (server +:+ String ":" tail')).
        rewrite split_char_first by assumption.
        rewrite split_char_first by assumption. eauto.
      - change (label +:+ ":" +:+ server) with (label +:+ String ":" server).
        rewrite split_char_first by assumption.
        rewrite split_char_last by assumption. eauto. }
    destruct Hsplit as (pieces & ->). cbv zeta.
    destruct (negb (String.eqb (strip server) EmptyString)
              && negb (DNSConfigSensor._is_container_dns (strip server))); reflexivity.
Qed.

Lemma systemd_reads_up_to_the_second_colon_witness :
  DNSDetection.systemd_loop ["         DNS Servers: 2001:4860:4860::8888"] []
  = ["2001"]
  /\ DNSDetection.systemd_loop ["Current DNS Server: 1.1.1.1 9.9.9.9"] []
     = ["1.1.1.1 9.9.9.9"].
Proof.
  destruct (systemd_reads_up_to_the_second_colon (ret (0%Z, EmptyString)) tt) as [_ Hline].
  split.
  - etransitivity.
    + refine (Hline "         DNS Servers" " 2001" (Some "4860:4860::8888") []
                    _ _ _).
      * vm_compute. intuition discriminate.
      * vm_compute. intuition discriminate.
      * vm_compute. reflexivity.
    + vm_compute. reflexivity.
  - etransitivity.
    + refine (Hline "Current DNS Server" " 1.1.1.1 9.9.9.9" None [] _ _ _).
      * vm_compute. intuition discriminate.
      * vm_compute. intuition discriminate.
      * vm_compute. reflexivity.
    + vm_compute. reflexivity.
Defined.

(** ** The parsers of the probes *)

Lemma route_loop_hops (lines : list string) (acc : list string) :
  exists hops,
    Probes.route_loop lines acc = acc ++ hops /\
    forall hop, In hop hops ->
      hop <> "*" /\
      exists line, In line lines /\ str_contains "traceroute" line = false /\
                   (3 <= length (py_split line))%nat /\
                   nth_error (py_split line) 1 = Some hop.
Proof.
  revert acc. induction lines as [|line rest IH]; intros acc.
  - exists []. split; [now rewrite app_nil_r|intros hop []].
  - cbn [Probes.route_loop].
    assert (Hrest : forall acc', exists hops,
              Probes.route_loop rest acc' = acc' ++ hops /\
              forall hop, In hop hops ->
                hop <> "*" /\
                exists line0, In line0 (line :: rest) /\
                              str_contains "traceroute" line0 = false /\
                              (3 <= length (py_split line0))%nat /\
                              nth_error (py_split line0) 1 = Some hop).
    { intros acc'. destruct (IH acc') as (hops & Hrun & Hhops). exists hops.
      split; [exact Hrun|]. intros hop Hhop.
      destruct (Hhops hop Hhop) as (Hstar & l & Hl & Hrest). split; [exact Hstar|].
      exists l. split; [now right|exact Hrest]. }
    destruct (str_contains "traceroute" line) eqn:Hheader; cbn [negb andb]; [apply Hrest|].
    destruct (String.eqb (strip line) EmptyString); cbn [negb]; [apply Hrest|].
    destruct (py_split line) as [|first [|second [|third more]]] eqn:Hparts;
      try apply Hrest.
    destruct (String.eqb second "*") eqn:Hstar; cbn [negb]; [apply Hrest|].
    destruct (Hrest (acc ++ [second])) as (hops & Hrun & Hhops).
    exists (second :: hops). split; [now rewrite Hrun, <- app_assoc|].
    intros hop [<-|Hhop]; [|now apply Hhops].
    apply String.eqb_neq in Hstar. split; [exact Hstar|].
    exists line. split; [now left|]. split; [exact Hheader|].
    rewrite Hparts. split; [cbn; lia|reflexivity].
Qed.

Lemma route_loop_silent (lines : list string) (acc : list string) :
  (forall line, In line lines ->
     str_contains "traceroute" line = true \/ (length (py_split line) < 3)%nat
     \/ nth_error (py_split line) 1 = Some "*") ->
  Probes.route_loop lines acc = acc.
Proof.
  revert acc. induction lines as [|line rest IH]; intros acc Hsilent; [reflexivity|].
  cbn [Probes.route_loop].
  assert (Hrest : Probes.route_loop rest acc = acc).
  { apply IH. intros l Hl. apply Hsilent. now right. }
  destruct (str_contains "traceroute" line) eqn:Hheader; cbn [negb andb]; [exact Hrest|].
  destruct (String.eqb (strip line) EmptyString); cbn [negb]; [exact Hrest|].
  destruct (Hsilent line (or_introl eq_refl)) as [H|[H|H]]; [congruence| |];
    destruct (py_split line) as [|first [|second [|third more]]]; try exact Hrest.
  - cbn in H. lia.
  - injection H as ->. exact Hrest.
Qed.

(** X29. Hops that do not answer leave no trace.  The route read from the
    traceroute output holds, in order, the second word of every line with
    at least three words that does not mention [traceroute], unless that
    word is a star: silent hops are skipped, not recorded.  So when no hop
    answers, a trace that ended with return code 0 gives the empty
    route, and the sensor reports offline with "Failed to get route" and
    keeps its history, exactly as after a failed trace (return code not 0,
    or an exception), which gives no route at all. *)
Theorem silent_hops_leave_no_trace {W : Type} (traceroute : M W (Z * string))
    (self : RouteStabilitySensor.state) (w : W) :
  let _get_route := Probes._get_route traceroute in
  snd (_get_route w) = snd (traceroute w) /\
  (forall e, fst (traceroute w) = Raise e -> fst (_get_route w) = None) /\
  (forall returncode stdout,
     fst (traceroute w) = Return (returncode, stdout) -> returncode <> 0%Z ->
     fst (_get_route w) = None) /\
  (forall stdout,
     fst (traceroute w) = Return (0%Z, stdout) ->
     exists route,
       fst (_get_route w) = Some route /\
       (forall hop, In hop route ->
          hop <> "*" /\
          exists line, In line (split_char LF stdout) /\
                       str_contains "traceroute" line = false /\
                       (3 <= length (py_split line))%nat /\
                       nth_error (py_split line) 1 = Some hop) /\
       ((forall line, In line (split_char LF stdout) ->
           str_contains "traceroute" line = true \/ (length (py_split line) < 3)%nat
           \/ nth_error (py_split line) 1 = Some "*") ->
        route = [] /\
        RouteStabilitySensor.get_data _get_route self w
        = (Return (mk_dict [ ("overall_stability", VInt 0);
                             ("route_changes", VInt 0);
                             ("current_route", VStr "Unknown");
                             ("status", VStr "offline");
                             ("error", VStr "Failed to get route") ], self),
           snd (traceroute w)))).
Proof.
  cbv zeta. unfold RouteStabilitySensor.get_data, try_except, bind, total, Probes._get_route.
  destruct (traceroute w) as [[[returncode stdout]|e] w'] eqn:Hrun; cbn [fst snd].
  - split; [reflexivity|]. split; [discriminate|]. split.
    + intros rc out [= <- <-] Hrc. apply Z.eqb_neq in Hrc. now rewrite Hrc.
    + intros out [= -> <-]. cbn [Z.eqb].
      destruct (route_loop_hops (split_char LF stdout) []) as (hops & Hloop & Hhops).
      cbn [app] in Hloop. exists hops. split; [now rewrite Hloop|].
      split; [exact Hhops|]. intros Hsilent.
      assert (Hempty : hops = []).
      { rewrite <- Hloop. now apply route_loop_silent. }
      split; [exact Hempty|]. rewrite Hloop, Hempty. reflexivity.
  - split; [reflexivity|]. split; [reflexivity|]. split; discriminate.
Qed.

Lemma silent_hops_leave_no_trace_witness :
  let output :=
    "traceroute to google.com (142.250.74.46), 10 hops max, 60 byte packets"
    +:+ String LF (" 1  * * *" +:+ String LF (" 2  * * *" +:+ String LF EmptyString)) in
  fst (Probes._get_route (ret (0%Z, output)) tt) = Some []
  /\ fst (Probes._get_route
            (ret (0%Z, " 1  192.0.2.1  0.4 ms" +:+ String LF
                         (" 2  * * *" +:+ String LF " 3  198.51.100.7  9.8 ms"))) tt)
     = Some ["192.0.2.1"; "198.51.100.7"].
Proof.
  intros output. split; [|vm_compute; reflexivity].
  destruct (silent_hops_leave_no_trace (ret (0%Z, output)) RouteStabilitySensor.init tt)
    as (_ & _ & _ & Hzero).
  destruct (Hzero output eq_refl) as (route & Hroute & _ & Hsilent).
  rewrite Hroute. f_equal. apply Hsilent.
  intros line Hline. vm_compute in Hline.
  destruct Hline as [<-|[<-|[<-|[<-|[]]]]]; vm_compute; auto.
Defined.

Lemma prefix_append_same (p x : string) : String.prefix p (p +:+ x) = true.
Proof. apply (startswith_spec (p +:+ x) p). now exists x. Qed.

Lemma prefix_within (p x y : string) :
  (String.length p <= String.length x)%nat ->
  String.prefix p (x +:+ y) = String.prefix p x.
Proof.
  revert x. induction p as [|c p IH]; intros x Hlen.
  - destruct (x +:+ y), x; reflexivity.
  - destruct x as [|d x]; [cbn in Hlen; lia|].
    rewrite append_cons. cbn [String.prefix].
    destruct (Ascii.ascii_dec c d); [|reflexivity].
    apply IH. cbn in Hlen. lia.
Qed.

Lemma str_contains_suffix (sub a b : string) :
  str_contains sub (a +:+ b) = false -> String.prefix sub b = false.
Proof.
  induction a as [|c a IH].
  - change (EmptyString +:+ b) with b. destruct b; cbn [str_contains];
      intros H; apply orb_false_elim in H; tauto.
  - rewrite append_cons. cbn [str_contains]. intros H.
    apply orb_false_elim in H as [_ H]. now apply IH.
Qed.

Lemma str_contains_inside (sub a b : string) : str_contains sub (a +:+ sub +:+ b) = true.
Proof.
  induction a as [|c a IH].
  - change (EmptyString +:+ sub +:+ b) with (sub +:+ b).
    destruct (sub +:+ b) eqn:Hs; cbn [str_contains]; rewrite <- Hs, prefix_append_same;
      reflexivity.
  - rewrite append_cons. cbn [str_contains]. rewrite IH. apply orb_true_r.
Qed.

Lemma length_append (a b : string) :
  String.length (a +:+ b) = (String.length a + String.length b)%nat.
Proof. induction a as [|c a IH]; [reflexivity|]. rewrite append_cons. cbn. now rewrite IH. Qed.

Lemma split_str_from_before (sep before rest piece : string) :
  (forall a b, before = a +:+ b -> b <> EmptyString ->
               String.prefix sep (b +:+ rest) = false) ->
  split_str_from sep (before +:+ rest) 0 piece
  = split_str_from sep rest 0 (piece +:+ before).
Proof.
  revert piece. induction before as [|c before IH]; intros piece Hfree.
  - change (EmptyString +:+ rest) with rest. now rewrite append_nil_r.
  - rewrite append_cons. cbn [split_str_from].
    rewrite <- append_cons, (Hfree EmptyString (String c before) eq_refl) by discriminate.
    rewrite IH.
    + f_equal. now rewrite append_assoc.
    + intros a b -> Hb. apply (Hfree (String c a) b); [reflexivity|exact Hb].
Qed.

Lemma split_str_from_skip (sep x rest piece : string) :
  split_str_from sep (x +:+ rest) (String.length x) piece = split_str_from sep rest 0 piece.
Proof.
  induction x as [|c x IH]; [reflexivity|].
  rewrite append_cons. cbn [split_str_from String.length]. exact IH.
Qed.

Lemma split_str_from_sep (c : ascii) (sep' rest piece : string) :
  split_str_from (String c sep') (String c sep' +:+ rest) 0 piece
  = piece :: split_str_from (String c sep') rest 0 EmptyString.
Proof.
  rewrite append_cons. cbn [split_str_from].
  rewrite <- append_cons, prefix_append_same.
  cbn [String.length]. rewrite Nat.sub_succ, Nat.sub_0_r.
  now rewrite split_str_from_skip.
Qed.

Lemma split_str_from_free (sep s piece : string) :
  str_contains sep s = false -> split_str_from sep s 0 piece = [piece +:+ s].
Proof.
  intros Hfree. rewrite <- (append_nil_r s) at 1.
  rewrite split_str_from_before; [reflexivity|].
  intros a b -> _. rewrite append_nil_r. now apply (str_contains_suffix sep a b).
Qed.

(** The pieces of a line with one [time=]. *)
Lemma split_time (before after : string) :
  str_contains "time=" (before +:+ "time") = false ->
  str_contains "time=" after = false ->
  split_str "time=" (before +:+ "time=" +:+ after) = [before; after].
Proof.
  intros Hbefore Hafter. unfold split_str.
  rewrite split_str_from_before.
  - rewrite split_str_from_sep. now rewrite split_str_from_free.
  - intros a b -> Hb.
    change ("time=" +:+ after) with ("time" +:+ ("=" +:+ after)).
    rewrite <- append_assoc. rewrite prefix_within.
    + apply (str_contains_suffix "time=" a (b +:+ "time")). now rewrite <- append_assoc.
    + rewrite length_append. destruct b; [congruence|]. cbn. lia.
Qed.

Lemma ping_time_skips (py_float : string -> outcome Q) (skipped lines : list string) :
  (forall line, In line skipped -> str_contains "time=" line = false) ->
  Probes.ping_time py_float (skipped ++ lines) = Probes.ping_time py_float lines.
Proof.
  induction skipped as [|line rest IH]; intros Hfree; [reflexivity|].
  cbn [app Probes.ping_time]. rewrite (Hfree line) by now left.
  apply IH. intros l Hl. apply Hfree. now right.
Qed.

(** X30. Where the latency of a ping comes from.  The probe reads the
    output of [ping] only after return code 0 and otherwise gives None,
    as it does when the call fails.  The first line that holds [time=]
    decides: when [time=] occurs once in it and is followed by a word and
    white space, the latency is [float] of that word, whatever unit
    follows, and None if [float] refuses the word; when only white space
    follows [time=], the result is None.  Lines before it that do not
    hold [time=] are skipped, lines after it are never read. *)
Theorem ping_reads_the_first_time {W : Type} (py_float : string -> outcome Q)
    (ping : M W (Z * string)) (w : W) :
  let _ping_host := Probes._ping_host py_float ping in
  snd (_ping_host w) = snd (ping w) /\
  (forall e, fst (ping w) = Raise e -> fst (_ping_host w) = None) /\
  (forall returncode stdout,
     fst (ping w) = Return (returncode, stdout) ->
     (returncode <> 0%Z -> fst (_ping_host w) = None) /\
     (returncode = 0%Z ->
      fst (_ping_host w) = Probes.ping_time py_float (split_char LF stdout))) /\
  (forall (skipped more : list string) (before number rest : string) (sp : ascii),
     (forall line, In line skipped -> str_contains "time=" line = false) ->
     str_contains "time=" (before +:+ "time") = false ->
     str_contains "time=" (number +:+ String sp rest) = false ->
     (forall c, In c (String.list_ascii_of_string number) -> is_space c = false) ->
     is_space sp = true ->
     Probes.ping_time py_float
       (skipped ++ (before +:+ "time=" +:+ number +:+ String sp rest) :: more)
     = if String.eqb number EmptyString
       then match py_split rest with
            | [] => None
            | time_part :: _ => Config.to_option (py_float time_part)
            end
       else Config.to_option (py_float number)).
Proof.
  cbv zeta. unfold Probes._ping_host.
  split; [now destruct (ping w) as [[[rc out]|e] w']|].
  split; [intros e He; destruct (ping w) as [[[rc out]|e'] w']; [discriminate|reflexivity]|].
  split.
  - intros rc out Hrun. destruct (ping w) as [[[rc' out']|e'] w']; [|discriminate].
    cbn [fst] in *. injection Hrun as -> ->. split; intros Hrc.
    + apply Z.eqb_neq in Hrc. now rewrite Hrc.
    + apply Z.eqb_eq in Hrc. now rewrite Hrc.
  - intros skipped more before number rest sp Hskipped Hbefore Hafter Hnumber Hsp.
    rewrite ping_time_skips by assumption. cbn [Probes.ping_time].
    rewrite str_contains_inside, split_time by assumption.
    unfold py_split. rewrite split_words_word by assumption.
    change (EmptyString +:+ number) with number. cbn [split_words]. rewrite Hsp.
    destruct (String.eqb number EmptyString).
    + fold (py_split rest). destruct (py_split rest) as [|time_part others];
        [reflexivity|]. now destruct (py_float time_part).
    + now destruct (py_float number).
Qed.

Lemma ping_reads_the_first_time_witness :
  let py_float (s : string) : outcome Q :=
    if String.eqb s "12.3" then Return 12.3
    else Raise (ValueError "could not convert string to float") in
  Probes.ping_time py_float
    [ "PING 8.8.8.8 (8.8.8.8) 56(84) bytes of data.";
      "64 bytes from 8.8.8.8: icmp_seq=1 ttl=117 time=12.3 ms";
      EmptyString;
      "rtt min/avg/max/mdev = 12.3/12.3/12.3/0.0 ms" ]
  = Some 12.3.
Proof.
  intros py_float.
  destruct (ping_reads_the_first_time py_float (ret (0%Z, EmptyString)) tt)
    as (_ & _ & _ & Hline).
  etransitivity.
  - refine (Hline [ "PING 8.8.8.8 (8.8.8.8) 56(84) bytes of data." ]
                  [ EmptyString; "rtt min/avg/max/mdev = 12.3/12.3/12.3/0.0 ms" ]
                  "64 bytes from 8.8.8.8: icmp_seq=1 ttl=117 " "12.3" "ms" " "%char
                  _ _ _ _ _).
    + intros line [<-|[]]. vm_compute. reflexivity.
    + vm_compute. reflexivity.
    + vm_compute. reflexivity.
    + vm_compute. intuition (subst; reflexivity).
    + reflexivity.
  - vm_compute. reflexivity.
Defined.
